(** * Amiya-Bot-core: handler registry and KOOK gateway adapter

    A shallow embedding of
      - [amiyabot/builtin/message/structure.py]  (class [Verify] and the
        rendering of a message),
      - [amiyabot/handler/__init__.py]           (handler factories, plugins),
      - [amiyabot/adapters/kook/__init__.py]     (the KOOK gateway client),
      - [amiyabot/adapters/mirai/__init__.py]    (the mirai-api-http client),
    together with the properties of these programs.

    Conventions.  Python [int] is [Z]; Python [float] is the kernel's
    binary64 [float]; [str] is [string].  A Python [dict] is an association
    list in insertion order with unique keys (module [PyDict]).  Mutable list
    objects that are shared between dictionaries live in an explicit heap and
    are referred to by location; so do, in module [Objects], the factories
    that [plugins] refers to.  Exceptions are values of type [exn]. *)

From Stdlib Require Import ZArith String Ascii List Lia Bool Floats.
From stdpp Require Import base list strings option pretty.

#[local] Set Warnings "-register-all".
#[local] Open Scope Z_scope.

(** ** Python values *)

Module Py.

(** The values [json.loads] produces, which are also the values whose truth
    value the code asks for. *)
Inductive pyval :=
| PyNone
| PyBool (b : bool)
| PyInt (z : Z)
| PyFloat (f : float)
| PyStr (s : string)
| PyList (l : list pyval)
| PyDict (d : list (string * pyval)).

(** [bool(v)]. *)
Definition truthy (v : pyval) : bool :=
  match v with
  | PyNone => false
  | PyBool b => b
  | PyInt z => negb (z =? 0)
  | PyFloat f => negb (PrimFloat.eqb f 0%float)
  | PyStr s => negb (String.eqb s "")
  | PyList l => match l with [] => false | _ => true end
  | PyDict d => match d with [] => false | _ => true end
  end.

(** [v != 0].  [False == 0] and [0.0 == 0] hold in Python; a value that is
    not a number differs from [0]. *)
Definition ne_zero (v : pyval) : bool :=
  match v with
  | PyBool b => b
  | PyInt z => negb (z =? 0)
  | PyFloat f => negb (PrimFloat.eqb f 0%float)
  | _ => true
  end.

(** The exceptions the modelled code raises or lets escape.
    [ResponseException] is declared in [amiyabot.network.httpRequests]; it
    is kept with the positional and the keyword arguments it was built
    from. *)
Inductive exn :=
| TypeError
| KeyError (key : string)
| AttributeError
| AssertionError
| TimeoutError
| RecursionError
| ResponseException (args : list pyval) (kwargs : list (string * pyval)).

(** The outcome of a call: a value, or a raised exception. *)
Inductive result (A : Type) :=
| Ok (a : A)
| Raise (e : exn).
Arguments Ok {A} a.
Arguments Raise {A} e.

End Py.
Import Py.

(** ** Python dictionaries *)

Module PyDict.
Section dict.
Context {K V : Type} `{EqDecision K}.

(** [d.get(k)]. *)
Fixpoint get (d : list (K * V)) (k : K) : option V :=
  match d with
  | [] => None
  | (k', v) :: d' => if decide (k = k') then Some v else get d' k
  end.

(** [k in d]. *)
Definition contains (d : list (K * V)) (k : K) : bool :=
  match get d k with Some _ => true | None => false end.

(** [d[k] = v]: an existing key keeps its place, a new key goes last. *)
Fixpoint set (d : list (K * V)) (k : K) (v : V) : list (K * V) :=
  match d with
  | [] => [(k, v)]
  | (k', v') :: d' =>
      if decide (k = k') then (k, v) :: d' else (k', v') :: set d' k v
  end.

(** [del d[k]]. *)
Fixpoint del (d : list (K * V)) (k : K) : list (K * V) :=
  match d with
  | [] => []
  | (k', v') :: d' =>
      if decide (k = k') then d' else (k', v') :: del d' k
  end.

Definition keys (d : list (K * V)) : list K := map fst d.

(** [ChainMap(m1, ..., mn)[k]]: the first map that has [k] answers. *)
Fixpoint chain_get (maps : list (list (K * V))) (k : K) : option V :=
  match maps with
  | [] => None
  | m :: maps' =>
      match get m k with
      | Some v => Some v
      | None => chain_get maps' k
      end
  end.

(** [d.update(dict.fromkeys(m))] on a dictionary of keys. *)
Definition update_keys (d : list K) (m : list (K * V)) : list K :=
  fold_left (fun acc k => if bool_decide (k ∈ acc) then acc else acc ++ [k])
            (keys m) d.

(** [iter(ChainMap(m1, ..., mn))]: the maps are visited from the last to the
    first, and a key keeps the place of its first visit. *)
Definition chain_keys (maps : list (list (K * V))) : list K :=
  fold_left update_keys (rev maps) [].

(** [dict(ChainMap(m1, ..., mn))]. *)
Definition of_chain (maps : list (list (K * V))) : list (K * V) :=
  omap (fun k => match chain_get maps k with
                 | Some v => Some (k, v)
                 | None => None
                 end)
       (chain_keys maps).

End dict.
End PyDict.

(** ** [amiyabot/builtin/message/structure.py] *)

Module Structure.

(** [class Verify]. *)
Record Verify := mkVerify {
  result : pyval;
  weight : pyval;
  keypoint : pyval
}.

(** [Verify.__init__(self, result, weight=0, keypoint=None)]; an omitted
    argument is [None] here. *)
Definition Verify_init (result : pyval) (weight keypoint : option pyval)
  : Verify :=
  {| result := result;
     weight := default (PyInt 0) weight;
     keypoint := default PyNone keypoint |}.

(** [Verify.__bool__]. *)
Definition Verify_bool (v : Verify) : bool := truthy (result v).

(** [s.replace(old, new)] for one-character strings [old] and [new]. *)
Fixpoint replace_char (old new : ascii) (s : string) : string :=
  match s with
  | EmptyString => EmptyString
  | String c s' =>
      String (if Ascii.eqb c old then new else c) (replace_char old new s')
  end.

(** [s * n]. *)
Definition repeat_string (s : string) (n : nat) : string :=
  String.concat "" (repeat s n).

(** The attributes of a [MessageStructure] that [__str__] reads; [appid]
    is [self.instance.appid]. *)
Record MessageStructure := mkMessageStructure {
  appid : string;
  text : string;
  face : list Z;
  image : list string;
  is_admin : bool;
  is_direct : bool;
  user_id : string;
  channel_id : string;
  nickname : string
}.

(** [MessageStructure.__init__], on these attributes. *)
Definition MessageStructure_init (appid : string) : MessageStructure :=
  mkMessageStructure appid "" [] [] false false "" "" "".

(** [MessageStructure.__str__]. *)
Definition MessageStructure_str (self : MessageStructure) : string :=
  let text := replace_char "010" " " (text self) in
  let face :=
    String.concat
      "" (map (fun n => ("[face:" ++ pretty n ++ "]")%string) (face self)) in
  let image := repeat_string "[image]" (length (image self)) in
  ("Bot:" ++ appid self ++ " Channel:" ++ channel_id self
   ++ " User:" ++ user_id self
   ++ (if is_admin self then "(admin)" else "")
   ++ (if is_direct self then "(direct)" else "")
   ++ " " ++ nickname self ++ ": " ++ (text ++ face ++ image))%string.

(** ['\n' in s]. *)
Fixpoint has_newline (s : string) : bool :=
  match s with
  | EmptyString => false
  | String c s' => Ascii.eqb c "010" || has_newline s'
  end.

End Structure.

(** ** [amiyabot/handler/__init__.py] *)

Module Handler.

(** A registered function object, identified by its name. *)
Definition Func := string.

(** [MessageHandlerItem] is declared in [messageHandlerDefine]; an item is
    identified by the function it wraps. *)
Definition MessageHandlerItem := Func.

(** The list objects held as values of [_event_handlers] and
    [_exception_handlers] are shared between a factory and the views read
    from it: they live in a heap and the dictionaries hold their
    locations. *)
Abbreviation loc := nat (only parsing).
Abbreviation heap := (list (list Func)) (only parsing).

(** The list stored at [l]. *)
Definition deref (h : heap) (l : loc) : list Func := default [] (h !! l).

(** [list()]: a new, empty list object. *)
Definition alloc (h : heap) : loc * heap := (length h, h ++ [[]]).

(** [x.append(f)] for the list object [x] at [l]. *)
Definition append (l : loc) (f : Func) (h : heap) : heap :=
  <[l := deref h l ++ [f]]> h.

(** [x += y] on the heap, for the pair of the locations of [x] and [y]:
    [x] is extended in place. *)
Definition extend (h : heap) (ll : loc * loc) : heap :=
  <[fst ll := deref h (fst ll) ++ deref h (snd ll)]> h.

(** [x += y] for the list objects [x] at [l] and [y] at [l']: [x] is
    extended and stays the value of the target. *)
Definition list_iadd (l l' : loc) (h : heap) : result loc * heap :=
  (Ok l, extend h (l, l')).

(** The list objects at [ls] are distinct objects of the heap. *)
Definition distinct_objects (ls : list loc) (h : heap) : Prop :=
  List.NoDup ls /\ forall l, In l ls -> (l < length h)%nat.

(** The attributes [PluginInstance.__init__] adds to a factory. *)
Record PluginInfo := mkPluginInfo {
  name : string;
  version : string;
  plugin_id : string;
  plugin_type : option string;
  description : option string;
  document : option string
}.

(** The calls of the plugins' [install()] and [uninstall()] methods, in the
    order they are made.  Their bodies in [PluginInstance] are empty. *)
Inductive call :=
| CallInstall (plugin_id : string)
| CallUninstall (plugin_id : string).

Section Registry.

(** [GroupConfig] is declared in [messageHandlerDefine], and so is what
    [a += b] does on two of them. *)
Context {GroupConfig : Type}.
Variable GroupConfig_iadd : GroupConfig -> GroupConfig -> result GroupConfig.

(** [BotHandlerFactory] and its subclasses.  [plugins] is the dictionary
    from identifier to installed factory, in insertion order; [info] is
    [Some] for a [PluginInstance]. *)
Inductive Factory := mkFactory {
  _prefix_keywords : list string;
  _event_handlers : list (string * loc);
  _message_handlers : list MessageHandlerItem;
  _exception_handlers : list (string * loc);
  _after_reply_handlers : list Func;
  _before_reply_handlers : list Func;
  _message_handler_middleware : list Func;
  _group_config : list (string * GroupConfig);
  plugins : list (string * Factory);
  info : option PluginInfo
}.

(** [BotHandlerFactory.__init__]. *)
Definition Factory_init : Factory :=
  mkFactory [] [] [] [] [] [] [] [] [] None.

(** [PluginInstance.__init__]. *)
Definition PluginInstance_init (i : PluginInfo) : Factory :=
  mkFactory [] [] [] [] [] [] [] [] [] (Some i).

(** The factory with [ps] for its [plugins]. *)
Definition set_plugins (f : Factory) (ps : list (string * Factory)) : Factory :=
  mkFactory (_prefix_keywords f) (_event_handlers f) (_message_handlers f)
            (_exception_handlers f) (_after_reply_handlers f)
            (_before_reply_handlers f) (_message_handler_middleware f)
            (_group_config f) ps (info f).

(** *** Merged views: [__get_with_plugins] *)

(** The branch [attr_type is list]:
    [self_attr + list(chain( *plugin_attr))], where each plugin contributes
    its own merged view (the property of the same name). *)
Fixpoint __get_with_plugins_list {A : Type} (attr : Factory -> list A)
    (self : Factory) : list A :=
  attr self
  ++ concat (map (fun p => __get_with_plugins_list attr (snd p)) (plugins self)).

(** The loop [for k in plugin_value] of the branch [attr_type is dict]:
    a key the host lacks takes the plugins' value, a key it has is
    extended with [+=]. *)
Fixpoint merge_into {V : Type} (iadd : V -> V -> heap -> result V * heap)
    (value : list (string * V)) (plugin_value : list (string * V)) (h : heap)
  : result (list (string * V)) * heap :=
  match plugin_value with
  | [] => (Ok value, h)
  | (k, pv) :: rest =>
      match PyDict.get value k with
      | None => merge_into iadd (PyDict.set value k pv) rest h
      | Some v =>
          match iadd v pv h with
          | (Ok v', h') => merge_into iadd (PyDict.set value k v') rest h'
          | (Raise e, h') => (Raise e, h')
          end
      end
  end.

(** The branch [attr_type is dict].  [value = {**self_attr}] copies the
    dictionary, not the objects it holds.  The plugins' views are computed
    in the order of [self.plugins] when the generator is unpacked into
    [ChainMap]. *)
Fixpoint __get_with_plugins_dict {V : Type}
    (iadd : V -> V -> heap -> result V * heap)
    (attr : Factory -> list (string * V)) (self : Factory) (h : heap)
  : result (list (string * V)) * heap :=
  let value := attr self in
  match
    (fix plugin_attr (ps : list (string * Factory)) (h : heap)
       : result (list (list (string * V))) * heap :=
       match ps with
       | [] => (Ok [], h)
       | (_, n) :: ps' =>
           match __get_with_plugins_dict iadd attr n h with
           | (Ok d, h1) =>
               match plugin_attr ps' h1 with
               | (Ok ds, h2) => (Ok (d :: ds), h2)
               | (Raise e, h2) => (Raise e, h2)
               end
           | (Raise e, h1) => (Raise e, h1)
           end
       end) (plugins self) h
  with
  | (Ok ds, h1) => merge_into iadd value (PyDict.of_chain ds) h1
  | (Raise e, h1) => (Raise e, h1)
  end.

(** The properties. *)
Definition prefix_keywords : Factory -> list string :=
  __get_with_plugins_list _prefix_keywords.
Definition message_handlers : Factory -> list MessageHandlerItem :=
  __get_with_plugins_list _message_handlers.
Definition after_reply_handlers : Factory -> list Func :=
  __get_with_plugins_list _after_reply_handlers.
Definition before_reply_handlers : Factory -> list Func :=
  __get_with_plugins_list _before_reply_handlers.
Definition message_handler_middleware : Factory -> list Func :=
  __get_with_plugins_list _message_handler_middleware.
Definition event_handlers
  : Factory -> heap -> result (list (string * loc)) * heap :=
  __get_with_plugins_dict list_iadd _event_handlers.
Definition exception_handlers
  : Factory -> heap -> result (list (string * loc)) * heap :=
  __get_with_plugins_dict list_iadd _exception_handlers.
Definition group_config
  : Factory -> heap -> result (list (string * GroupConfig)) * heap :=
  __get_with_plugins_dict (fun a b h => (GroupConfig_iadd a b, h)) _group_config.

(** What a dictionary of list objects holds, read through the heap. *)
Definition contents (h : heap) (d : list (string * loc))
  : list (string * list Func) :=
  map (fun kv => (fst kv, deref h (snd kv))) d.

(** The entries the loop of the [dict] branch adds under new keys, and the
    pairs of list objects it joins with [+=] under keys the host has. *)
Fixpoint new_entries {V : Type} (value plugin_value : list (string * V))
  : list (string * V) :=
  match plugin_value with
  | [] => []
  | (k, pv) :: rest =>
      if PyDict.contains value k then new_entries value rest
      else (k, pv) :: new_entries value rest
  end.

Fixpoint joined {V : Type} (value plugin_value : list (string * V))
  : list (V * V) :=
  match plugin_value with
  | [] => []
  | (k, pv) :: rest =>
      match PyDict.get value k with
      | Some v => (v, pv) :: joined value rest
      | None => joined value rest
      end
  end.

(** Every merged view of a factory, read with the heap [h]. *)
Definition all_views (self : Factory) (h : heap) :=
  (prefix_keywords self,
   message_handlers self,
   before_reply_handlers self,
   after_reply_handlers self,
   message_handler_middleware self,
   event_handlers self h,
   exception_handlers self h,
   group_config self h).

(** *** Registration *)

(** The factory with another value of one attribute. *)
Definition set_prefix_keywords_field (f : Factory) (x : list string)
  : Factory :=
  mkFactory x (_event_handlers f) (_message_handlers f)
            (_exception_handlers f) (_after_reply_handlers f)
            (_before_reply_handlers f) (_message_handler_middleware f)
            (_group_config f) (plugins f) (info f).

Definition set_event_handlers (f : Factory) (x : list (string * loc))
  : Factory :=
  mkFactory (_prefix_keywords f) x (_message_handlers f)
            (_exception_handlers f) (_after_reply_handlers f)
            (_before_reply_handlers f) (_message_handler_middleware f)
            (_group_config f) (plugins f) (info f).

Definition set_exception_handlers (f : Factory) (x : list (string * loc))
  : Factory :=
  mkFactory (_prefix_keywords f) (_event_handlers f) (_message_handlers f)
            x (_after_reply_handlers f)
            (_before_reply_handlers f) (_message_handler_middleware f)
            (_group_config f) (plugins f) (info f).

(** The body of the loops of [on_event] and [on_exception]:
    [if item not in d: d[item] = []] and then [d[item].append(func)]. *)
Definition register_item (func : Func) (acc : list (string * loc) * heap)
    (item : string) : list (string * loc) * heap :=
  let '(d, h) := acc in
  let '(d1, h1) :=
    if PyDict.contains d item then (d, h)
    else let '(l, h') := alloc h in (PyDict.set d item l, h') in
  match PyDict.get d1 item with
  | Some l => (d1, append l func h1)
  | None => (d1, h1)
  end.

(** An argument that is one value or a list of them. *)
Definition as_list {A : Type} (x : A + list A) : list A :=
  match x with inl a => [a] | inr l => l end.

(** [self.on_event(events)(func)]. *)
Definition on_event (events : string + list string) (func : Func)
    (self : Factory) (h : heap) : Factory * heap :=
  let '(d, h') :=
    fold_left (register_item func) (as_list events) (_event_handlers self, h) in
  (set_event_handlers self d, h').

(** [self.on_exception(exceptions)(func)]; an exception class is named. *)
Definition on_exception (exceptions : string + list string) (func : Func)
    (self : Factory) (h : heap) : Factory * heap :=
  let '(d, h') :=
    fold_left (register_item func) (as_list exceptions)
              (_exception_handlers self, h) in
  (set_exception_handlers self d, h').

(** [self.before_bot_reply(handler)]. *)
Definition before_bot_reply (handler : Func) (f : Factory) : Factory :=
  mkFactory (_prefix_keywords f) (_event_handlers f) (_message_handlers f)
            (_exception_handlers f) (_after_reply_handlers f)
            (_before_reply_handlers f ++ [handler])
            (_message_handler_middleware f)
            (_group_config f) (plugins f) (info f).

(** [self.after_bot_reply(handler)]. *)
Definition after_bot_reply (handler : Func) (f : Factory) : Factory :=
  mkFactory (_prefix_keywords f) (_event_handlers f) (_message_handlers f)
            (_exception_handlers f) (_after_reply_handlers f ++ [handler])
            (_before_reply_handlers f) (_message_handler_middleware f)
            (_group_config f) (plugins f) (info f).

(** [self.handler_middleware(handler)]. *)
Definition handler_middleware (handler : Func) (f : Factory) : Factory :=
  mkFactory (_prefix_keywords f) (_event_handlers f) (_message_handlers f)
            (_exception_handlers f) (_after_reply_handlers f)
            (_before_reply_handlers f)
            (_message_handler_middleware f ++ [handler])
            (_group_config f) (plugins f) (info f).

(** [self._message_handlers.append(handler)], the last statement of the
    function [on_message] returns. *)
Definition append_message_handler (handler : MessageHandlerItem)
    (f : Factory) : Factory :=
  mkFactory (_prefix_keywords f) (_event_handlers f)
            (_message_handlers f ++ [handler])
            (_exception_handlers f) (_after_reply_handlers f)
            (_before_reply_handlers f) (_message_handler_middleware f)
            (_group_config f) (plugins f) (info f).

(** [self.set_group_config(config)], with [config.group_id] given. *)
Definition set_group_config (group_id : string) (config : GroupConfig)
    (f : Factory) : Factory :=
  mkFactory (_prefix_keywords f) (_event_handlers f) (_message_handlers f)
            (_exception_handlers f) (_after_reply_handlers f)
            (_before_reply_handlers f) (_message_handler_middleware f)
            (PyDict.set (_group_config f) group_id config)
            (plugins f) (info f).

(** [self.set_prefix_keywords(keyword)]:
    [self._prefix_keywords += [keyword] if type(keyword) != list else keyword]. *)
Definition set_prefix_keywords (keyword : string + list string)
    (self : Factory) : Factory :=
  set_prefix_keywords_field self (_prefix_keywords self ++ as_list keyword).

(** *** [BotInstance]: installing and uninstalling plugins *)

(** A bot instance together with the hook calls made so far. *)
Record World := mkWorld {
  bot : Factory;
  calls : list call
}.

(** Lines 272 and 273 of [install_plugin]:
    [instance.set_prefix_keywords(self.prefix_keywords)] and
    [instance.install()]. *)
Definition install_hooks (instance : Factory) (plugin_id : string)
    (w : World) : Factory * World :=
  (set_prefix_keywords (inr (prefix_keywords (bot w))) instance,
   mkWorld (bot w) (calls w ++ [CallInstall plugin_id])).

(** Line 275: [self.plugins[plugin_id] = instance]. *)
Definition register_plugin (plugin_id : string) (instance : Factory)
    (w : World) : World :=
  mkWorld (set_plugins (bot w)
             (PyDict.set (plugins (bot w)) plugin_id instance))
          (calls w).

(** The body of the [with] block of [install_plugin] on values: the host
    and the plugin are given by what the properties read at them, for a
    plugin object that the host does not hold yet, so that the keywords
    handed to the plugin show nowhere else in the host.  Module [Objects]
    follows the objects themselves, and the [with] statement.  A factory
    that is no [PluginInstance] has no [plugin_id]. *)
Definition install_plugin (plugin : Factory) (w : World)
  : result Factory * World :=
  match info plugin with
  | None => (Raise AttributeError, w)
  | Some i =>
      let plugin_id := plugin_id i in
      if PyDict.contains (plugins (bot w)) plugin_id
      then (Raise AssertionError, w)
      else
        let '(instance, w1) := install_hooks plugin plugin_id w in
        (Ok instance, register_plugin plugin_id instance w1)
  end.

(** [self.uninstall_plugin(plugin_id)].  [uninstall] is a method of
    [PluginInstance] only. *)
Definition uninstall_plugin (plugin_id : string) (w : World)
  : result unit * World :=
  if negb (String.eqb plugin_id "__factory__")
     && PyDict.contains (plugins (bot w)) plugin_id
  then
    match PyDict.get (plugins (bot w)) plugin_id with
    | None => (Raise (KeyError plugin_id), w)
    | Some p =>
        match info p with
        | None => (Raise AttributeError, w)
        | Some i =>
            (Ok tt,
             mkWorld (set_plugins (bot w)
                        (PyDict.del (plugins (bot w)) plugin_id))
                     (calls w ++ [CallUninstall (Handler.plugin_id i)]))
        end
    end
  else (Raise AssertionError, w).

(** [for plugin in ps: self.install_plugin(plugin)], as far as no install
    raises. *)
Fixpoint install_all (ps : list Factory) (w : World) : option World :=
  match ps with
  | [] => Some w
  | plugin :: ps' =>
      match install_plugin plugin w with
      | (Ok _, w') => install_all ps' w'
      | (Raise _, _) => None
      end
  end.

(** [self.combine_factory(factory)]. *)
Definition combine_factory (factory : Factory) (w : World) : World :=
  register_plugin "__factory__" factory w.

(** The calls a program makes on a [BotInstance] to change its plugins. *)
Inductive operation :=
| InstallPlugin (plugin : Factory)
| UninstallPlugin (plugin_id : string)
| CombineFactory (factory : Factory).

(** The bot once a call has returned or raised. *)
Definition perform (w : World) (op : operation) : World :=
  match op with
  | InstallPlugin plugin => snd (install_plugin plugin w)
  | UninstallPlugin plugin_id => snd (uninstall_plugin plugin_id w)
  | CombineFactory factory => combine_factory factory w
  end.

Definition perform_all (ops : list operation) (w : World) : World :=
  fold_left perform ops w.

(** The factory of the last [combine_factory] among [ops], and [factory]
    when there is none. *)
Fixpoint last_combined (ops : list operation) (factory : Factory) : Factory :=
  match ops with
  | [] => factory
  | CombineFactory factory' :: ops' => last_combined ops' factory'
  | _ :: ops' => last_combined ops' factory
  end.

(** The list objects of the two keyed attributes of a factory. *)
Definition list_objects (self : Factory) : list loc :=
  map snd (_event_handlers self) ++ map snd (_exception_handlers self).

(** What the plugins [ps] contribute to a list-shaped view, in their
    order. *)
Definition plugin_views {A : Type} (view : Factory -> list A)
    (ps : list (string * Factory)) : list A :=
  concat (map (fun p => view (snd p)) ps).

(** The handlers under [k] once [func] has been registered for each of
    [items], when [old] was there before. *)
Definition registered (func : Func) (items : list string) (k : string)
    (old : option (list Func)) : option (list Func) :=
  match count_occ string_dec items k with
  | O => old
  | S n => Some (default [] old ++ repeat func (S n))
  end.

End Registry.

Arguments Factory : clear implicits.
Arguments World : clear implicits.
Arguments operation : clear implicits.

End Handler.

(** ** Factories as objects *)

(** [set_prefix_keywords] changes the factory it is called on, and
    [plugins] holds references: a factory that is installed as a plugin and
    also combined, or installed in two hosts, is one object, and what
    [install_plugin] does to it shows everywhere.  Here the factories live
    in a store and are referred to by their position in it. *)
Module Objects.

Abbreviation ref := nat (only parsing).

Section Registry.

(** [GroupConfig] and its [+=], as for the values. *)
Context {GroupConfig : Type}.
Variable GroupConfig_iadd : GroupConfig -> GroupConfig -> result GroupConfig.

(** What the context manager [log.sync_catch] (declared in [amiyabot.log])
    does with an exception raised inside its [with] block: whether it
    swallows it. *)
Variable sync_catch_suppresses : exn -> bool.

(** An object of class [BotHandlerFactory] or of a subclass: the values of
    its attributes, with [plugins] apart, whose values are references.  The
    other attributes are kept as a factory, of which [plugins] is not
    read. *)
Record object := mkObject {
  attributes : Handler.Factory GroupConfig;
  plugins : list (string * ref)
}.

(** The object at [r]; a position outside the store, which no reference
    of a run is, answers a factory as [__init__] leaves it. *)
Definition object_at (objs : list object) (r : ref) : object :=
  default (mkObject Handler.Factory_init []) (objs !! r).

(** The list of the values, when each is there. *)
Fixpoint all_some {A : Type} (l : list (option A)) : option (list A) :=
  match l with
  | [] => Some []
  | Some a :: l' => option_map (cons a) (all_some l')
  | None :: _ => None
  end.

(** What the properties read at [self] (line 73 of [__get_with_plugins]):
    the attributes of the object, and under each identifier of [plugins]
    what they read at the object installed there, as it is in the store
    now.  [limit] bounds the nesting, as the recursion limit of the
    interpreter does; [None] stands for the [RecursionError] of plugins
    nested deeper than that, among them plugins installed in a cycle. *)
Fixpoint value_of (limit : nat) (objs : list object) (self : ref)
  : option (Handler.Factory GroupConfig) :=
  match limit with
  | O => None
  | S limit' =>
      option_map
        (Handler.set_plugins (attributes (object_at objs self)))
        (all_some
           (map (fun p =>
                   option_map (pair (fst p)) (value_of limit' objs (snd p)))
                (plugins (object_at objs self))))
  end.

(** A property whose attribute is a list, at the object [self]: what
    [view] gives on what is read there. *)
Definition list_property {A : Type}
    (view : Handler.Factory GroupConfig -> list A)
    (limit : nat) (objs : list object) (self : ref) : result (list A) :=
  match value_of limit objs self with
  | Some f => Ok (view f)
  | None => Raise RecursionError
  end.

(** The properties [self.prefix_keywords], [self.before_reply_handlers]
    and [self.message_handler_middleware]. *)
Definition prefix_keywords : nat -> list object -> ref -> result (list string) :=
  list_property Handler.prefix_keywords.
Definition before_reply_handlers
  : nat -> list object -> ref -> result (list Handler.Func) :=
  list_property Handler.before_reply_handlers.
Definition message_handler_middleware
  : nat -> list object -> ref -> result (list Handler.Func) :=
  list_property Handler.message_handler_middleware.

(** The property [self.event_handlers], read with the heap [h].  Where
    the plugins nest deeper than [limit] the read ends in [RecursionError]
    after the changes it has made to list objects so far; these are not
    followed, and the answer is [None]. *)
Definition event_handlers (limit : nat) (objs : list object) (self : ref)
    (h : list (list Handler.Func))
  : option (result (list (string * nat)) * list (list Handler.Func)) :=
  option_map (fun f => Handler.event_handlers f h) (value_of limit objs self).

(** Every merged view of the object at [self], read with the heap [h];
    [None] as for [event_handlers]. *)
Definition all_views (limit : nat) (objs : list object) (self : ref)
    (h : list (list Handler.Func)) :=
  option_map (fun f => Handler.all_views GroupConfig_iadd f h)
             (value_of limit objs self).

(** The objects the properties read at [self], within [limit]. *)
Fixpoint reachable (limit : nat) (objs : list object) (self : ref)
  : list ref :=
  match limit with
  | O => []
  | S limit' =>
      self
      :: concat (map (fun p => reachable limit' objs (snd p))
                     (plugins (object_at objs self)))
  end.

(** [r'] is [r] or is installed, at some depth, in [r]. *)
Inductive reaches (objs : list object) : ref -> ref -> Prop :=
| reaches_self r : reaches objs r r
| reaches_plugin r p r' :
    In p (plugins (object_at objs r)) ->
    reaches objs (snd p) r' ->
    reaches objs r r'.

(** [self.set_prefix_keywords(keyword)]: the list of the object is
    extended in place. *)
Definition set_prefix_keywords (keyword : string + list string) (self : ref)
    (objs : list object) : list object :=
  <[self := mkObject
              (Handler.set_prefix_keywords keyword
                 (attributes (object_at objs self)))
              (plugins (object_at objs self))]> objs.

(** [self.plugins[plugin_id] = instance]. *)
Definition set_plugin (self : ref) (plugin_id : string) (instance : ref)
    (objs : list object) : list object :=
  <[self := mkObject
              (attributes (object_at objs self))
              (PyDict.set (plugins (object_at objs self)) plugin_id
                          instance)]> objs.

(** [del self.plugins[plugin_id]]. *)
Definition del_plugin (self : ref) (plugin_id : string)
    (objs : list object) : list object :=
  <[self := mkObject
              (attributes (object_at objs self))
              (PyDict.del (plugins (object_at objs self)) plugin_id)]> objs.

(** The store together with the hook calls made so far. *)
Record World := mkWorld {
  objects : list object;
  calls : list Handler.call
}.

(** The body of the [with] block of [install_plugin], for a plugin given as
    an instance (lines 265 to 277).  A factory that is no [PluginInstance]
    has no [plugin_id]. *)
Definition install_plugin_block (limit : nat) (self plugin : ref) (w : World)
  : result ref * World :=
  match Handler.info (attributes (object_at (objects w) plugin)) with
  | None => (Raise AttributeError, w)
  | Some i =>
      let plugin_id := Handler.plugin_id i in
      if PyDict.contains (plugins (object_at (objects w) self)) plugin_id
      then (Raise AssertionError, w)
      else
        match prefix_keywords limit (objects w) self with
        | Raise e => (Raise e, w)
        | Ok keywords =>
            let objs1 :=
              set_prefix_keywords (inr keywords) plugin (objects w) in
            let calls1 := calls w ++ [Handler.CallInstall plugin_id] in
            (Ok plugin,
             mkWorld (set_plugin self plugin_id plugin objs1) calls1)
        end
  end.

(** [self.install_plugin(plugin)]: when [log.sync_catch] swallows the
    exception of the block, the call ends without a [return] statement and
    answers [None]. *)
Definition install_plugin (limit : nat) (self plugin : ref) (w : World)
  : result (option ref) * World :=
  match install_plugin_block limit self plugin w with
  | (Ok instance, w') => (Ok (Some instance), w')
  | (Raise e, w') =>
      if sync_catch_suppresses e then (Ok None, w') else (Raise e, w')
  end.

(** [self.uninstall_plugin(plugin_id)].  [uninstall] is a method of
    [PluginInstance] only. *)
Definition uninstall_plugin (self : ref) (plugin_id : string) (w : World)
  : result unit * World :=
  if negb (String.eqb plugin_id "__factory__")
     && PyDict.contains (plugins (object_at (objects w) self)) plugin_id
  then
    match PyDict.get (plugins (object_at (objects w) self)) plugin_id with
    | None => (Raise (KeyError plugin_id), w)
    | Some p =>
        match Handler.info (attributes (object_at (objects w) p)) with
        | None => (Raise AttributeError, w)
        | Some i =>
            (Ok tt,
             mkWorld (del_plugin self plugin_id (objects w))
                     (calls w ++ [Handler.CallUninstall (Handler.plugin_id i)]))
        end
    end
  else (Raise AssertionError, w).

(** [self.combine_factory(factory)]. *)
Definition combine_factory (self factory : ref) (w : World) : World :=
  mkWorld (set_plugin self "__factory__" factory (objects w)) (calls w).

(** [for plugin in ps: self.install_plugin(plugin)], as far as every
    install returns the plugin. *)
Fixpoint install_all (limit : nat) (self : ref) (ps : list ref) (w : World)
  : option World :=
  match ps with
  | [] => Some w
  | plugin :: ps' =>
      match install_plugin limit self plugin w with
      | (Ok (Some _), w') => install_all limit self ps' w'
      | _ => None
      end
  end.

End Registry.

Arguments object : clear implicits.
Arguments World : clear implicits.

End Objects.

(** ** [amiyabot/adapters/kook/__init__.py] *)

Module Kook.

(** *** Subscripting and membership on parsed JSON *)

(** [key in data] for a string [key]. *)
Definition py_in (key : string) (data : pyval) : result bool :=
  match data with
  | PyDict d => Ok (PyDict.contains d key)
  | PyList l =>
      Ok (existsb (fun v => match v with
                            | PyStr s => String.eqb s key
                            | _ => false
                            end) l)
  | PyStr s => Ok (match String.index 0 key s with
                   | Some _ => true
                   | None => false
                   end)
  | _ => Raise TypeError
  end.

(** [data[key]] for a string [key]. *)
Definition getitem (data : pyval) (key : string) : result pyval :=
  match data with
  | PyDict d =>
      match PyDict.get d key with
      | Some v => Ok v
      | None => Raise (KeyError key)
      end
  | _ => Raise TypeError
  end.

(** [json.loads(text)]: the parsed value, or [JSONDecodeError] with its
    [repr]. *)
Variant loads_result :=
| Decoded (data : pyval)
| JSONDecodeError (repr : string).

(** Modelled from the spec: [ResponseException] is declared in
    [amiyabot.network.httpRequests], which is not among the sources.  The
    spec has it carry the code and the message of a response, and line 198
    builds it from these two, in this order.  Its constructor is taken as
    [__init__(self, code, message, data=None)], [data] being the third key
    of an answer of the platform. *)
Definition ResponseException_parameters : list string :=
  ["code"; "message"; "data"].

(** Modelled from the spec: a call of that constructor.  It binds its
    positional arguments to the parameters in their order and its keyword
    arguments by name, and raises [TypeError] when there are more than three
    positional arguments, when a keyword is none of the three names or names
    a parameter bound by position, or when [code] or [message] stays
    unbound. *)
Definition ResponseException_init (args : list pyval)
    (kwargs : list (string * pyval)) : exn :=
  let positional := firstn (length args) ResponseException_parameters in
  let by_name k :=
    existsb (String.eqb k) ResponseException_parameters
    && negb (existsb (String.eqb k) positional) in
  let bound k :=
    existsb (String.eqb k) positional || PyDict.contains kwargs k in
  if (length args <=? length ResponseException_parameters)%nat
     && forallb by_name (PyDict.keys kwargs)
     && bound "code" && bound "message"
  then ResponseException args kwargs
  else TypeError.

(** *** The control plane: [__check_response], [get_request], [post_request] *)

Section ControlPlane.

(** Python's JSON parser, and the HTTP client of
    [amiyabot.network.httpRequests], which answers a text or [None]. *)
Variable json_loads : string -> loads_result.
Variable http_get : string -> pyval -> option string.
Variable http_post : string -> pyval -> option string.

Definition base_url : string := "https://www.kookapp.cn/api/v3".

(** [KOOKBotInstance.__check_response].  [ResponseException( **data)] is
    reached with a dictionary only: on any other value [data['code']] has
    raised before. *)
Definition __check_response (response_text : option string)
  : result (option pyval) :=
  match response_text with
  | None => Ok None
  | Some text =>
      match json_loads text with
      | JSONDecodeError repr =>
          Raise (ResponseException_init [PyInt (-1); PyStr repr] [])
      | Decoded data =>
          match py_in "code" data with
          | Raise e => Raise e
          | Ok false => Ok (Some data)
          | Ok true =>
              match getitem data "code" with
              | Raise e => Raise e
              | Ok code =>
                  if ne_zero code then
                    match data with
                    | PyDict kwargs => Raise (ResponseException_init [] kwargs)
                    | _ => Raise TypeError
                    end
                  else Ok (Some data)
              end
          end
      end
  end.


Definition post_request (url : string) (payload : pyval)
  : result (option pyval) :=
  __check_response (http_post (base_url ++ url) payload).

End ControlPlane.

(** Modelled from the spec: [ResponseException] is declared in
    [amiyabot.network.httpRequests]; the spec says it carries the code and
    the message of the response.  They are its first and second argument, or
    the keyword arguments of these names. *)
Definition exn_code (e : exn) : option pyval :=
  match e with
  | ResponseException (code :: _) _ => Some code
  | ResponseException [] kwargs => PyDict.get kwargs "code"
  | _ => None
  end.

Definition exn_message (e : exn) : option pyval :=
  match e with
  | ResponseException (_ :: message :: _) _ => Some message
  | ResponseException _ kwargs => PyDict.get kwargs "message"
  | _ => None
  end.

(** *** The gateway connection *)

(** [WSPayload]. *)
Record WSPayload := mkWSPayload {
  s : Z;
  d : pyval;
  sn : option Z;
  extra : pyval
}.

(** [WSPayload(s, sn=sn)]. *)
Definition WSPayload_sn (s sn : Z) : WSPayload :=
  mkWSPayload s PyNone (Some sn) PyNone.

(** The websocket object, named by the address it was opened at. *)
Variant websocket := Websocket (url : pyval).

(** The attributes of [KOOKBotInstance] the connection code uses. *)
Record KOOKBotInstance := mkKOOK {
  appid : pyval;
  keep_run : bool;
  ws_url : pyval;
  connection : option websocket;
  pong : Z;
  last_sn : Z;
  session : pyval
}.

(** [KOOKBotInstance.__init__], the adapter running. *)
Definition KOOK_init (appid : string) : KOOKBotInstance :=
  mkKOOK (PyStr appid) true (PyStr "") None 0 0 PyNone.

(** The instance with another value of one attribute. *)
Definition set_appid (st : KOOKBotInstance) (x : pyval) :=
  mkKOOK x (keep_run st) (ws_url st) (connection st) (pong st) (last_sn st)
         (session st).
Definition set_keep_run (st : KOOKBotInstance) (x : bool) :=
  mkKOOK (appid st) x (ws_url st) (connection st) (pong st) (last_sn st)
         (session st).
Definition set_ws_url (st : KOOKBotInstance) (x : pyval) :=
  mkKOOK (appid st) (keep_run st) x (connection st) (pong st) (last_sn st)
         (session st).
Definition set_connection (st : KOOKBotInstance) (x : option websocket) :=
  mkKOOK (appid st) (keep_run st) (ws_url st) x (pong st) (last_sn st)
         (session st).
Definition set_pong (st : KOOKBotInstance) (x : Z) :=
  mkKOOK (appid st) (keep_run st) (ws_url st) (connection st) x (last_sn st)
         (session st).
Definition set_last_sn (st : KOOKBotInstance) (x : Z) :=
  mkKOOK (appid st) (keep_run st) (ws_url st) (connection st) (pong st) x
         (session st).
Definition set_session (st : KOOKBotInstance) (x : pyval) :=
  mkKOOK (appid st) (keep_run st) (ws_url st) (connection st) (pong st)
         (last_sn st) x.

(** The property [__still_alive]: [self.keep_run and self.connection]. *)
Definition __still_alive (st : KOOKBotInstance) : bool :=
  keep_run st && bool_decide (is_Some (connection st)).

(** What the code does to the outside, in order. *)
Variant log_msg :=
| RequestingGateway | Connecting | Resuming | ResumeDone | Closing.

Variant task :=
| HandlerTask (event : string) (data : pyval)
| HeartbeatInterval
| WaitHeartbeat.

Variant effect :=
| LogInfo (m : log_msg)
| HttpGet (url : string)
| WsOpen (url : pyval)
| WsSend (payload : WSPayload)
| WsClose
| CreateTask (t : task)
| Sleep (seconds : Z).

(** Code of the instance: it reads and writes the attributes, acts on the
    outside, and returns or raises. *)
Definition M (A : Type) : Type :=
  KOOKBotInstance -> result A * KOOKBotInstance * list effect.

Definition ret {A : Type} (a : A) : M A := fun st => (Ok a, st, []).

Definition raise {A : Type} (e : exn) : M A := fun st => (Raise e, st, []).

Definition bind {A B : Type} (c : M A) (k : A -> M B) : M B :=
  fun st =>
    match c st with
    | (Ok a, st1, e1) =>
        match k a st1 with
        | (r, st2, e2) => (r, st2, e1 ++ e2)
        end
    | (Raise e, st1, e1) => (Raise e, st1, e1)
    end.

#[local] Notation "'do' x <- c ; k" := (bind c (fun x => k))
  (at level 10, x pattern, c at level 100, k at level 200).
#[local] Notation "c ;; k" := (bind c (fun _ => k))
  (at level 100, k at level 200, right associativity).

Definition get : M KOOKBotInstance := fun st => (Ok st, st, []).
Definition modify (f : KOOKBotInstance -> KOOKBotInstance) : M unit :=
  fun st => (Ok tt, f st, []).
Definition emit (e : effect) : M unit := fun st => (Ok tt, st, [e]).
Definition lift {A : Type} (r : result A) : M A := fun st => (r, st, []).

(** [if b: c]. *)
Definition when (b : bool) (c : M unit) : M unit :=
  if b then c else ret tt.

(** [close_connection]. *)
Definition close_connection : M unit :=
  do st <- get;
  when (bool_decide (is_Some (connection st))) (emit WsClose);;
  modify (fun st => set_connection st None).

(** [close]. *)
Definition close : M unit :=
  emit (LogInfo Closing);;
  modify (fun st => set_keep_run st false);;
  close_connection.

(** [await self.connection.send(payload.to_json())]. *)
Definition send (payload : WSPayload) : M unit :=
  do st <- get;
  match connection st with
  | Some _ => emit (WsSend payload)
  | None => raise AttributeError
  end.

(** The instance once lines 68 and 69 have run on [payload]. *)
Definition recorded (st : KOOKBotInstance) (payload : WSPayload)
  : KOOKBotInstance :=
  set_last_sn st (default (last_sn st) (sn payload)).

(** Lines 68 and 69: [if payload.sn is not None: self.last_sn = payload.sn]. *)
Definition record_sn (payload : WSPayload) : M unit :=
  match sn payload with
  | Some n => modify (fun st => set_last_sn st n)
  | None => ret tt
  end.

(** Lines 75 to 85, the body of [if payload.s == 1]. *)
Definition on_handshake_result (payload : WSPayload) : M unit :=
  do code <- lift (getitem (d payload) "code");
  when (ne_zero code)
    (modify (fun st => set_ws_url st (PyStr ""));;
     modify (fun st => set_last_sn st 0);;
     raise TimeoutError);;
  do st <- get;
  when (negb (last_sn st =? 0))
    (emit (LogInfo Resuming);;
     send (WSPayload_sn 4 (last_sn st)));;
  do session_id <- lift (getitem (d payload) "session_id");
  modify (fun st => set_session st session_id);;
  emit (CreateTask HeartbeatInterval).

(** Lines 91 to 93, the body of [if payload.s == 5]. *)
Definition on_reconnect : M unit :=
  modify (fun st => set_ws_url st (PyStr ""));;
  modify (fun st => set_last_sn st 0);;
  close_connection.

(** The body of the receive loop after [recv] has delivered [payload]
    (lines 68 to 96). *)
Definition process_frame (payload : WSPayload) : M unit :=
  record_sn payload;;
  when (s payload =? 0)
    (emit (CreateTask (HandlerTask "event" (d payload))));;
  when (s payload =? 1) (on_handshake_result payload);;
  when (s payload =? 3) (modify (fun st => set_pong st 1));;
  when (s payload =? 5) on_reconnect;;
  when (s payload =? 6) (emit (LogInfo ResumeDone)).

(** How far the receive loop got on the frames delivered so far: it waits
    in [recv] for the next frame, or its condition failed and it ended. *)
Variant loop_end := AwaitingRecv | LoopExit.

(** [while self.__still_alive: ...] over the frames [recv] delivers. *)
Fixpoint recv_loop (frames : list WSPayload) (st : KOOKBotInstance)
  : result loop_end * KOOKBotInstance * list effect :=
  if __still_alive st then
    match frames with
    | [] => (Ok AwaitingRecv, st, [])
    | payload :: rest =>
        (process_frame payload;; recv_loop rest) st
    end
  else (Ok LoopExit, st, []).

(** The [sn] of the last frame of [frames] that has one, and [z] when none
    has. *)
Fixpoint last_sn_of (frames : list WSPayload) (z : Z) : Z :=
  match frames with
  | [] => z
  | payload :: rest => last_sn_of rest (default z (sn payload))
  end.

(** Each [sn] that is not [None] is at least the one before it, the first
    at least [z]. *)
Fixpoint sn_nondecreasing (z : Z) (frames : list WSPayload) : Prop :=
  match frames with
  | [] => True
  | payload :: rest =>
      match sn payload with
      | Some n => z <= n /\ sn_nondecreasing n rest
      | None => sn_nondecreasing z rest
      end
  end.

Section Connect.

(** Whether the context manager [get_websocket_connection] returns (it is
    declared in [amiyabot.adapters]) swallows an exception raised inside its
    [async with] block. *)
Variable ws_exit_suppresses : exn -> bool.

(** The [async with] block of [__connect]; the connection is taken to
    open. *)
Definition with_websocket (frames : list WSPayload) : M loop_end :=
  do st <- get;
  emit (WsOpen (ws_url st));;
  modify (fun st' => set_connection st' (Some (Websocket (ws_url st))));;
  fun st' =>
    match recv_loop frames st' with
    | (Raise e, st1, e1) =>
        if ws_exit_suppresses e then (Ok LoopExit, st1, e1)
        else (Raise e, st1, e1)
    | r => r
    end.

(** Lines 48 to 57 of [__connect], given what
    [get_request('/gateway/index', ...)] answers if it is called. *)
Definition request_gateway (gateway : result (option pyval)) : M unit :=
  do st <- get;
  when (negb (truthy (ws_url st)))
    (emit (LogInfo RequestingGateway);;
     emit (HttpGet "/gateway/index");;
     do resp <- lift gateway;
     match resp with
     | None => raise TimeoutError
     | Some resp =>
         if truthy resp then
           do data <- lift (getitem resp "data");
           do url <- lift (getitem data "url");
           modify (fun st => set_ws_url st url)
         else raise TimeoutError
     end);;
  emit (LogInfo Connecting).

(** [__connect], given also the frames [recv] delivers.  The [finally]
    clause runs once the block has ended. *)
Definition __connect (gateway : result (option pyval))
    (frames : list WSPayload) : M loop_end :=
  fun st0 =>
    match (request_gateway gateway;; with_websocket frames) st0 with
    | (Ok AwaitingRecv, st1, e1) => (Ok AwaitingRecv, st1, e1)
    | (r, st1, e1) =>
        match close_connection st1 with
        | (_, st2, e2) => (r, st2, e1 ++ e2)
        end
    end.

(** The loop of [connect] (lines 42 to 44) over the inputs of successive
    attempts; it stops where an attempt is still receiving. *)
Fixpoint connect_loop
    (attempts : list (result (option pyval) * list WSPayload))
    (st : KOOKBotInstance)
  : result loop_end * KOOKBotInstance * list effect :=
  if keep_run st then
    match attempts with
    | [] => (Ok AwaitingRecv, st, [])
    | (gateway, frames) :: rest =>
        (do r <- __connect gateway frames;
         match r with
         | AwaitingRecv => ret AwaitingRecv
         | LoopExit => emit (Sleep 10);; connect_loop rest
         end) st
    end
  else (Ok LoopExit, st, []).

(** [connect], given what [get_request('/user/me')] answers and the inputs
    of the attempts. *)
Definition connect (me_req : result (option pyval))
    (attempts : list (result (option pyval) * list WSPayload))
  : M loop_end :=
  emit (HttpGet "/user/me");;
  do me_req <- lift me_req;
  match me_req with
  | Some me =>
      when (truthy me)
        (do data <- lift (getitem me "data");
         do id <- lift (getitem data "id");
         modify (fun st => set_appid st id))
  | None => ret tt
  end;;
  connect_loop attempts.

End Connect.

(** *** Heartbeat and its watchdog *)

(** The two tasks run beside the receive loop.  [others k st] is the
    instance as the other tasks leave it during the [k]-th sleep of this
    task, counted from [0]. *)
Definition interleaving := Z -> KOOKBotInstance -> KOOKBotInstance.

(** During the sleeps before the [k]-th the other tasks neither set the
    flag nor close the connection nor stop the adapter. *)
Definition quiet_until (k : Z) (others : interleaving) : Prop :=
  forall j st,
    j < k ->
    pong (others j st) = pong st
    /\ connection (others j st) = connection st
    /\ keep_run (others j st) = keep_run st.

(** During the sleeps before the [k]-th the other tasks neither close the
    connection nor stop the adapter; they may do anything else, such as
    recording sequence numbers and setting or clearing the flag. *)
Definition undisturbed_until (k : Z) (others : interleaving) : Prop :=
  forall j st,
    j < k -> __still_alive st = true -> __still_alive (others j st) = true.

(** [wait_heartbeat] from the loop test on, with [sec] seconds counted;
    [fuel] bounds the iterations. *)
Fixpoint wait_heartbeat_from (fuel : nat) (others : interleaving) (sec : Z)
    (st : KOOKBotInstance) : option (KOOKBotInstance * list effect) :=
  match fuel with
  | O => None
  | S fuel' =>
      if (pong st =? 0) && __still_alive st then
        let st1 := others sec st in
        let sec := sec + 1 in
        if 30 <=? sec then
          match close_connection st1 with
          | (_, st2, e) =>
              match wait_heartbeat_from fuel' others sec st2 with
              | Some (st3, e') => Some (st3, e ++ e')
              | None => None
              end
          end
        else wait_heartbeat_from fuel' others sec st1
      else Some (set_pong st 0, [])
  end.

(** [wait_heartbeat]. *)
Definition wait_heartbeat (fuel : nat) (others : interleaving)
    (st : KOOKBotInstance) : option (KOOKBotInstance * list effect) :=
  wait_heartbeat_from fuel others 0 st.

(** [heartbeat_interval] for at most [n] iterations of its loop, the
    [k]-th sleep being the next, with [sec] seconds counted. *)
Fixpoint heartbeat_interval_from (n : nat) (others : interleaving) (k sec : Z)
    (st : KOOKBotInstance) : result unit * KOOKBotInstance * list effect :=
  match n with
  | O => (Ok tt, st, [])
  | S n' =>
      if __still_alive st then
        let st1 := others k st in
        let sec := sec + 1 in
        if 30 <=? sec then
          (send (WSPayload_sn 2 (last_sn st1));;
           emit (CreateTask WaitHeartbeat);;
           heartbeat_interval_from n' others (k + 1) 0) st1
        else heartbeat_interval_from n' others (k + 1) sec st1
      else (Ok tt, st, [])
  end.

(** The effects of the frames that neither answer a handshake nor ask to
    reconnect: an event starts a handler task, the acknowledgement of a
    resume is logged. *)
Definition frame_effects (payload : WSPayload) : list effect :=
  if s payload =? 0 then [CreateTask (HandlerTask "event" (d payload))]
  else if s payload =? 6 then [LogInfo ResumeDone]
  else [].

(** The instance when a task has slept the [n] sleeps numbered [k],
    [k + 1], ..., as the other tasks leave it. *)
Fixpoint after_sleeps (others : interleaving) (k : Z) (n : nat)
    (st : KOOKBotInstance) : KOOKBotInstance :=
  match n with
  | O => st
  | S n' => after_sleeps others (k + 1) n' (others k st)
  end.

(** *** Sending messages *)

(** The attributes of a [Message] that the sending code reads and writes
    ([MessageStructure.__init__] declares them). *)
Record Message := mkMessage {
  user_id : pyval;
  channel_id : pyval;
  is_direct : pyval;
  message_id : pyval
}.

Definition set_user_id (m : Message) (x : pyval) : Message :=
  mkMessage x (channel_id m) (is_direct m) (message_id m).
Definition set_channel_id (m : Message) (x : pyval) : Message :=
  mkMessage (user_id m) x (is_direct m) (message_id m).
Definition set_is_direct (m : Message) (x : pyval) : Message :=
  mkMessage (user_id m) (channel_id m) x (message_id m).

(** The attributes of a [Chain] (declared in
    [amiyabot.builtin.messageChain]) that the sending code reads and
    writes. *)
Record Chain := mkChain {
  data : Message;
  reference : pyval;
  chain : pyval;
  builder : pyval
}.

Definition set_chain (c : Chain) (x : pyval) : Chain :=
  mkChain (data c) (reference c) x (builder c).
Definition set_builder (c : Chain) (x : pyval) : Chain :=
  mkChain (data c) (reference c) (chain c) x.

(** [KOOKMessageCallback(self, response)]. *)
Variant KOOKMessageCallback := mkKOOKMessageCallback (response : option pyval).

(** A request made to the HTTP API. *)
Variant request := Post (url : string) (payload : pyval).

(** [{'target_id': target, **item}]: the keys of [item] are stored in their
    order, a key the literal has already keeps its place and takes the new
    value. *)
Definition dict_with_target (target : pyval) (item : list (string * pyval))
  : list (string * pyval) :=
  fold_left (fun acc kv => PyDict.set acc (fst kv) (snd kv)) item
            [("target_id", target)].

Section Messaging.

Variable json_loads : string -> loads_result.
Variable http_post : string -> pyval -> option string.

(** [build_message_send] of [.builder], and the constructors [Message(self)]
    and [Chain(data)]. *)
Variable build_message_send : Chain -> result pyval.
Variable Message_init : Message.
Variable Chain_init : Message -> Chain.

(** [await self.post_request(url, payload)], with the request it makes. *)
Definition post (url : string) (payload : pyval)
  : result (option pyval) * list request :=
  (post_request json_loads http_post url payload,
   [Post (base_url ++ url) payload]).

(** [send_chain_message]. *)
Definition send_chain_message (chain : Chain)
  : result (list KOOKMessageCallback) * list request :=
  match build_message_send chain with
  | Raise e => (Raise e, [])
  | Ok message =>
      let url := if truthy (is_direct (data chain))
                 then "/direct-message/create" else "/message/create" in
      let target := if truthy (is_direct (data chain))
                    then user_id (data chain) else channel_id (data chain) in
      match message with
      | PyDict item =>
          let payload := dict_with_target target item in
          let payload :=
            if truthy (reference chain)
            then PyDict.set payload "quote" (message_id (data chain))
            else payload in
          match post url (PyDict payload) with
          | (Ok resp, reqs) => (Ok [mkKOOKMessageCallback resp], reqs)
          | (Raise e, reqs) => (Raise e, reqs)
          end
      | _ => (Raise TypeError, [])
      end
  end.

(** [send_message]. *)
Definition send_message (chain : Chain)
    (user_id channel_id direct_src_guild_id : pyval)
  : result (list KOOKMessageCallback) * list request :=
  let data := Message_init in
  let data := set_user_id data user_id in
  let data := set_channel_id data channel_id in
  if negb (truthy channel_id) && negb (truthy user_id) then
    (Raise TypeError, [])
  else
    let data :=
      if negb (truthy channel_id) && truthy user_id
      then set_is_direct data (PyBool true) else data in
    let message := Chain_init data in
    let message := set_chain message (Kook.chain chain) in
    let message := set_builder message (builder chain) in
    send_chain_message message.

(** [recall_message]. *)
Definition recall_message (message_id target_id : pyval)
  : result unit * list request :=
  match post "/message/delete" (PyDict [("msg_id", message_id)]) with
  | (Ok _, reqs) => (Ok tt, reqs)
  | (Raise e, reqs) => (Raise e, reqs)
  end.

End Messaging.

End Kook.

(** ** [amiyabot/adapters/mirai/__init__.py] *)

Module Mirai.

(** The exceptions the adapter meets: those of [json] and [websockets], the
    refusal of a connection, and the ones of module [Py]. *)
Variant error :=
| JSONDecodeError (repr : string)
| ConnectionClosedOK
| ConnectionClosedError
| ConnectionRefusedError
| PyError (e : exn).

Variant outcome (A : Type) :=
| Returned (a : A)
| Raised (e : error).
Arguments Returned {A} a.
Arguments Raised {A} e.

(** What [websocket.recv()] delivers: a [str] or a [bytes] object. *)
Variant ws_message :=
| Text (text : string)
| Binary (bytes : string).

(** [await websocket.recv()]: a message, or an exception. *)
Variant recv_event :=
| Recv (message : ws_message)
| RecvRaises (e : error).

Variant websocket := Websocket (url : string).

(** [MiraiBotInstance]. *)
Record MiraiBotInstance := mkMirai {
  appid : string;
  token : string;
  url : string;
  connection : option websocket;
  host : string;
  ws_port : Z;
  http_port : Z;
  session : pyval;
  alive : bool
}.

(** [MiraiBotInstance.__init__]. *)
Definition MiraiBotInstance_init (appid token host : string)
    (ws_port http_port : Z) : MiraiBotInstance :=
  {| appid := appid;
     token := token;
     url := "ws://" ++ host ++ ":" ++ pretty ws_port
            ++ "/all?verifyKey=" ++ token ++ "&&qq=" ++ appid;
     connection := None;
     host := host;
     ws_port := ws_port;
     http_port := http_port;
     session := PyNone;
     alive := true |}.

(** [mirai_api_http]. *)
Definition mirai_api_http (host : string) (ws_port http_port : Z)
  : string -> string -> MiraiBotInstance :=
  fun appid token => MiraiBotInstance_init appid token host ws_port http_port.

Definition set_connection (st : MiraiBotInstance) (x : option websocket) :=
  mkMirai (appid st) (token st) (url st) x (host st) (ws_port st)
          (http_port st) (session st) (alive st).
Definition set_session (st : MiraiBotInstance) (x : pyval) :=
  mkMirai (appid st) (token st) (url st) (connection st) (host st)
          (ws_port st) (http_port st) x (alive st).

(** What the code does to the outside, in order. *)
Variant log_msg :=
| Connecting
| ConnectSuccessful
| HandshakeSuccessful (session : string)
| Closed
| ConnectionClosed
| CannotConnect.

Variant task :=
| HandlerTask (event : string) (data : pyval)
| Reconnect.

Variant effect :=
| LogInfo (m : log_msg)
| LogError (m : log_msg)
| WsOpen (url : string)
| WsSend (payload : pyval)
| WsClose
| CreateTask (t : task)
| Sleep (seconds : Z).

(** [message == b'']. *)
Definition is_empty_bytes (message : ws_message) : bool :=
  match message with
  | Binary bytes => String.eqb bytes ""
  | Text _ => false
  end.

Section Adapter.

(** Python's JSON parser and [str] on a [bytes] object; whether the context
    manager [log.catch(ignore=[json.JSONDecodeError])] of [amiyabot.log]
    swallows an exception raised in its block, and whether the one
    [websockets.connect] returns does. *)
Variable json_loads : string -> Kook.loads_result.
Variable bytes_str : string -> string.
Variable log_catch_suppresses : error -> bool.
Variable ws_exit_suppresses : error -> bool.

(** [str(message)]. *)
Definition str (message : ws_message) : string :=
  match message with
  | Text text => text
  | Binary bytes => bytes_str bytes
  end.

Definition of_result {A : Type} (r : result A) : outcome A :=
  match r with
  | Ok a => Returned a
  | Raise e => Raised (PyError e)
  end.

(** The block of [handle_message] (lines 72 to 80). *)
Definition handle_message_block (message : string) (st : MiraiBotInstance)
  : outcome pyval * MiraiBotInstance * list effect :=
  match json_loads message with
  | Kook.JSONDecodeError repr => (Raised (JSONDecodeError repr), st, [])
  | Kook.Decoded data =>
      match Kook.getitem data "data" with
      | Raise e => (Raised (PyError e), st, [])
      | Ok data =>
          match Kook.py_in "session" data with
          | Raise e => (Raised (PyError e), st, [])
          | Ok true =>
              match Kook.getitem data "session" with
              | Raise e => (Raised (PyError e), st, [])
              | Ok session =>
                  let st := set_session st session in
                  match session with
                  | PyStr text =>
                      (Returned (PyBool false), st,
                       [LogInfo (HandshakeSuccessful text)])
                  | _ => (Raised (PyError TypeError), st, [])
                  end
              end
          | Ok false =>
              (Returned PyNone, st, [CreateTask (HandlerTask "" data)])
          end
      end
  end.

(** [handle_message]. *)
Definition handle_message (message : string) (st : MiraiBotInstance)
  : outcome pyval * MiraiBotInstance * list effect :=
  match handle_message_block message st with
  | (Raised e, st', eff) =>
      if log_catch_suppresses e then (Returned PyNone, st', eff)
      else (Raised e, st', eff)
  | r => r
  end.

(** How far the loop of [connect] got on what [recv] delivered so far: it
    waits in [recv], its condition failed, or it met [return False]. *)
Variant loop_end := AwaitingRecv | LoopExit | ReturnFalse.

(** [while self.alive: ...] (lines 49 to 56). *)
Fixpoint recv_loop (events : list recv_event) (st : MiraiBotInstance)
  : outcome loop_end * MiraiBotInstance * list effect :=
  if alive st then
    match events with
    | [] => (Returned AwaitingRecv, st, [])
    | RecvRaises e :: _ => (Raised e, st, [])
    | Recv message :: rest =>
        if is_empty_bytes message then (Returned ReturnFalse, st, [WsClose])
        else
          match handle_message (str message) st with
          | (Returned _, st1, e1) =>
              match recv_loop rest st1 with
              | (r, st2, e2) => (r, st2, e1 ++ e2)
              end
          | (Raised e, st1, e1) => (Raised e, st1, e1)
          end
    end
  else (Returned LoopExit, st, []).

(** The [async with] block of [connect] (lines 46 to 60), given whether
    the connection opens. *)
Definition with_websocket (opened : outcome unit) (events : list recv_event)
    (st : MiraiBotInstance)
  : outcome loop_end * MiraiBotInstance * list effect :=
  match opened with
  | Raised e => (Raised e, st, [WsOpen (url st)])
  | Returned _ =>
      let st0 := set_connection st (Some (Websocket (url st))) in
      let pre := [WsOpen (url st); LogInfo ConnectSuccessful] in
      match recv_loop events st0 with
      | (Returned LoopExit, st1, e1) =>
          (Returned LoopExit, st1, pre ++ e1 ++ [WsClose; LogInfo Closed])
      | (Raised e, st1, e1) =>
          if ws_exit_suppresses e then (Returned LoopExit, st1, pre ++ e1)
          else (Raised e, st1, pre ++ e1)
      | (r, st1, e1) => (r, st1, pre ++ e1)
      end
  end.

(** How a call of [connect] ends: it is still receiving, it returned
    [False], or it returned [None] after it scheduled the next call. *)
Variant connect_end := Receiving | ReturnedFalse | ReturnedNone.

(** [connect]. *)
Definition connect (opened : outcome unit) (events : list recv_event)
    (st : MiraiBotInstance)
  : outcome connect_end * MiraiBotInstance * list effect :=
  let retry := [Sleep 10; CreateTask Reconnect] in
  match with_websocket opened events st with
  | (Returned AwaitingRecv, st1, e1) =>
      (Returned Receiving, st1, LogInfo Connecting :: e1)
  | (Returned ReturnFalse, st1, e1) =>
      (Returned ReturnedFalse, st1, LogInfo Connecting :: e1)
  | (Returned LoopExit, st1, e1) =>
      (Returned ReturnedNone, st1, LogInfo Connecting :: e1 ++ retry)
  | (Raised ConnectionClosedOK, st1, e1) =>
      (Returned ReturnedNone, st1,
       LogInfo Connecting :: e1 ++ LogError ConnectionClosed :: retry)
  | (Raised ConnectionRefusedError, st1, e1) =>
      (Returned ReturnedNone, st1,
       LogInfo Connecting :: e1 ++ LogError CannotConnect :: retry)
  | (Raised e, st1, e1) => (Raised e, st1, LogInfo Connecting :: e1)
  end.

(** [await self.connection.send(payload)] for each of [payloads], in
    order. *)
Fixpoint send_each (payloads : list pyval) (st : MiraiBotInstance)
  : outcome unit * list effect :=
  match payloads with
  | [] => (Returned tt, [])
  | payload :: rest =>
      match connection st with
      | None => (Raised (PyError AttributeError), [])
      | Some _ =>
          match send_each rest st with
          | (r, e) => (r, WsSend payload :: e)
          end
      end
  end.

(** [send_chain_message], given the [reply] and the [voice_list]
    [build_message_send] returns and the [reference] of the chain; it
    answers the [reference] the chain has afterwards. *)
Definition send_chain_message (reply : pyval) (voice_list : list pyval)
    (reference : pyval) (st : MiraiBotInstance)
  : outcome unit * pyval * list effect :=
  match (if truthy reply then send_each [reply] st else (Returned tt, [])) with
  | (Raised e, e1) => (Raised e, reference, e1)
  | (Returned _, e1) =>
      match voice_list with
      | [] => (Returned tt, reference, e1)
      | _ =>
          match send_each voice_list st with
          | (r, e2) => (r, PyBool false, e1 ++ e2)
          end
      end
  end.

(** [send_message]: its body is [pass]. *)
Definition send_message (channel_id user_id direct_src_guild_id : string)
    (st : MiraiBotInstance) : outcome unit * MiraiBotInstance * list effect :=
  (Returned tt, st, []).

End Adapter.

End Mirai.

(** ** Concrete bots *)

Module Scenario.
Import Handler.

(** A [GroupConfig] without [+=]; no scenario sets a group configuration. *)
Definition no_iadd (a b : unit) : result unit := Raise TypeError.

Definition info_of (id : string) : PluginInfo :=
  mkPluginInfo id "1.0" id None None None.

(** [host = BotInstance(); host.handler_middleware(mh);
    host.on_event('e')(h)]. *)
Definition host_e : Factory unit * heap :=
  on_event (inl "e") "h" (handler_middleware "mh" Factory_init) [].

(** [p1 = PluginInstance(..., 'p1'); p1.handler_middleware(ma);
    p1.on_event(['e', 'g'])(a)]. *)
Definition plugin_a : Factory unit * heap :=
  on_event (inr ["e"; "g"]) "a"
           (handler_middleware "ma" (PluginInstance_init (info_of "p1")))
           (snd host_e).

(** [p2 = PluginInstance(..., 'p2'); p2.handler_middleware(mb);
    p2.on_event(['e', 'g'])(b)]. *)
Definition plugin_b : Factory unit * heap :=
  on_event (inr ["e"; "g"]) "b"
           (handler_middleware "mb" (PluginInstance_init (info_of "p2")))
           (snd plugin_a).

(** The heap once the three registrations are done. *)
Definition heap_ab : heap := snd plugin_b.

(** [host.install_plugin(p1)]. *)
Definition world_a : World unit :=
  snd (install_plugin (fst plugin_a) (mkWorld (fst host_e) [])).

(** [host.install_plugin(p1); host.install_plugin(p2)]. *)
Definition world_ab : World unit :=
  snd (install_plugin (fst plugin_b) world_a).

(** A plugin whose identifier is the reserved one, with a before-reply
    hook [f], and a host without plugins. *)
Definition plugin_reserved : Factory unit :=
  before_bot_reply "f" (PluginInstance_init (info_of "__factory__")).

Definition world_empty : World unit := mkWorld Factory_init [].

(** Frames of the gateway: an event with sequence number [n], the two
    handshake results, a heartbeat acknowledgement, the request to
    reconnect, and the acknowledgement of a resume. *)
Definition event_frame (n : Z) : Kook.WSPayload :=
  Kook.mkWSPayload 0 (PyDict [("type", PyInt 1)]) (Some n) PyNone.

Definition hello_frame : Kook.WSPayload :=
  Kook.mkWSPayload 1 (PyDict [("code", PyInt 0); ("session_id", PyStr "abc")])
                   None PyNone.

Definition reject_frame : Kook.WSPayload :=
  Kook.mkWSPayload 1 (PyDict [("code", PyInt 40103)]) None PyNone.

Definition pong_frame : Kook.WSPayload :=
  Kook.mkWSPayload 3 PyNone None PyNone.

Definition reconnect_frame : Kook.WSPayload :=
  Kook.mkWSPayload 5 (PyDict [("code", PyInt 40108)]) None PyNone.

Definition resume_ack_frame : Kook.WSPayload :=
  Kook.mkWSPayload 6 (PyDict [("session_id", PyStr "abc")]) None PyNone.

(** The answer of the gateway index. *)
Definition gateway_answer : pyval :=
  PyDict [("code", PyInt 0);
          ("data", PyDict [("url", PyStr "wss://gateway")])].

(** An instance with an open connection. *)
Definition connected : Kook.KOOKBotInstance :=
  Kook.set_connection (Kook.KOOK_init "bot")
    (Some (Kook.Websocket (PyStr "wss://gateway"))).

(** A context manager that swallows every exception, and one that
    swallows none. *)
Definition swallow_all (e : exn) : bool := true.
Definition swallow_none (e : exn) : bool := false.

(** A parser that knows three texts (written here without the quotation
    marks of JSON). *)
Definition toy_loads (text : string) : Kook.loads_result :=
  if String.eqb text "{}" then Kook.Decoded (PyDict [])
  else if String.eqb text "{code: 40000, message: no}" then
    Kook.Decoded (PyDict [("code", PyInt 40000); ("message", PyStr "no")])
  else if String.eqb text "{code: 0, data: {}}" then
    Kook.Decoded (PyDict [("code", PyInt 0); ("data", PyDict [])])
  else Kook.JSONDecodeError "JSONDecodeError('Expecting value')".

(** The other tasks leave the instance alone. *)
Definition nobody : Kook.interleaving := fun _ st => st.

(** The receive loop handles a heartbeat acknowledgement during the
    sleep numbered [k]. *)
Definition pong_during (k : Z) : Kook.interleaving :=
  fun j st =>
    if j =? k then snd (fst (Kook.process_frame pong_frame st)) else st.

(** A run of the tasks beside [heartbeat_interval]: an event numbered [9]
    arrives during the sleep numbered [40]; during the sleep after each
    heartbeat the receive loop handles its acknowledgement, and during the
    sleep after that the watchdog started with the heartbeat comes to its
    loop test, finds the flag set and clears it. *)
Definition acknowledging : Kook.interleaving :=
  fun j st =>
    if j =? 40 then snd (fst (Kook.process_frame (event_frame 9) st))
    else if (0 <? j) && (j mod 30 =? 0) then
      snd (fst (Kook.process_frame pong_frame st))
    else if (30 <? j) && (j mod 30 =? 1) then
      match Kook.wait_heartbeat 1 nobody st with
      | Some (st', _) => st'
      | None => st
      end
    else st.

(** The host of the scenario after [host.set_prefix_keywords('amiya')]
    and its first plugin, as the objects [0] and [1] of a store; nothing is
    installed yet. *)
Definition objects_a : Objects.World unit :=
  Objects.mkWorld
    [Objects.mkObject (set_prefix_keywords (inl "amiya") (fst host_e)) [];
     Objects.mkObject (fst plugin_a) []] [].

(** A host without plugins and the plugin with the reserved identifier,
    as objects. *)
Definition objects_reserved : Objects.World unit :=
  Objects.mkWorld [Objects.mkObject Factory_init [];
                   Objects.mkObject plugin_reserved []] [].

(** [host = BotInstance(); host.set_prefix_keywords('amiya')], and
    [p3 = PluginInstance(..., 'p3'); p3.set_prefix_keywords(['hi'])]. *)
Definition host_kw : World unit :=
  mkWorld (set_prefix_keywords (inl "amiya") Factory_init) [].

Definition plugin_kw : Factory unit :=
  set_prefix_keywords (inr ["hi"]) (PluginInstance_init (info_of "p3")).

(** That host and that plugin as the objects [0] and [1] of a store. *)
Definition objects_kw : Objects.World unit :=
  Objects.mkWorld [Objects.mkObject (bot host_kw) [];
                   Objects.mkObject plugin_kw []] [].

(** That host (object [0]) with a plugin [p] that has no keywords (object
    [1]), first as they are made and then after
    [host.combine_factory(p)]. *)
Definition objects_p : Objects.World unit :=
  Objects.mkWorld
    [Objects.mkObject (bot host_kw) [];
     Objects.mkObject (PluginInstance_init (info_of "p")) []] [].

Definition objects_p_combined : Objects.World unit :=
  Objects.combine_factory 0 1 objects_p.

(** That host (object [0]) and three plugins without keywords (objects
    [1], [2] and [3]). *)
Definition objects_q : Objects.World unit :=
  Objects.mkWorld
    [Objects.mkObject (bot host_kw) [];
     Objects.mkObject (PluginInstance_init (info_of "q1")) [];
     Objects.mkObject (PluginInstance_init (info_of "q2")) [];
     Objects.mkObject (PluginInstance_init (info_of "q3")) []] [].

(** The attributes of a message as [MessageStructure.__init__] sets them, a
    [Chain(data)] that quotes nothing and holds nothing, and a chain that
    answers the message [m1] of user [u1] in channel [c1] with a quote. *)
Definition fresh_message : Kook.Message :=
  Kook.mkMessage (PyStr "") (PyStr "") (PyBool false) (PyStr "").

Definition new_chain (data : Kook.Message) : Kook.Chain :=
  Kook.mkChain data (PyBool false) (PyList []) PyNone.

Definition quoting_chain : Kook.Chain :=
  Kook.mkChain
    (Kook.mkMessage (PyStr "u1") (PyStr "c1") (PyBool false) (PyStr "m1"))
    (PyBool true) (PyList []) PyNone.

(** A builder that answers a text message, a server that refuses every
    request, and one that does not answer. *)
Definition text_builder (chain : Kook.Chain) : result pyval :=
  Ok (PyDict [("type", PyInt 9); ("content", PyStr "hi")]).

Definition refusing_post (url : string) (payload : pyval) : option string :=
  Some "{code: 40000, message: no}".

Definition silent_post (url : string) (payload : pyval) : option string :=
  None.

(** A parser that knows the two messages of mirai-api-http used below
    (written without the quotation marks of JSON). *)
Definition mirai_loads (text : string) : Kook.loads_result :=
  if String.eqb text "{data: {session: abc}}" then
    Kook.Decoded (PyDict [("syncId", PyStr "");
                          ("data", PyDict [("code", PyInt 0);
                                           ("session", PyStr "abc")])])
  else if String.eqb text "{data: {type: FriendMessage}}" then
    Kook.Decoded (PyDict [("syncId", PyStr "-1");
                          ("data", PyDict [("type", PyStr "FriendMessage")])])
  else Kook.JSONDecodeError "JSONDecodeError('Expecting value')".

(** [str] on a [bytes] object of letters and digits. *)
Definition python_bytes_str (bytes : string) : string :=
  ("b'" ++ bytes ++ "'")%string.

(** A context manager that swallows every exception of the adapter, and
    one that swallows none. *)
Definition catch_all (e : Mirai.error) : bool := true.
Definition catch_none (e : Mirai.error) : bool := false.

(** [mirai_api_http('localhost', 8060, 8080)('10001', 'key')]. *)
Definition mirai_bot : Mirai.MiraiBotInstance :=
  Mirai.mirai_api_http "localhost" 8060 8080 "10001" "key".

(** A message of an administrator, with a line break in its text. *)
Definition admin_message : Structure.MessageStructure :=
  Structure.mkMessageStructure
    "10001" (String "a" (String "010" "b")) [1; 22] ["x.png"]
    true false "u1" "c1" "nick".

End Scenario.

(** * Properties *)

(** ** Dictionaries *)

Module PyDictFacts.
Section facts.
Context {K V : Type} `{EqDecision K}.
Implicit Types (d : list (K * V)) (k : K) (v : V).

Lemma contains_true_iff d k :
  PyDict.contains d k = true <-> is_Some (PyDict.get d k).
Proof.
  unfold PyDict.contains. destruct (PyDict.get d k); split; intros HH.
  - eauto.
  - reflexivity.
  - discriminate.
  - destruct HH as [x Hx]. discriminate.
Qed.

Lemma contains_false_iff d k :
  PyDict.contains d k = false <-> PyDict.get d k = None.
Proof.
  unfold PyDict.contains. destruct (PyDict.get d k); split; congruence.
Qed.

Lemma get_in_keys d k v : PyDict.get d k = Some v -> In k (PyDict.keys d).
Proof.
  induction d as [|[k' v'] d IH]; simpl; [discriminate|].
  destruct (decide (k = k')) as [->|Hne]; intros HH; [now left|].
  right. now apply IH.
Qed.

Lemma get_not_in_keys d k : ~ In k (PyDict.keys d) -> PyDict.get d k = None.
Proof.
  intros Hn. destruct (PyDict.get d k) eqn:E; [|reflexivity].
  exfalso. eauto using get_in_keys.
Qed.

Lemma get_set_eq d k v : PyDict.get (PyDict.set d k v) k = Some v.
Proof.
  induction d as [|[k' v'] d IH]; simpl.
  - now rewrite decide_True.
  - destruct (decide (k = k')) as [->|Hne]; simpl.
    + now rewrite decide_True.
    + now rewrite decide_False.
Qed.

Lemma get_set_ne d k k' v :
  k <> k' -> PyDict.get (PyDict.set d k v) k' = PyDict.get d k'.
Proof.
  intros Hne. induction d as [|[k0 v0] d IH]; simpl.
  - rewrite decide_False; [reflexivity|congruence].
  - destruct (decide (k = k0)) as [->|Hne0]; simpl.
    + rewrite !decide_False; [reflexivity|congruence|congruence].
    + destruct (decide (k' = k0)); [reflexivity|apply IH].
Qed.

Lemma get_not_in_keys_inv d k : PyDict.get d k = None -> ~ In k (PyDict.keys d).
Proof.
  induction d as [|[k' v'] d IH]; simpl; [tauto|].
  destruct (decide (k = k')) as [->|Hne]; [discriminate|].
  intros HH [Heq|Hin]; [congruence|]. now apply IH.
Qed.

(** A new key goes last. *)
Lemma set_absent d k v :
  PyDict.get d k = None -> PyDict.set d k v = d ++ [(k, v)].
Proof.
  induction d as [|[k' v'] d IH]; simpl; [reflexivity|].
  destruct (decide (k = k')); [discriminate|].
  intros HH. now rewrite IH.
Qed.

(** Deleting a key that was just added gives the dictionary back. *)
Lemma del_set_absent d k v :
  PyDict.get d k = None -> PyDict.del (PyDict.set d k v) k = d.
Proof.
  induction d as [|[k' v'] d IH]; simpl.
  - now rewrite decide_True.
  - destruct (decide (k = k')) as [->|Hne]; [discriminate|].
    intros HH. simpl. rewrite decide_False by assumption.
    now rewrite IH.
Qed.

Lemma keys_del_subset d k k' :
  In k' (PyDict.keys (PyDict.del d k)) -> In k' (PyDict.keys d).
Proof.
  induction d as [|[k0 v0] d IH]; simpl; [tauto|].
  destruct (decide (k = k0)); simpl; intuition.
Qed.

(** With unique keys, a deleted key is gone. *)
Lemma get_del_eq d k :
  List.NoDup (PyDict.keys d) -> PyDict.get (PyDict.del d k) k = None.
Proof.
  induction d as [|[k' v'] d IH]; simpl; [reflexivity|].
  intros Hnd. inversion Hnd as [|x l Hni Hnd']; subst.
  destruct (decide (k = k')) as [->|Hne]; simpl.
  - now apply get_not_in_keys.
  - rewrite decide_False by assumption. now apply IH.
Qed.

Lemma get_del_ne d k k' :
  k <> k' -> PyDict.get (PyDict.del d k) k' = PyDict.get d k'.
Proof.
  intros Hne. induction d as [|[k0 v0] d IH]; simpl; [reflexivity|].
  destruct (decide (k = k0)) as [->|Hne0]; simpl.
  - rewrite decide_False; [reflexivity|congruence].
  - destruct (decide (k' = k0)); [reflexivity|apply IH].
Qed.

(** The operations keep the keys unique. *)
Lemma keys_set_absent d k v :
  PyDict.get d k = None -> PyDict.keys (PyDict.set d k v) = PyDict.keys d ++ [k].
Proof.
  intros HH. rewrite set_absent by assumption.
  unfold PyDict.keys. now rewrite map_app.
Qed.

Lemma keys_set_present d k v :
  is_Some (PyDict.get d k) -> PyDict.keys (PyDict.set d k v) = PyDict.keys d.
Proof.
  induction d as [|[k' v'] d IH]; simpl.
  - intros [x Hx]. discriminate.
  - destruct (decide (k = k')) as [->|Hne]; simpl; [reflexivity|].
    intros HH. now rewrite IH.
Qed.

Lemma NoDup_keys_set d k v :
  List.NoDup (PyDict.keys d) -> List.NoDup (PyDict.keys (PyDict.set d k v)).
Proof.
  intros Hnd. destruct (PyDict.get d k) eqn:E.
  - rewrite keys_set_present by eauto. assumption.
  - rewrite keys_set_absent by assumption.
    apply List.NoDup_app; [assumption|repeat constructor; simpl; tauto|].
    intros x Hx [Hx'|[]]. subst x.
    apply get_not_in_keys_inv in E. contradiction.
Qed.

Lemma NoDup_keys_del d k :
  List.NoDup (PyDict.keys d) -> List.NoDup (PyDict.keys (PyDict.del d k)).
Proof.
  induction d as [|[k' v'] d IH]; simpl; [trivial|].
  intros Hnd. inversion Hnd as [|x l Hni Hnd']; subst.
  destruct (decide (k = k')); [assumption|].
  simpl. constructor; [|now apply IH].
  intros Hin. apply Hni. eauto using keys_del_subset.
Qed.

Lemma get_app d d' k :
  PyDict.get (d ++ d') k
  = match PyDict.get d k with Some v => Some v | None => PyDict.get d' k end.
Proof.
  induction d as [|[k' v'] d IH]; simpl; [reflexivity|].
  destruct (decide (k = k')); [reflexivity|apply IH].
Qed.

Lemma get_Some_in d k v : PyDict.get d k = Some v -> In (k, v) d.
Proof.
  induction d as [|[k' v'] d IH]; simpl; [discriminate|].
  destruct (decide (k = k')) as [->|Hne].
  - intros [= ->]. now left.
  - intros HH. right. now apply IH.
Qed.

Lemma get_Some_in_values d k v : PyDict.get d k = Some v -> In v (map snd d).
Proof.
  intros HH. apply get_Some_in in HH. apply in_map_iff. now exists (k, v).
Qed.

(** Distinct values: a value has one key. *)
Lemma get_injective d k k' v :
  List.NoDup (map snd d) ->
  PyDict.get d k = Some v -> PyDict.get d k' = Some v -> k = k'.
Proof.
  induction d as [|[k0 v0] d IH]; simpl; [discriminate|].
  intros Hnd. inversion Hnd as [|x xs Hni Hnd']; subst.
  destruct (decide (k = k0)) as [->|Hne], (decide (k' = k0)) as [->|Hne'].
  - reflexivity.
  - intros [= ->] HH. apply get_Some_in_values in HH. contradiction.
  - intros HH [= ->]. apply get_Some_in_values in HH. contradiction.
  - now apply IH.
Qed.

(** *** Chains of dictionaries *)

Implicit Types (maps : list (list (K * V))).

Lemma update_keys_spec (acc : list K) d :
  List.NoDup acc ->
  List.NoDup (PyDict.update_keys acc d)
  /\ forall k, In k (PyDict.update_keys acc d) <-> In k acc \/ In k (PyDict.keys d).
Proof.
  unfold PyDict.update_keys. generalize (PyDict.keys d) as ks.
  intros ks. revert acc. induction ks as [|x ks IH]; intros acc Hnd; simpl.
  - split; [assumption|]. tauto.
  - destruct (bool_decide (x ∈ acc)) eqn:Hx.
    + apply bool_decide_eq_true, list_elem_of_In in Hx.
      destruct (IH acc Hnd) as [Hnd' Hin]. split; [assumption|].
      intros k. rewrite Hin. intuition congruence.
    + apply bool_decide_eq_false in Hx. rewrite list_elem_of_In in Hx.
      assert (Hnd1 : List.NoDup (acc ++ [x])).
      { apply List.NoDup_app; [assumption|repeat constructor; simpl; tauto|].
        intros a Ha [->|[]]. contradiction. }
      destruct (IH _ Hnd1) as [Hnd' Hin]. split; [assumption|].
      intros k. rewrite Hin, in_app_iff. simpl. tauto.
Qed.

Lemma chain_keys_spec maps :
  List.NoDup (PyDict.chain_keys maps)
  /\ forall k,
      In k (PyDict.chain_keys maps)
      <-> exists d, In d maps /\ In k (PyDict.keys d).
Proof.
  unfold PyDict.chain_keys.
  assert (Hgen : forall ms (acc : list K),
            List.NoDup acc ->
            List.NoDup (fold_left PyDict.update_keys ms acc)
            /\ forall k, In k (fold_left PyDict.update_keys ms acc)
                         <-> In k acc \/ exists d, In d ms /\ In k (PyDict.keys d)).
  { induction ms as [|m ms IH]; intros acc Hnd; simpl.
    - split; [assumption|]. intros k. split; [tauto|].
      intros [?|(d & [] & _)]. assumption.
    - destruct (update_keys_spec acc m Hnd) as [Hnd1 Hin1].
      destruct (IH _ Hnd1) as [Hnd2 Hin2]. split; [assumption|].
      intros k. rewrite Hin2, Hin1. split.
      + intros [[?|?]|(d & ? & ?)]; eauto 6.
      + intros [?|(d & [->|?] & ?)]; eauto 6. }
  destruct (Hgen (rev maps) [] (List.NoDup_nil _)) as [Hnd Hin].
  split; [assumption|]. intros k. rewrite Hin. split.
  - intros [[]|(d & Hd & Hk)]. exists d. split; [|assumption].
    now apply in_rev.
  - intros (d & Hd & Hk). right. exists d. split; [|assumption].
    now apply in_rev in Hd.
Qed.

Lemma chain_get_Some maps k v :
  PyDict.chain_get maps k = Some v ->
  exists d, In d maps /\ PyDict.get d k = Some v.
Proof.
  induction maps as [|m maps IH]; simpl; [discriminate|].
  destruct (PyDict.get m k) eqn:E.
  - intros [= <-]. eauto.
  - intros HH. destruct (IH HH) as (d & ? & ?). eauto.
Qed.

Lemma chain_get_None maps k :
  (forall d, In d maps -> PyDict.get d k = None) ->
  PyDict.chain_get maps k = None.
Proof.
  induction maps as [|m maps IH]; simpl; [reflexivity|].
  intros HH. rewrite (HH m (or_introl eq_refl)). apply IH. auto.
Qed.

Lemma chain_get_is_Some maps k d :
  In d maps -> In k (PyDict.keys d) -> is_Some (PyDict.chain_get maps k).
Proof.
  induction maps as [|m maps IH]; simpl; [tauto|].
  intros Hd Hk. destruct (PyDict.get m k) eqn:E; [eauto|].
  destruct Hd as [->|Hd]; [|now apply IH].
  apply get_not_in_keys_inv in E. contradiction.
Qed.

(** The dictionary built from a chain has the keys of the chain, each
    once, and answers as the chain does. *)
Lemma of_chain_spec maps :
  PyDict.keys (PyDict.of_chain maps) = PyDict.chain_keys maps
  /\ List.NoDup (PyDict.keys (PyDict.of_chain maps))
  /\ forall k, PyDict.get (PyDict.of_chain maps) k = PyDict.chain_get maps k.
Proof.
  destruct (chain_keys_spec maps) as [Hnd Hin].
  unfold PyDict.of_chain.
  set (f := fun k => match PyDict.chain_get maps k with
                     | Some v => Some (k, v)
                     | None => None
                     end).
  assert (Hkeys : forall ks,
            (forall k, In k ks -> is_Some (PyDict.chain_get maps k)) ->
            PyDict.keys (omap f ks) = ks
            /\ forall k,
                (In k ks ->
                 PyDict.get (omap f ks) k = PyDict.chain_get maps k)
                /\ (~ In k ks -> PyDict.get (omap f ks) k = None)).
  { induction ks as [|x ks IH]; intros Hs.
    - split; [reflexivity|]. intros k. simpl. tauto.
    - destruct (IH (fun k Hk => Hs k (or_intror Hk))) as [IHk IHg].
      destruct (Hs x (or_introl eq_refl)) as [v Hv].
      assert (Hom : omap f (x :: ks) = (x, v) :: omap f ks).
      { cbn. unfold f at 1. now rewrite Hv. }
      rewrite Hom. split; [simpl; now rewrite IHk|].
      intros k. simpl. destruct (decide (k = x)) as [->|Hne].
      + split; [now rewrite Hv|]. intros Hn. exfalso. apply Hn. now left.
      + destruct (IHg k) as [Hg1 Hg2]. split.
        * intros [?|?]; [congruence|auto].
        * intros Hn. apply Hg2. tauto. }
  destruct (Hkeys (PyDict.chain_keys maps)) as [Hk Hg].
  { intros k Hk. apply Hin in Hk as (d & Hd & Hkd).
    eauto using chain_get_is_Some. }
  split; [assumption|]. split; [now rewrite Hk|].
  intros k. destruct (Hg k) as [Hg1 Hg2].
  destruct (in_dec (fun a b => decide (a = b)) k (PyDict.chain_keys maps))
    as [Hi|Hn].
  - now apply Hg1.
  - rewrite (Hg2 Hn). symmetry. apply chain_get_None.
    intros d Hd. apply get_not_in_keys. intros Hkd. apply Hn, Hin. eauto.
Qed.

End facts.
End PyDictFacts.

(** ** [Verify] *)

Module StructureSpec.
Import Structure.

(** C10.  The truth value of a [Verify] object is [bool(result)], whatever
    its weight and keypoint are; an omitted weight is [0] and an omitted
    keypoint is [None]. *)
Theorem Verify_bool_is_bool_of_result :
  forall (result : pyval) (weight keypoint : option pyval),
    Verify_bool (Verify_init result weight keypoint) = truthy result
    /\ Structure.weight (Verify_init result None keypoint) = PyInt 0
    /\ Structure.keypoint (Verify_init result weight None) = PyNone.
Proof.
  intros r w k. unfold Verify_bool, Verify_init. simpl. auto.
Qed.

(** *** The rendering of a message *)

Lemma has_newline_app s1 s2 :
  has_newline (s1 ++ s2)%string = has_newline s1 || has_newline s2.
Proof.
  induction s1 as [|c s1 IH]; simpl; [reflexivity|].
  now rewrite IH, orb_assoc.
Qed.

Lemma has_newline_replace s : has_newline (replace_char "010" " " s) = false.
Proof.
  induction s as [|c s IH]; simpl; [reflexivity|]. rewrite IH.
  destruct (Ascii.eqb c "010") eqn:E; [reflexivity|]. now rewrite E.
Qed.

(** The decimal digits of a number hold no line break. *)
Lemma has_newline_pretty_N_go x :
  forall s, has_newline (pretty_N_go x s) = has_newline s.
Proof.
  induction (N.lt_wf_0 x) as [x _ IH]; intros s.
  destruct (decide (x = 0)%N) as [->|Hx]; [now rewrite pretty_N_go_0|].
  rewrite pretty_N_go_step by lia. rewrite IH by (apply N.div_lt; lia).
  simpl. unfold pretty_N_char. repeat case_match; reflexivity.
Qed.

Lemma has_newline_pretty_Z (n : Z) : has_newline (pretty n) = false.
Proof.
  assert (HN : forall x : N, has_newline (pretty x) = false).
  { intros x. unfold pretty, pretty_N. case_decide; [reflexivity|].
    apply has_newline_pretty_N_go. }
  destruct n as [|p|p]; [reflexivity|apply (HN (Npos p))|].
  unfold pretty, pretty_Z. simpl. apply (HN (Npos p)).
Qed.

Lemma has_newline_concat (l : list string) :
  Forall (fun s => has_newline s = false) l ->
  has_newline (String.concat "" l) = false.
Proof.
  induction 1 as [|s l Hs Hl IH]; [reflexivity|].
  destruct l as [|s' l]; [exact Hs|].
  change (String.concat "" (s :: s' :: l))
    with (s ++ "" ++ String.concat "" (s' :: l))%string.
  rewrite !has_newline_app, Hs, IH. reflexivity.
Qed.

(** [MessageStructure.__str__] gives one line when the appid of the bot,
    the identifiers of the channel and of the user and the nickname hold no
    line break: whatever the text, the faces and the images of the message
    are, the line breaks of the text are replaced by spaces. *)
Theorem message_str_is_one_line :
  forall self,
    has_newline (appid self) = false ->
    has_newline (channel_id self) = false ->
    has_newline (user_id self) = false ->
    has_newline (nickname self) = false ->
    has_newline (MessageStructure_str self) = false.
Proof.
  intros self Ha Hc Hu Hn. unfold MessageStructure_str, repeat_string.
  cbv zeta.
  rewrite !has_newline_app, Ha, Hc, Hu, Hn, has_newline_replace.
  rewrite !has_newline_concat.
  - now destruct (is_admin self), (is_direct self).
  - apply List.Forall_forall. intros s Hs. now apply repeat_spec in Hs as ->.
  - apply List.Forall_forall. intros s Hs.
    apply in_map_iff in Hs as (n & <- & _).
    rewrite !has_newline_app, has_newline_pretty_Z. reflexivity.
Qed.

(** [message_str_is_one_line], at the message of the scenario. *)
Lemma message_str_is_one_line_witness :
  MessageStructure_str Scenario.admin_message
  = "Bot:10001 Channel:c1 User:u1(admin) nick: a b[face:1][face:22][image]"%string
  /\ has_newline (MessageStructure_str Scenario.admin_message) = false.
Proof.
  split; [reflexivity|].
  apply (message_str_is_one_line Scenario.admin_message); reflexivity.
Defined.

End StructureSpec.

(** ** Handler factories and plugins *)

Module HandlerSpec.
Import Handler PyDictFacts.

Section Registry.
Context {GroupConfig : Type}.
Variable GroupConfig_iadd : GroupConfig -> GroupConfig -> result GroupConfig.
Implicit Types (self plugin instance : Factory GroupConfig)
  (w : World GroupConfig) (i : PluginInfo) (h : heap).

Lemma set_plugins_same self : set_plugins self (plugins self) = self.
Proof. destruct self; reflexivity. Qed.

Lemma set_plugins_twice self ps ps' :
  set_plugins (set_plugins self ps) ps' = set_plugins self ps'.
Proof. reflexivity. Qed.

Lemma plugins_set_plugins self ps : plugins (set_plugins self ps) = ps.
Proof. reflexivity. Qed.

Lemma info_set_prefix_keywords plugin keyword :
  info (set_prefix_keywords keyword plugin) = info plugin.
Proof. reflexivity. Qed.

(** The list-shaped views: the host's own sequence, then each plugin's
    view in the order of [plugins]. *)
Lemma get_with_plugins_list_unfold {A : Type}
    (attr : Factory GroupConfig -> list A) self :
  __get_with_plugins_list attr self
  = attr self
    ++ concat (map (fun p => __get_with_plugins_list attr (snd p))
                   (plugins self)).
Proof. destruct self; reflexivity. Qed.

(** A plugin without plugins of its own contributes its own sequence. *)
Lemma get_with_plugins_list_leaf {A : Type}
    (attr : Factory GroupConfig -> list A) self :
  plugins self = [] -> __get_with_plugins_list attr self = attr self.
Proof.
  intros HH. rewrite get_with_plugins_list_unfold, HH. simpl.
  apply app_nil_r.
Qed.

(** What [install_plugin] does when the identifier is free. *)
Lemma install_plugin_fresh plugin i w :
  info plugin = Some i ->
  PyDict.contains (plugins (bot w)) (plugin_id i) = false ->
  install_plugin plugin w
  = (Ok (set_prefix_keywords (inr (prefix_keywords (bot w))) plugin),
     mkWorld
       (set_plugins (bot w)
          (plugins (bot w)
           ++ [(plugin_id i,
                set_prefix_keywords (inr (prefix_keywords (bot w))) plugin)]))
       (calls w ++ [CallInstall (plugin_id i)])).
Proof.
  intros Hi Hc. unfold install_plugin. rewrite Hi, Hc.
  unfold install_hooks, register_plugin. simpl.
  rewrite PyDictFacts.set_absent; [reflexivity|].
  now apply PyDictFacts.contains_false_iff.
Qed.

(** What [uninstall_plugin] does on an installed plugin. *)
Lemma uninstall_plugin_installed plugin_id plugin i w :
  plugin_id <> "__factory__" ->
  PyDict.get (plugins (bot w)) plugin_id = Some plugin ->
  info plugin = Some i ->
  uninstall_plugin plugin_id w
  = (Ok tt,
     mkWorld (set_plugins (bot w) (PyDict.del (plugins (bot w)) plugin_id))
             (calls w ++ [CallUninstall (Handler.plugin_id i)])).
Proof.
  intros Hne Hg Hi. unfold uninstall_plugin.
  apply String.eqb_neq in Hne. rewrite Hne. simpl.
  unfold PyDict.contains. rewrite Hg, Hi. reflexivity.
Qed.

(** Installing and uninstalling keep the identifiers of [plugins] without
    repetition, as the keys of a dictionary are. *)
Lemma install_plugin_keeps_keys_unique plugin instance w w' :
  List.NoDup (PyDict.keys (plugins (bot w))) ->
  install_plugin plugin w = (Ok instance, w') ->
  List.NoDup (PyDict.keys (plugins (bot w'))).
Proof.
  intros Hnd. unfold install_plugin.
  destruct (info plugin) as [i|]; [|discriminate].
  destruct (PyDict.contains (plugins (bot w)) (plugin_id i)); [discriminate|].
  intros [= <- <-]. cbn [bot install_hooks register_plugin].
  rewrite plugins_set_plugins. now apply NoDup_keys_set.
Qed.

Lemma uninstall_plugin_keeps_keys_unique plugin_id w w' :
  List.NoDup (PyDict.keys (plugins (bot w))) ->
  uninstall_plugin plugin_id w = (Ok tt, w') ->
  List.NoDup (PyDict.keys (plugins (bot w'))).
Proof.
  intros Hnd. unfold uninstall_plugin.
  destruct (negb (plugin_id =? "__factory__")%string
            && PyDict.contains (plugins (bot w)) plugin_id); [|discriminate].
  destruct (PyDict.get (plugins (bot w)) plugin_id) as [p|]; [|discriminate].
  destruct (info p); [|discriminate].
  intros [= <-]. cbn [bot]. rewrite plugins_set_plugins.
  now apply NoDup_keys_del.
Qed.

(** *** Sequence views *)

Section Sequence.
Context {A : Type} (attr : Factory GroupConfig -> list A).
Hypothesis attr_set_plugins : forall self ps, attr (set_plugins self ps) = attr self.
Hypothesis attr_set_prefix_keywords :
  forall self keyword, attr (set_prefix_keywords keyword self) = attr self.

Lemma list_view_set_plugins self ps :
  __get_with_plugins_list attr (set_plugins self ps)
  = attr self ++ concat (map (fun p => __get_with_plugins_list attr (snd p)) ps).
Proof.
  rewrite get_with_plugins_list_unfold, attr_set_plugins.
  now rewrite plugins_set_plugins.
Qed.

Lemma list_view_set_prefix_keywords self keyword :
  __get_with_plugins_list attr (set_prefix_keywords keyword self)
  = __get_with_plugins_list attr self.
Proof.
  rewrite !get_with_plugins_list_unfold, attr_set_prefix_keywords.
  reflexivity.
Qed.

Lemma list_view_after_install plugin instance w w' :
  install_plugin plugin w = (Ok instance, w') ->
  __get_with_plugins_list attr (bot w')
  = __get_with_plugins_list attr (bot w) ++ __get_with_plugins_list attr plugin.
Proof.
  unfold install_plugin. destruct (info plugin) as [i|] eqn:Hi; [|discriminate].
  destruct (PyDict.contains (plugins (bot w)) (plugin_id i)) eqn:Hc;
    [discriminate|].
  pose proof (install_plugin_fresh plugin i w Hi Hc) as Hf.
  unfold install_plugin in Hf. rewrite Hi, Hc in Hf. rewrite Hf.
  intros [= <- <-]. cbn [bot].
  rewrite list_view_set_plugins, map_app, concat_app.
  cbn [map concat snd].
  rewrite app_nil_r, list_view_set_prefix_keywords.
  rewrite (get_with_plugins_list_unfold attr (bot w)).
  now rewrite app_assoc.
Qed.

Lemma list_view_after_install_all ps w w' :
  install_all ps w = Some w' ->
  __get_with_plugins_list attr (bot w')
  = __get_with_plugins_list attr (bot w)
    ++ concat (map (__get_with_plugins_list attr) ps).
Proof.
  revert w. induction ps as [|plugin ps IH]; intros w; simpl.
  - intros [= <-]. now rewrite app_nil_r.
  - destruct (install_plugin plugin w) as [[instance|e] w1] eqn:Hi;
      [|discriminate].
    intros Hall. rewrite (IH _ Hall).
    rewrite (list_view_after_install _ _ _ _ Hi). now rewrite app_assoc.
Qed.

End Sequence.

(** The sequence views after a run of installs: the host's view from
    before, followed by the view of each plugin in the order of the
    installs. *)
Theorem sequence_views_follow_installation_order :
  forall (ps : list (Factory GroupConfig)) w w',
    install_all ps w = Some w' ->
    message_handlers (bot w')
    = message_handlers (bot w) ++ concat (map message_handlers ps)
    /\ before_reply_handlers (bot w')
       = before_reply_handlers (bot w) ++ concat (map before_reply_handlers ps)
    /\ after_reply_handlers (bot w')
       = after_reply_handlers (bot w) ++ concat (map after_reply_handlers ps)
    /\ message_handler_middleware (bot w')
       = message_handler_middleware (bot w)
         ++ concat (map message_handler_middleware ps).
Proof.
  intros ps w w' Hall.
  repeat split; apply list_view_after_install_all; auto.
Qed.

(** *** Keyed views *)

Section Keyed.
Context {V : Type}.
Implicit Types (value pv : list (string * V)).

Lemma set_same value k v :
  PyDict.get value k = Some v -> PyDict.set value k v = value.
Proof.
  induction value as [|[k' v'] value IH]; simpl; [discriminate|].
  destruct (decide (k = k')) as [->|Hne].
  - now intros [= ->].
  - intros HH. now rewrite IH.
Qed.

Lemma contains_app_other value k k' v :
  k <> k' ->
  PyDict.contains (value ++ [(k, v)]) k' = PyDict.contains value k'.
Proof.
  intros Hne. unfold PyDict.contains.
  induction value as [|[k0 v0] value IH]; simpl.
  - now rewrite decide_False by congruence.
  - destruct (decide (k' = k0)); [reflexivity|]. apply IH.
Qed.

Lemma get_app_other value k k' v :
  k <> k' -> PyDict.get (value ++ [(k, v)]) k' = PyDict.get value k'.
Proof.
  intros Hne.
  induction value as [|[k0 v0] value IH]; simpl.
  - now rewrite decide_False by congruence.
  - destruct (decide (k' = k0)); [reflexivity|]. apply IH.
Qed.

Lemma new_entries_app_other value pv k v :
  ~ In k (PyDict.keys pv) ->
  new_entries (value ++ [(k, v)]) pv = new_entries value pv.
Proof.
  intros Hni.
  induction pv as [|[k' v'] pv IH]; [reflexivity|].
  simpl in Hni. simpl.
  rewrite contains_app_other by (intros ->; apply Hni; now left).
  rewrite IH by (intros ?; apply Hni; now right). reflexivity.
Qed.

Lemma joined_app_other value pv k v :
  ~ In k (PyDict.keys pv) ->
  joined (value ++ [(k, v)]) pv = joined value pv.
Proof.
  intros Hni.
  induction pv as [|[k' v'] pv IH]; [reflexivity|].
  simpl in Hni. simpl.
  rewrite get_app_other by (intros ->; apply Hni; now left).
  rewrite IH by (intros ?; apply Hni; now right). reflexivity.
Qed.

End Keyed.

(** The loop of the [dict] branch on list objects: the host's entries stay
    in place, the plugins' entries under new keys follow, and each list
    object of the host whose key the plugins have is extended in place. *)
Lemma merge_into_list_iadd (pv value : list (string * loc)) h :
  List.NoDup (PyDict.keys pv) ->
  merge_into list_iadd value pv h
  = (Ok (value ++ new_entries value pv),
     fold_left extend
               (joined value pv) h).
Proof.
  revert value h. induction pv as [|[k l'] pv IH]; intros value h Hnd; simpl.
  - now rewrite app_nil_r.
  - inversion Hnd as [|x xs Hni Hnd']; subst.
    unfold PyDict.contains.
    destruct (PyDict.get value k) as [l|] eqn:Hg; simpl.
    + rewrite set_same by assumption. rewrite IH by assumption.
      reflexivity.
    + rewrite PyDictFacts.set_absent by assumption.
      rewrite IH by assumption.
      rewrite new_entries_app_other, joined_app_other by assumption.
      rewrite <- app_assoc. reflexivity.
Qed.


(** The view of a factory without plugins is its own dictionary, and
    reading it changes nothing. *)
Lemma get_with_plugins_dict_leaf {V : Type}
    (iadd : V -> V -> heap -> result V * heap)
    (attr : Factory GroupConfig -> list (string * V)) self h :
  plugins self = [] ->
  __get_with_plugins_dict iadd attr self h = (Ok (attr self), h).
Proof.
  destruct self; simpl. intros ->. reflexivity.
Qed.

(** The view of a host whose plugins have no plugins of their own. *)
Lemma get_with_plugins_dict_flat {V : Type}
    (iadd : V -> V -> heap -> result V * heap)
    (attr : Factory GroupConfig -> list (string * V)) self h :
  Forall (fun p => plugins (snd p) = []) (plugins self) ->
  __get_with_plugins_dict iadd attr self h
  = merge_into iadd (attr self)
      (PyDict.of_chain (map (fun p => attr (snd p)) (plugins self))) h.
Proof.
  intros Hflat.
  assert (Hviews :
    (fix plugin_attr (ps : list (string * Factory GroupConfig)) (h : heap)
       : result (list (list (string * V))) * heap :=
       match ps with
       | [] => (Ok [], h)
       | (_, n) :: ps' =>
           match __get_with_plugins_dict iadd attr n h with
           | (Ok d, h1) =>
               match plugin_attr ps' h1 with
               | (Ok ds, h2) => (Ok (d :: ds), h2)
               | (Raise e, h2) => (Raise e, h2)
               end
           | (Raise e, h1) => (Raise e, h1)
           end
       end) (plugins self) h
    = (Ok (map (fun p => attr (snd p)) (plugins self)), h)).
  { induction Hflat as [|[id n] ps Hn Hps IH]; [reflexivity|].
    simpl in Hn. rewrite get_with_plugins_dict_leaf by assumption.
    rewrite IH. reflexivity. }
  destruct self; simpl in *. rewrite Hviews. reflexivity.
Qed.

Lemma deref_insert_eq h (l : loc) x :
  (l < length h)%nat -> deref (<[l := x]> h) l = x.
Proof.
  intros Hl. unfold deref. now rewrite list_lookup_insert_eq.
Qed.

Lemma deref_insert_ne h (l l' : loc) x :
  l <> l' -> deref (<[l := x]> h) l' = deref h l'.
Proof.
  intros Hne. unfold deref. now rewrite list_lookup_insert_ne.
Qed.

(** Joining pairs of list objects whose targets are distinct from one
    another and from the sources extends each target once and leaves
    every other list object as it was. *)
Lemma fold_extend_deref (js : list (loc * loc)) :
  forall h l,
    List.NoDup (map fst js) ->
    (forall a b, In a (map fst js) -> In b (map snd js) -> a <> b) ->
    (forall a, In a (map fst js) -> (a < length h)%nat) ->
    deref (fold_left extend js h) l
    = match PyDict.get js l with
      | Some l' => deref h l ++ deref h l'
      | None => deref h l
      end.
Proof.
  induction js as [|[a b] js IH]; intros h l Hnd Hsep Hlen; [reflexivity|].
  simpl in Hnd. inversion Hnd as [|x xs Hni Hnd']; subst.
  cbn [fold_left]. rewrite IH.
  - unfold extend at 1 2 3. cbn [fst snd PyDict.get].
    destruct (decide (l = a)) as [->|Hne].
    + rewrite (get_not_in_keys js a) by exact Hni.
      apply deref_insert_eq. apply Hlen. now left.
    + rewrite deref_insert_ne by congruence.
      destruct (PyDict.get js l) as [l'|] eqn:Hg; [|reflexivity].
      rewrite deref_insert_ne; [reflexivity|].
      apply Hsep; [now left|]. right.
      clear -Hg. induction js as [|[a0 b0] js IH]; simpl in *; [discriminate|].
      destruct (decide (l = a0)); [left; congruence|right; auto].
  - assumption.
  - intros a0 b0 Ha Hb. apply Hsep; now right.
  - intros a0 Ha. unfold extend. rewrite length_insert. apply Hlen. now right.
Qed.

Section Merge.

Lemma get_contents h (d : list (string * loc)) k :
  PyDict.get (contents h d) k = option_map (deref h) (PyDict.get d k).
Proof.
  unfold contents. induction d as [|[k' l] d IH]; simpl; [reflexivity|].
  destruct (decide (k = k')); [reflexivity|apply IH].
Qed.

Lemma get_new_entries (value pv : list (string * loc)) k :
  PyDict.get (new_entries value pv) k
  = if PyDict.contains value k then None else PyDict.get pv k.
Proof.
  induction pv as [|[k' l'] pv IH]; simpl.
  - now destruct (PyDict.contains value k).
  - destruct (PyDict.contains value k') eqn:Hc'; simpl;
      destruct (decide (k = k')) as [->|Hne]; rewrite ?IH, ?Hc'; reflexivity.
Qed.

Lemma joined_fst_in (value pv : list (string * loc)) a :
  In a (map fst (joined value pv)) -> In a (map snd value).
Proof.
  induction pv as [|[k l'] pv IH]; simpl; [tauto|].
  destruct (PyDict.get value k) as [l|] eqn:Hg; simpl; [|exact IH].
  intros [<-|Hin]; [|now apply IH]. eauto using get_Some_in_values.
Qed.

Lemma joined_snd_in (value pv : list (string * loc)) b :
  In b (map snd (joined value pv)) -> In b (map snd pv).
Proof.
  induction pv as [|[k l'] pv IH]; simpl; [tauto|].
  destruct (PyDict.get value k); simpl; tauto.
Qed.

Lemma joined_fst_key (value pv : list (string * loc)) a :
  In a (map fst (joined value pv)) ->
  exists k, In k (PyDict.keys pv) /\ PyDict.get value k = Some a.
Proof.
  induction pv as [|[k l'] pv IH]; simpl; [tauto|].
  destruct (PyDict.get value k) as [l|] eqn:Hg; simpl.
  - intros [<-|Hin]; [eauto|]. destruct (IH Hin) as (k' & ? & ?). eauto.
  - intros Hin. destruct (IH Hin) as (k' & ? & ?). eauto.
Qed.

Lemma NoDup_joined_fst (value pv : list (string * loc)) :
  List.NoDup (PyDict.keys pv) -> List.NoDup (map snd value) ->
  List.NoDup (map fst (joined value pv)).
Proof.
  intros Hpv Hval. induction pv as [|[k l'] pv IH]; simpl; [constructor|].
  simpl in Hpv. inversion Hpv as [|x xs Hni Hnd']; subst.
  destruct (PyDict.get value k) as [l|] eqn:Hg; simpl; [|now apply IH].
  constructor; [|now apply IH].
  intros Hin. apply joined_fst_key in Hin as (k' & Hk' & Hg').
  assert (k = k') by eauto using get_injective. congruence.
Qed.

Lemma get_joined (value pv : list (string * loc)) k l :
  List.NoDup (map snd value) ->
  PyDict.get value k = Some l ->
  PyDict.get (joined value pv) l = PyDict.get pv k.
Proof.
  intros Hval Hg. induction pv as [|[k' l'] pv IH]; simpl; [reflexivity|].
  destruct (PyDict.get value k') as [l0|] eqn:Hg'; simpl.
  - destruct (decide (l = l0)) as [->|Hne].
    + assert (k = k') by eauto using get_injective. subst k'.
      now rewrite decide_True.
    + rewrite decide_False by congruence. exact IH.
  - rewrite decide_False by congruence. exact IH.
Qed.

(** What the merged dictionary holds under each key once the loop has run,
    when the host's list objects are distinct, allocated and none of the
    plugins'. *)
Lemma merge_into_contents (value pv : list (string * loc)) h :
  List.NoDup (PyDict.keys pv) ->
  List.NoDup (map snd value) ->
  (forall l, In l (map snd value) -> (l < length h)%nat) ->
  (forall l l', In l (map snd value) -> In l' (map snd pv) -> l <> l') ->
  exists d h',
    merge_into list_iadd value pv h = (Ok d, h')
    /\ forall k,
        PyDict.get (contents h' d) k
        = match PyDict.get value k, PyDict.get pv k with
          | Some l, Some l' => Some (deref h l ++ deref h l')
          | Some l, None => Some (deref h l)
          | None, Some l' => Some (deref h l')
          | None, None => None
          end.
Proof.
  intros Hpv Hval Hlen Hsep. eexists _, _.
  split; [now apply merge_into_list_iadd|].
  assert (Hderef : forall l,
            deref (fold_left extend (joined value pv) h) l
            = match PyDict.get (joined value pv) l with
              | Some l' => deref h l ++ deref h l'
              | None => deref h l
              end).
  { intros l. apply fold_extend_deref.
    - now apply NoDup_joined_fst.
    - intros a b Ha Hb. apply Hsep; eauto using joined_fst_in, joined_snd_in.
    - intros a Ha. apply Hlen. eauto using joined_fst_in. }
  intros k. rewrite get_contents, get_app, get_new_entries.
  unfold PyDict.contains.
  destruct (PyDict.get value k) as [l|] eqn:Hg; simpl.
  - rewrite Hderef, (get_joined value pv k l) by assumption.
    destruct (PyDict.get pv k); reflexivity.
  - destruct (PyDict.get pv k) as [l'|] eqn:Hp; simpl; [|reflexivity].
    rewrite Hderef. rewrite (get_not_in_keys (joined value pv) l').
    + reflexivity.
    + intros Hin. apply (Hsep l' l'); eauto using joined_fst_in, get_Some_in_values.
Qed.

End Merge.

Lemma chain_values_in (ds : list (list (string * loc))) l :
  In l (map snd (PyDict.of_chain ds)) ->
  exists d, In d ds /\ In l (map snd d).
Proof.
  intros Hin. apply in_map_iff in Hin as ([k l'] & <- & Hin). simpl.
  destruct (of_chain_spec ds) as (_ & Hnd & Hget).
  assert (Hg : PyDict.get (PyDict.of_chain ds) k = Some l').
  { clear Hget. induction (PyDict.of_chain ds) as [|[k0 l0] d IH];
      [destruct Hin|].
    simpl in Hnd. inversion Hnd as [|x xs Hni Hnd']; subst. simpl.
    destruct Hin as [[= -> ->]|Hin].
    - now rewrite decide_True.
    - rewrite decide_False; [now apply IH|].
      intros ->. apply Hni. apply in_map_iff. now exists (k0, l'). }
  rewrite Hget in Hg. apply chain_get_Some in Hg as (d & Hd & Hg).
  eauto using get_Some_in_values.
Qed.

(** The keyed views of a host whose plugins have no plugins of their own,
    when the host's list objects are distinct, allocated and none of the
    plugins': under each key, the host's entries followed by the entries
    of the first plugin, in the order of [plugins], that has the key. *)
Theorem keyed_view_of_flat_host :
  forall (attr : Factory GroupConfig -> list (string * loc)) self h,
    Forall (fun p => plugins (snd p) = []) (plugins self) ->
    List.NoDup (map snd (attr self)) ->
    (forall l, In l (map snd (attr self)) -> (l < length h)%nat) ->
    (forall l p, In l (map snd (attr self)) -> In p (plugins self) ->
                 ~ In l (map snd (attr (snd p)))) ->
    exists d h',
      __get_with_plugins_dict list_iadd attr self h = (Ok d, h')
      /\ forall k,
          PyDict.get (contents h' d) k
          = match PyDict.get (attr self) k,
                  PyDict.chain_get
                    (map (fun p => attr (snd p)) (plugins self)) k with
            | Some l, Some l' => Some (deref h l ++ deref h l')
            | Some l, None => Some (deref h l)
            | None, Some l' => Some (deref h l')
            | None, None => None
            end.
Proof.
  intros attr self h Hflat Hval Hlen Hsep.
  rewrite get_with_plugins_dict_flat by assumption.
  set (ds := map (fun p => attr (snd p)) (plugins self)).
  destruct (of_chain_spec ds) as (_ & Hnd & Hget).
  destruct (merge_into_contents (attr self) (PyDict.of_chain ds) h)
    as (d & h' & Hm & Hc); try assumption.
  { intros l l' Hl Hl' ->. apply chain_values_in in Hl' as (d0 & Hd0 & Hin).
    subst ds. apply in_map_iff in Hd0 as (p & <- & Hp).
    exact (Hsep _ _ Hl Hp Hin). }
  exists d, h'. split; [assumption|].
  intros k. rewrite Hc, Hget. reflexivity.
Qed.


(** The keyed views where at most one plugin has a key, for a host as in
    [keyed_view_of_flat_host]: under a key of the host and of one plugin,
    the host's entries followed by that plugin's; under a key of one plugin
    alone, that plugin's entries; under a key no plugin has, the host's
    entries if it has the key. *)
Theorem keyed_view_with_one_contributor :
  forall (attr : Factory GroupConfig -> list (string * loc)) self h,
    Forall (fun p => plugins (snd p) = []) (plugins self) ->
    List.NoDup (map snd (attr self)) ->
    (forall l, In l (map snd (attr self)) -> (l < length h)%nat) ->
    (forall l p, In l (map snd (attr self)) -> In p (plugins self) ->
                 ~ In l (map snd (attr (snd p)))) ->
    exists d h',
      __get_with_plugins_dict list_iadd attr self h = (Ok d, h')
      /\ (forall k p l',
            In p (plugins self) ->
            PyDict.get (attr (snd p)) k = Some l' ->
            (forall q, In q (plugins self) ->
                       is_Some (PyDict.get (attr (snd q)) k) ->
                       snd q = snd p) ->
            PyDict.get (contents h' d) k
            = Some (match PyDict.get (attr self) k with
                    | Some l => deref h l ++ deref h l'
                    | None => deref h l'
                    end))
      /\ (forall k,
            (forall q, In q (plugins self) ->
                       PyDict.get (attr (snd q)) k = None) ->
            PyDict.get (contents h' d) k
            = option_map (deref h) (PyDict.get (attr self) k)).
Proof.
  intros attr self h Hflat Hval Hlen Hsep.
  destruct (keyed_view_of_flat_host attr self h Hflat Hval Hlen Hsep)
    as (d & h' & Hv & Hc).
  exists d, h'. split; [exact Hv|]. split.
  - intros k p l' Hp Hg Honly. rewrite Hc.
    assert (Hchain : PyDict.chain_get
                       (map (fun p => attr (snd p)) (plugins self)) k
                     = Some l').
    { destruct (chain_get_is_Some
                  (map (fun p => attr (snd p)) (plugins self)) k
                  (attr (snd p))) as [v Hv'].
      - apply in_map_iff. now exists p.
      - eauto using get_in_keys.
      - rewrite Hv'. apply chain_get_Some in Hv' as (d0 & Hd0 & Hg0).
        apply in_map_iff in Hd0 as (q & <- & Hq).
        rewrite (Honly q Hq) in Hg0 by eauto. congruence. }
    rewrite Hchain. now destruct (PyDict.get (attr self) k).
  - intros k Hnone. rewrite Hc.
    rewrite chain_get_None.
    + now destruct (PyDict.get (attr self) k).
    + intros d0 Hd0. apply in_map_iff in Hd0 as (q & <- & Hq). auto.
Qed.


(** *** Registration *)

Lemma distinct_objects_perm (ls ls' : list nat) h :
  Permutation ls ls' -> distinct_objects ls h -> distinct_objects ls' h.
Proof.
  intros Hp [Hnd Hlen]. split.
  - eapply Permutation_NoDup; eassumption.
  - intros l Hl. apply Hlen. eapply Permutation_in; [|exact Hl].
    now apply Permutation_sym.
Qed.

Lemma NoDup_app_apart {A : Type} (l1 l2 : list A) a :
  List.NoDup (l1 ++ l2) -> In a l1 -> In a l2 -> False.
Proof.
  induction l1 as [|x l1 IH]; simpl; [tauto|].
  intros Hnd. inversion Hnd as [|y ys Hni Hnd']; subst.
  intros [->|Hin] Hin2; [|now apply IH].
  apply Hni, in_or_app. now right.
Qed.

Lemma deref_app_allocated h (h1 : list (list Func)) (l : nat) :
  (l < length h)%nat -> deref (h ++ h1) l = deref h l.
Proof.
  intros Hl. unfold deref. now rewrite lookup_app_l.
Qed.

(** A dictionary whose list objects are as they were holds what it
    held. *)
Lemma contents_frame h (h' : list (list Func)) (d : list (string * nat)) :
  (forall l, In l (map snd d) -> deref h' l = deref h l) ->
  contents h' d = contents h d.
Proof.
  intros Hf. unfold contents. apply map_ext_in. intros [k l] Hin. simpl.
  f_equal. apply Hf. apply in_map_iff. now exists (k, l).
Qed.

(** One round of the loop of [on_event] and [on_exception]: the list under
    [item] gets [func] at its end, a new list being made for a new key;
    the list objects stay distinct, also from the objects [others], and no
    other list object changes. *)
Lemma register_item_spec func item (d : list (string * nat)) h
    (others : list nat) d' (h' : list (list Func)) :
  distinct_objects (map snd d ++ others) h ->
  register_item func (d, h) item = (d', h') ->
  distinct_objects (map snd d' ++ others) h'
  /\ (length h <= length h')%nat
  /\ (forall l, (l < length h)%nat -> ~ In l (map snd d) ->
                deref h' l = deref h l)
  /\ (forall k,
        PyDict.get (contents h' d') k
        = if decide (k = item)
          then Some (default [] (PyDict.get (contents h d) k) ++ [func])
          else PyDict.get (contents h d) k).
Proof.
  intros [Hnd Hlen]. unfold register_item, PyDict.contains.
  destruct (PyDict.get d item) as [l|] eqn:Hg.
  - rewrite Hg. intros [= <- <-].
    assert (Hl : (l < length h)%nat).
    { apply Hlen. apply in_or_app. left. eauto using get_Some_in_values. }
    unfold append. split; [|split; [|split]].
    + split; [assumption|]. intros l0 Hl0. rewrite length_insert. auto.
    + now rewrite length_insert.
    + intros l0 _ Hni. apply deref_insert_ne. intros ->.
      apply Hni. eauto using get_Some_in_values.
    + intros k. rewrite !get_contents.
      destruct (decide (k = item)) as [->|Hne].
      * rewrite Hg. simpl. now rewrite deref_insert_eq.
      * destruct (PyDict.get d k) as [l0|] eqn:Hg0; [|reflexivity]. simpl.
        rewrite deref_insert_ne; [reflexivity|]. intros ->.
        apply Hne. apply NoDup_app_remove_r in Hnd.
        eauto using get_injective.
  - unfold alloc. rewrite get_set_eq. intros [= <- <-].
    rewrite (set_absent d item) by assumption.
    assert (Hnew : ~ In (length h) (map snd d ++ others)).
    { intros Hin. apply Hlen in Hin. lia. }
    assert (Hlen' :
      length (<[length h := deref (h ++ [[]]) (length h) ++ [func]]>
                (h ++ [[]]))
      = S (length h)).
    { rewrite length_insert, length_app. simpl. lia. }
    unfold append. split; [|split; [|split]].
    + split.
      * rewrite map_app. cbn [map snd]. rewrite <- app_assoc. simpl.
        eapply Permutation_NoDup; [apply Permutation_middle|].
        now constructor.
      * intros l0 Hl0. rewrite Hlen'.
        rewrite map_app, <- app_assoc in Hl0. cbn [map snd app] in Hl0.
        apply in_app_or in Hl0 as [Hl0|[<-|Hl0]].
        -- assert (l0 < length h)%nat; [|lia].
           apply Hlen, in_or_app. now left.
        -- lia.
        -- assert (l0 < length h)%nat; [|lia].
           apply Hlen, in_or_app. now right.
    + rewrite Hlen'. lia.
    + intros l0 Hl0 _. rewrite deref_insert_ne by lia.
      now apply deref_app_allocated.
    + intros k. rewrite !get_contents, get_app. cbn [PyDict.get].
      destruct (decide (k = item)) as [->|Hne].
      * rewrite Hg. simpl. rewrite deref_insert_eq.
        -- unfold deref at 1. rewrite lookup_app_r by lia.
           now rewrite Nat.sub_diag.
        -- rewrite length_app. simpl. lia.
      * destruct (PyDict.get d k) as [l0|] eqn:Hg0; [|reflexivity]. simpl.
        assert (Hl0 : (l0 < length h)%nat).
        { apply Hlen, in_or_app. left. eauto using get_Some_in_values. }
        rewrite deref_insert_ne by lia.
        now rewrite deref_app_allocated.
Qed.

Lemma registered_cons func item items k old :
  registered func (item :: items) k old
  = registered func items k
      (if decide (k = item) then Some (default [] old ++ [func]) else old).
Proof.
  unfold registered. cbn [count_occ].
  destruct (string_dec item k) as [->|Hne].
  - rewrite decide_True by reflexivity.
    destruct (count_occ string_dec items k); simpl; [reflexivity|].
    now rewrite <- app_assoc.
  - rewrite decide_False by congruence. reflexivity.
Qed.

(** The loop of [on_event] and [on_exception]. *)
Lemma register_items_spec func items :
  forall (d : list (string * nat)) h (others : list nat) d'
         (h' : list (list Func)),
    distinct_objects (map snd d ++ others) h ->
    fold_left (register_item func) items (d, h) = (d', h') ->
    distinct_objects (map snd d' ++ others) h'
    /\ (length h <= length h')%nat
    /\ (forall l, (l < length h)%nat -> ~ In l (map snd d) ->
                  deref h' l = deref h l)
    /\ (forall k,
          PyDict.get (contents h' d') k
          = registered func items k (PyDict.get (contents h d) k)).
Proof.
  induction items as [|item items IH]; intros d h others d' h' Hd.
  - simpl. intros [= <- <-]. repeat split; try apply Hd; auto.
  - cbn [fold_left].
    destruct (register_item func (d, h) item) as [d1 h1] eqn:Hstep.
    destruct (register_item_spec func item d h others d1 h1 Hd Hstep)
      as (Hd1 & Hlen1 & Hframe1 & Hget1).
    intros Hrest.
    destruct (IH d1 h1 others d' h' Hd1 Hrest)
      as (Hd' & Hlen' & Hframe' & Hget').
    split; [assumption|]. split; [lia|]. split.
    + intros l Hl Hni. rewrite Hframe'.
      * now apply Hframe1.
      * lia.
      * intros Hin. destruct Hd as [_ Hlen]. destruct Hd1 as [Hnd1 _].
        unfold register_item in Hstep.
        destruct (PyDict.contains d item) eqn:Hc.
        -- destruct (PyDict.get d item); inversion Hstep; subst; tauto.
        -- unfold alloc in Hstep. rewrite get_set_eq in Hstep.
           inversion Hstep; subst.
           apply contains_false_iff in Hc.
           rewrite (set_absent d item) in Hin by assumption.
           rewrite map_app in Hin. apply in_app_or in Hin as [Hin|[<-|[]]];
             [tauto|]. simpl in Hl. lia.
    + intros k. rewrite Hget', Hget1. now rewrite registered_cons.
Qed.

Lemma on_event_eq names func self h :
  on_event names func self h
  = (set_event_handlers self
       (fst (fold_left (register_item func) (as_list names)
                       (_event_handlers self, h))),
     snd (fold_left (register_item func) (as_list names)
                    (_event_handlers self, h))).
Proof.
  unfold on_event. now destruct (fold_left _ _ _).
Qed.

Lemma on_exception_eq names func self h :
  on_exception names func self h
  = (set_exception_handlers self
       (fst (fold_left (register_item func) (as_list names)
                       (_exception_handlers self, h))),
     snd (fold_left (register_item func) (as_list names)
                    (_exception_handlers self, h))).
Proof.
  unfold on_exception. now destruct (fold_left _ _ _).
Qed.

(** [on_event(names)(func)] puts [func] at the end of the handlers of each
    name, once for every time the name is listed, after the handlers that
    were there, and leaves the other names as they were; a factory without
    plugins then shows exactly its own dictionary as its merged view, and
    the read changes nothing.  [on_exception] does the same on the
    exception handlers. *)
Theorem registration_appends_under_each_name :
  forall names func self h,
    distinct_objects (list_objects self) h ->
    (forall self' h',
       on_event names func self h = (self', h') ->
       (forall k,
          PyDict.get (contents h' (_event_handlers self')) k
          = registered func (as_list names) k
              (PyDict.get (contents h (_event_handlers self)) k))
       /\ (plugins self = [] ->
           event_handlers self' h' = (Ok (_event_handlers self'), h')))
    /\ (forall self' h',
          on_exception names func self h = (self', h') ->
          (forall k,
             PyDict.get (contents h' (_exception_handlers self')) k
             = registered func (as_list names) k
                 (PyDict.get (contents h (_exception_handlers self)) k))
          /\ (plugins self = [] ->
              exception_handlers self' h'
              = (Ok (_exception_handlers self'), h'))).
Proof.
  intros names func self h Hd. split; intros self' h'.
  - rewrite on_event_eq.
    destruct (fold_left _ _ _) as [d1 h1] eqn:Hfold. intros [= <- <-].
    destruct (register_items_spec func (as_list names) _ _
                (map snd (_exception_handlers self)) d1 h1 Hd Hfold)
      as (_ & _ & _ & Hget).
    split; [exact Hget|].
    intros Hp. now apply get_with_plugins_dict_leaf.
  - rewrite on_exception_eq.
    destruct (fold_left _ _ _) as [d1 h1] eqn:Hfold. intros [= <- <-].
    assert (Hd' : distinct_objects
                    (map snd (_exception_handlers self)
                     ++ map snd (_event_handlers self)) h).
    { eapply distinct_objects_perm; [|exact Hd]. apply Permutation_app_comm. }
    destruct (register_items_spec func (as_list names) _ _
                (map snd (_event_handlers self)) d1 h1 Hd' Hfold)
      as (_ & _ & _ & Hget).
    split; [exact Hget|].
    intros Hp. now apply get_with_plugins_dict_leaf.
Qed.

(** Registering with [on_event] keeps the list objects of the factory
    distinct objects of the heap, changes no attribute but
    [_event_handlers], leaves what the exception handlers hold as it was,
    and changes no list object that existed and is not one of the
    factory's event handler lists; [on_exception] likewise, with the two
    attributes exchanged. *)
Theorem registration_keeps_list_objects_apart :
  forall names func self h,
    distinct_objects (list_objects self) h ->
    (forall self' h',
       on_event names func self h = (self', h') ->
       distinct_objects (list_objects self') h'
       /\ self' = set_event_handlers self (_event_handlers self')
       /\ contents h' (_exception_handlers self')
          = contents h (_exception_handlers self)
       /\ forall l, (l < length h)%nat ->
                    ~ In l (map snd (_event_handlers self)) ->
                    deref h' l = deref h l)
    /\ (forall self' h',
          on_exception names func self h = (self', h') ->
          distinct_objects (list_objects self') h'
          /\ self' = set_exception_handlers self (_exception_handlers self')
          /\ contents h' (_event_handlers self')
             = contents h (_event_handlers self)
          /\ forall l, (l < length h)%nat ->
                       ~ In l (map snd (_exception_handlers self)) ->
                       deref h' l = deref h l).
Proof.
  intros names func self h Hd. split; intros self' h'.
  - rewrite on_event_eq.
    destruct (fold_left _ _ _) as [d1 h1] eqn:Hfold. intros [= <- <-].
    destruct (register_items_spec func (as_list names) _ _
                (map snd (_exception_handlers self)) d1 h1 Hd Hfold)
      as (Hd1 & _ & Hframe & _).
    split; [exact Hd1|]. split; [reflexivity|]. split; [|exact Hframe].
    cbn [_exception_handlers set_event_handlers].
    apply contents_frame. intros l Hl.
    destruct Hd as [Hnd Hlen]. apply Hframe.
    + apply Hlen, in_or_app. now right.
    + intros Hin. exact (NoDup_app_apart _ _ l Hnd Hin Hl).
  - rewrite on_exception_eq.
    destruct (fold_left _ _ _) as [d1 h1] eqn:Hfold. intros [= <- <-].
    assert (Hd' : distinct_objects
                    (map snd (_exception_handlers self)
                     ++ map snd (_event_handlers self)) h).
    { eapply distinct_objects_perm; [|exact Hd]. apply Permutation_app_comm. }
    destruct (register_items_spec func (as_list names) _ _
                (map snd (_event_handlers self)) d1 h1 Hd' Hfold)
      as (Hd1 & _ & Hframe & _).
    split.
    { eapply distinct_objects_perm; [|exact Hd1]. apply Permutation_app_comm. }
    split; [reflexivity|]. split; [|exact Hframe].
    cbn [_event_handlers set_exception_handlers].
    apply contents_frame. intros l Hl.
    destruct Hd as [Hnd Hlen]. apply Hframe.
    + apply Hlen, in_or_app. now left.
    + intros Hin. exact (NoDup_app_apart _ _ l Hnd Hl Hin).
Qed.

(** *** Group configurations *)

(** A configuration stored with [set_group_config] is the one the merged
    view of a factory without plugins gives under its group; the other
    groups keep their configurations and their places, a new group goes
    last, and the read changes nothing. *)
Theorem set_group_config_round_trip :
  forall group_id (config : GroupConfig) self h,
    plugins self = [] ->
    exists d,
      group_config GroupConfig_iadd (set_group_config group_id config self) h
      = (Ok d, h)
      /\ PyDict.get d group_id = Some config
      /\ (forall other,
            other <> group_id ->
            PyDict.get d other = PyDict.get (_group_config self) other)
      /\ PyDict.keys d
         = if PyDict.contains (_group_config self) group_id
           then PyDict.keys (_group_config self)
           else PyDict.keys (_group_config self) ++ [group_id].
Proof.
  intros group_id config self h Hp.
  exists (PyDict.set (_group_config self) group_id config). split.
  { unfold group_config. now rewrite get_with_plugins_dict_leaf. }
  split; [apply get_set_eq|]. split.
  { intros other Hne. apply get_set_ne. congruence. }
  destruct (PyDict.contains (_group_config self) group_id) eqn:Hc.
  - apply keys_set_present. now apply contains_true_iff.
  - apply keys_set_absent. now apply contains_false_iff.
Qed.

(** *** Combined factories *)

Lemma set_set {V : Type} (d : list (string * V)) k v v' :
  PyDict.set (PyDict.set d k v) k v' = PyDict.set d k v'.
Proof.
  induction d as [|[k0 v0] d IH]; simpl.
  - now rewrite decide_True.
  - destruct (decide (k = k0)) as [->|Hne]; simpl.
    + now rewrite decide_True.
    + rewrite decide_False by assumption. now rewrite IH.
Qed.

(** No call takes a combined factory out of its slot; [combine_factory]
    alone puts another one there. *)
Lemma perform_keeps_slot w op (factory : Factory GroupConfig) :
  PyDict.get (plugins (bot w)) "__factory__" = Some factory ->
  PyDict.get (plugins (bot (perform w op))) "__factory__"
  = Some (last_combined [op] factory).
Proof.
  intros Hg. destruct op as [plugin|plugin_id|factory'];
    cbn [perform last_combined].
  - unfold install_plugin. destruct (info plugin) as [i|]; [|exact Hg].
    destruct (PyDict.contains (plugins (bot w)) (plugin_id i)) eqn:Hc;
      [exact Hg|].
    cbn [snd bot install_hooks register_plugin]. rewrite plugins_set_plugins.
    rewrite get_set_ne; [exact Hg|].
    intros Heq. apply contains_false_iff in Hc. congruence.
  - unfold uninstall_plugin.
    destruct (String.eqb_spec plugin_id "__factory__") as [->|Hne];
      [exact Hg|].
    cbn [negb andb].
    destruct (PyDict.contains (plugins (bot w)) plugin_id); [|exact Hg].
    destruct (PyDict.get (plugins (bot w)) plugin_id) as [p|]; [|exact Hg].
    destruct (info p); [|exact Hg].
    cbn [snd bot]. rewrite plugins_set_plugins.
    rewrite get_del_ne by assumption. exact Hg.
  - unfold combine_factory, register_plugin. cbn [bot].
    rewrite plugins_set_plugins. apply get_set_eq.
Qed.

Lemma perform_all_keeps_slot ops :
  forall w (factory : Factory GroupConfig),
    PyDict.get (plugins (bot w)) "__factory__" = Some factory ->
    PyDict.get (plugins (bot (perform_all ops w))) "__factory__"
    = Some (last_combined ops factory).
Proof.
  induction ops as [|op ops IH]; intros w factory Hg; [exact Hg|].
  unfold perform_all. cbn [fold_left]. fold (perform_all ops (perform w op)).
  rewrite (IH _ _ (perform_keeps_slot w op factory Hg)).
  now destruct op.
Qed.

(** Once [combine_factory] has stored a factory, the slot ["__factory__"]
    stays taken whatever installs, uninstalls and further combinations
    follow, and it holds the factory of the last [combine_factory].
    [combine_factory] calls no hook, and a second call replaces the factory
    of the first as if the first had not been made. *)
Theorem combined_factory_is_permanent :
  forall (factory : Factory GroupConfig) ops w,
    PyDict.get (plugins (bot (perform_all ops (combine_factory factory w))))
               "__factory__"
    = Some (last_combined ops factory)
    /\ calls (combine_factory factory w) = calls w
    /\ forall factory',
        combine_factory factory' (combine_factory factory w)
        = combine_factory factory' w.
Proof.
  intros factory ops w. split; [|split].
  - apply perform_all_keeps_slot. unfold combine_factory, register_plugin.
    cbn [bot]. rewrite plugins_set_plugins. apply get_set_eq.
  - reflexivity.
  - intros factory'. unfold combine_factory, register_plugin. cbn [bot calls].
    rewrite plugins_set_plugins, set_plugins_twice. now rewrite set_set.
Qed.



(** *** Uninstalling one of several plugins *)

(** Where a key of a dictionary sits, and what deleting it leaves. *)
Lemma get_split {V : Type} (d : list (string * V)) k v :
  PyDict.get d k = Some v ->
  exists before after,
    d = before ++ (k, v) :: after
    /\ PyDict.del d k = before ++ after.
Proof.
  induction d as [|[k0 v0] d IH]; simpl; [discriminate|].
  destruct (decide (k = k0)) as [->|Hne].
  - intros [= ->]. now exists [], d.
  - intros Hg. destruct (IH Hg) as (before & after & -> & Hdel).
    exists ((k0, v0) :: before), after. simpl. now rewrite Hdel.
Qed.

Lemma list_view_split {A : Type} (attr : Factory GroupConfig -> list A)
    self before p after :
  (forall self ps, attr (set_plugins self ps) = attr self) ->
  plugins self = before ++ p :: after ->
  __get_with_plugins_list attr self
  = attr self
    ++ plugin_views (__get_with_plugins_list attr) before
    ++ __get_with_plugins_list attr (snd p)
    ++ plugin_views (__get_with_plugins_list attr) after
  /\ __get_with_plugins_list attr (set_plugins self (before ++ after))
     = attr self
       ++ plugin_views (__get_with_plugins_list attr) before
       ++ plugin_views (__get_with_plugins_list attr) after.
Proof.
  intros Hattr Hp. unfold plugin_views. split.
  - rewrite get_with_plugins_list_unfold, Hp.
    rewrite map_app, concat_app. reflexivity.
  - rewrite (list_view_set_plugins attr Hattr).
    now rewrite map_app, concat_app.
Qed.

(** [uninstall_plugin] takes one plugin out of [plugins] and keeps the
    others in their order: each list-shaped merged view of the host loses
    the part that plugin contributed, between the parts of the plugins
    installed before it and after it, and nothing else. *)
Theorem uninstall_removes_only_that_plugin :
  forall plugin_id plugin i w,
    plugin_id <> "__factory__" ->
    PyDict.get (plugins (bot w)) plugin_id = Some plugin ->
    info plugin = Some i ->
    exists w' before after,
      uninstall_plugin plugin_id w = (Ok tt, w')
      /\ plugins (bot w) = before ++ (plugin_id, plugin) :: after
      /\ plugins (bot w') = before ++ after
      /\ (message_handlers (bot w)
          = _message_handlers (bot w)
            ++ plugin_views message_handlers before
            ++ message_handlers plugin
            ++ plugin_views message_handlers after
          /\ message_handlers (bot w')
             = _message_handlers (bot w)
               ++ plugin_views message_handlers before
               ++ plugin_views message_handlers after)
      /\ (before_reply_handlers (bot w)
          = _before_reply_handlers (bot w)
            ++ plugin_views before_reply_handlers before
            ++ before_reply_handlers plugin
            ++ plugin_views before_reply_handlers after
          /\ before_reply_handlers (bot w')
             = _before_reply_handlers (bot w)
               ++ plugin_views before_reply_handlers before
               ++ plugin_views before_reply_handlers after)
      /\ (after_reply_handlers (bot w)
          = _after_reply_handlers (bot w)
            ++ plugin_views after_reply_handlers before
            ++ after_reply_handlers plugin
            ++ plugin_views after_reply_handlers after
          /\ after_reply_handlers (bot w')
             = _after_reply_handlers (bot w)
               ++ plugin_views after_reply_handlers before
               ++ plugin_views after_reply_handlers after)
      /\ (message_handler_middleware (bot w)
          = _message_handler_middleware (bot w)
            ++ plugin_views message_handler_middleware before
            ++ message_handler_middleware plugin
            ++ plugin_views message_handler_middleware after
          /\ message_handler_middleware (bot w')
             = _message_handler_middleware (bot w)
               ++ plugin_views message_handler_middleware before
               ++ plugin_views message_handler_middleware after).
Proof.
  intros plugin_id plugin i w Hne Hg Hi.
  destruct (get_split _ _ _ Hg) as (before & after & Hp & Hdel).
  eexists _, before, after.
  split; [now apply (uninstall_plugin_installed plugin_id plugin i)|].
  split; [exact Hp|]. cbn [bot]. rewrite plugins_set_plugins, Hdel.
  split; [reflexivity|].
  repeat split;
    apply (list_view_split _ (bot w) before (plugin_id, plugin) after);
    (reflexivity || exact Hp).
Qed.

End Registry.

(** [sequence_views_follow_installation_order], at the two plugins of the
    scenario. *)
Lemma sequence_views_follow_installation_order_witness :
  message_handler_middleware (bot Scenario.world_ab) = ["mh"; "ma"; "mb"].
Proof.
  destruct (sequence_views_follow_installation_order
              [fst Scenario.plugin_a; fst Scenario.plugin_b]
              (mkWorld (fst Scenario.host_e) []) Scenario.world_ab eq_refl)
    as (_ & _ & _ & Hm).
  rewrite Hm. reflexivity.
Defined.

(** [keyed_view_of_flat_host], at the event handlers of the scenario. *)
Lemma keyed_view_of_flat_host_witness :
  exists d h',
    event_handlers (bot Scenario.world_ab) Scenario.heap_ab = (Ok d, h')
    /\ PyDict.get (contents h' d) "e" = Some ["h"; "a"]
    /\ PyDict.get (contents h' d) "g" = Some ["a"].
Proof.
  destruct (keyed_view_of_flat_host _event_handlers
              (bot Scenario.world_ab) Scenario.heap_ab)
    as (d & h' & Hv & Hc).
  - repeat constructor.
  - repeat constructor. simpl. tauto.
  - intros l [<-|[]]. simpl. lia.
  - intros l p [<-|[]] [<-|[<-|[]]]; simpl; intuition discriminate.
  - exists d, h'. split; [exact Hv|]. rewrite !Hc. split; reflexivity.
Defined.

(** [keyed_view_with_one_contributor], at the host and its first plugin. *)
Lemma keyed_view_with_one_contributor_witness :
  exists d h',
    event_handlers (bot Scenario.world_a) Scenario.heap_ab = (Ok d, h')
    /\ PyDict.get (contents h' d) "e" = Some ["h"; "a"]
    /\ PyDict.get (contents h' d) "g" = Some ["a"]
    /\ PyDict.get (contents h' d) "x" = None.
Proof.
  destruct (keyed_view_with_one_contributor _event_handlers
              (bot Scenario.world_a) Scenario.heap_ab)
    as (d & h' & Hv & Hone & Hnone).
  - repeat constructor.
  - repeat constructor. simpl. tauto.
  - intros l [<-|[]]. simpl. lia.
  - intros l p [<-|[]] [<-|[]]; simpl; intuition discriminate.
  - exists d, h'. split; [exact Hv|].
    split; [|split].
    + eapply (Hone "e" _ 1%nat).
      * left. reflexivity.
      * reflexivity.
      * intros q [<-|[]] _. reflexivity.
    + eapply (Hone "g" _ 2%nat).
      * left. reflexivity.
      * reflexivity.
      * intros q [<-|[]] _. reflexivity.
    + apply (Hnone "x"). intros q [<-|[]]. reflexivity.
Defined.

(** C3, at two plugins that register for the same events.  The middleware
    view holds the entries of both plugins in the order they were installed;
    the event view holds, under ["e"], the host's entry and the entry of the
    plugin installed first, and under ["g"] that plugin's entry alone: the
    entries of the plugin installed second are in neither list. *)
Lemma later_plugin_entries_are_dropped :
  message_handler_middleware (bot Scenario.world_ab) = ["mh"; "ma"; "mb"]
  /\ exists d h',
    event_handlers (bot Scenario.world_ab) Scenario.heap_ab = (Ok d, h')
    /\ contents h' d = [("e", ["h"; "a"]); ("g", ["a"])]
    /\ contents Scenario.heap_ab (_event_handlers (fst Scenario.plugin_b))
       = [("e", ["b"]); ("g", ["b"])]
    /\ PyDict.keys (plugins (bot Scenario.world_ab)) = ["p1"; "p2"].
Proof.
  split; [reflexivity|].
  eexists _, _. split; [reflexivity|]. repeat split; reflexivity.
Qed.

(** C4, at a host and a plugin that register for the same event.  Reading
    [event_handlers] once extends the host's own list under ["e"] by the
    plugin's entry; reading it again extends it once more, so that the two
    reads give different contents. *)
Lemma reading_event_handlers_extends_host_list :
  contents Scenario.heap_ab (_event_handlers (bot Scenario.world_a))
  = [("e", ["h"])]
  /\ exists d1 h1 d2 h2,
      event_handlers (bot Scenario.world_a) Scenario.heap_ab = (Ok d1, h1)
      /\ contents h1 d1 = [("e", ["h"; "a"]); ("g", ["a"])]
      /\ contents h1 (_event_handlers (bot Scenario.world_a))
         = [("e", ["h"; "a"])]
      /\ event_handlers (bot Scenario.world_a) h1 = (Ok d2, h2)
      /\ contents h2 d2 = [("e", ["h"; "a"; "a"]); ("g", ["a"])]
      /\ contents h2 (_event_handlers (bot Scenario.world_a))
         = [("e", ["h"; "a"; "a"])].
Proof.
  split; [reflexivity|].
  eexists _, _, _, _. split; [reflexivity|]. split; [reflexivity|].
  split; [reflexivity|]. split; [reflexivity|]. split; reflexivity.
Qed.

Lemma distinct_objects_host_e :
  distinct_objects (list_objects (fst Scenario.host_e)) (snd Scenario.host_e).
Proof.
  split.
  - repeat constructor. simpl. tauto.
  - simpl. intros l [<-|[]]. lia.
Qed.

(** [registration_appends_under_each_name], for a handler registered for
    the events [e], [g] and [e] again on the host of the scenario. *)
Lemma registration_appends_under_each_name_witness :
  PyDict.get
    (contents
       (snd (on_event (inr ["e"; "g"; "e"]) "f"
                      (fst Scenario.host_e) (snd Scenario.host_e)))
       (_event_handlers
          (fst (on_event (inr ["e"; "g"; "e"]) "f"
                         (fst Scenario.host_e) (snd Scenario.host_e)))))
    "e"
  = Some ["h"; "f"; "f"]
  /\ PyDict.get
       (contents
          (snd (on_event (inr ["e"; "g"; "e"]) "f"
                         (fst Scenario.host_e) (snd Scenario.host_e)))
          (_event_handlers
             (fst (on_event (inr ["e"; "g"; "e"]) "f"
                            (fst Scenario.host_e) (snd Scenario.host_e)))))
       "g"
     = Some ["f"].
Proof.
  destruct (registration_appends_under_each_name
              (inr ["e"; "g"; "e"]) "f" (fst Scenario.host_e)
              (snd Scenario.host_e) distinct_objects_host_e) as [Hev _].
  destruct (Hev _ _ eq_refl) as [Hget _].
  split; [exact (Hget "e")|exact (Hget "g")].
Defined.

(** [registration_keeps_list_objects_apart], for an exception handler
    registered on the host of the scenario. *)
Lemma registration_keeps_list_objects_apart_witness :
  contents
    (snd (on_exception (inl "KeyError") "x"
                       (fst Scenario.host_e) (snd Scenario.host_e)))
    (_event_handlers
       (fst (on_exception (inl "KeyError") "x"
                          (fst Scenario.host_e) (snd Scenario.host_e))))
  = [("e", ["h"])]
  /\ distinct_objects
       (list_objects
          (fst (on_exception (inl "KeyError") "x"
                             (fst Scenario.host_e) (snd Scenario.host_e))))
       (snd (on_exception (inl "KeyError") "x"
                          (fst Scenario.host_e) (snd Scenario.host_e))).
Proof.
  destruct (registration_keeps_list_objects_apart
              (inl "KeyError") "x" (fst Scenario.host_e)
              (snd Scenario.host_e) distinct_objects_host_e) as [_ Hex].
  destruct (Hex _ _ eq_refl) as (Hd & _ & Hc & _).
  split; [exact Hc|exact Hd].
Defined.

(** [set_group_config_round_trip], with texts for configurations. *)
Lemma set_group_config_round_trip_witness :
  exists d,
    group_config (fun a b : string => Raise TypeError)
      (set_group_config "g2" "second"
         (set_group_config "g1" "first" Factory_init)) []
    = (Ok d, [])
    /\ PyDict.get d "g2" = Some "second"%string
    /\ PyDict.get d "g1" = Some "first"%string
    /\ PyDict.keys d = ["g1"; "g2"]%string.
Proof.
  destruct (set_group_config_round_trip
              (fun a b : string => Raise TypeError) "g2" "second"%string
              (set_group_config "g1" "first"%string Factory_init) []
              eq_refl)
    as (d & Hrun & Hget & Hother & Hkeys).
  exists d. split; [exact Hrun|]. split; [exact Hget|].
  split; [|exact Hkeys].
  rewrite Hother by discriminate. reflexivity.
Defined.

(** [combined_factory_is_permanent]: a plugin that takes the reserved
    identifier, an uninstall of that identifier and an install do not move
    the combined factory. *)
Lemma combined_factory_is_permanent_witness :
  PyDict.get
    (plugins
       (bot (perform_all
               [InstallPlugin Scenario.plugin_reserved;
                UninstallPlugin "__factory__";
                InstallPlugin (fst Scenario.plugin_a)]
               (combine_factory (fst Scenario.plugin_b)
                                Scenario.world_empty))))
    "__factory__"
  = Some (fst Scenario.plugin_b).
Proof.
  exact (proj1 (combined_factory_is_permanent
                  (fst Scenario.plugin_b)
                  [InstallPlugin Scenario.plugin_reserved;
                   UninstallPlugin "__factory__";
                   InstallPlugin (fst Scenario.plugin_a)]
                  Scenario.world_empty)).
Defined.


(** [uninstall_removes_only_that_plugin], for the first of the two plugins
    of the scenario. *)
Lemma uninstall_removes_only_that_plugin_witness :
  exists w',
    uninstall_plugin "p1" Scenario.world_ab = (Ok tt, w')
    /\ message_handler_middleware (bot Scenario.world_ab) = ["mh"; "ma"; "mb"]
    /\ message_handler_middleware (bot w') = ["mh"; "mb"].
Proof.
  destruct (uninstall_removes_only_that_plugin "p1"
              (set_prefix_keywords (inr []) (fst Scenario.plugin_a))
              (Scenario.info_of "p1") Scenario.world_ab)
    as (w' & before & after & Hun & Hp & Hp' & _ & _ & _ & Hm & Hm');
    [discriminate|reflexivity|reflexivity|].
  exists w'. split; [exact Hun|]. split; [reflexivity|].
  assert (Hba : before = []
                /\ after
                   = [("p2", set_prefix_keywords (inr [])
                                                 (fst Scenario.plugin_b))]).
  { destruct before as [|b before].
    - simpl in Hp. now inversion Hp.
    - destruct before as [|b' before]; [|destruct before; discriminate].
      inversion Hp. }
  destruct Hba as [-> ->]. exact Hm'.
Defined.

End HandlerSpec.

(** ** Factories as objects *)

Module ObjectsSpec.
Import Objects.

#[local] Open Scope nat_scope.

Section Registry.
Context {GroupConfig : Type}.
Variable GroupConfig_iadd : GroupConfig -> GroupConfig -> result GroupConfig.
Variable sync_catch_suppresses : exn -> bool.
Implicit Types (objs : list (object GroupConfig)) (o : object GroupConfig)
  (w : World GroupConfig) (r self plugin : nat).

(** *** The store and what the properties read *)

Lemma object_at_insert_eq objs r o :
  r < length objs -> object_at (<[r := o]> objs) r = o.
Proof.
  intros Hr. unfold object_at. now rewrite list_lookup_insert_eq.
Qed.

Lemma object_at_insert_ne objs r r' o :
  r <> r' -> object_at (<[r := o]> objs) r' = object_at objs r'.
Proof.
  intros Hr. unfold object_at. now rewrite list_lookup_insert_ne.
Qed.

Lemma all_some_map_ext {A B : Type} (f g : A -> option B) (l : list A) :
  (forall a, In a l -> f a = g a) ->
  all_some (map f l) = all_some (map g l).
Proof.
  intros Hfg. now rewrite (map_ext_in f g l Hfg).
Qed.

Lemma all_some_app {A : Type} (l1 l2 : list (option A)) :
  all_some (l1 ++ l2)
  = match all_some l1, all_some l2 with
    | Some a, Some b => Some (a ++ b)
    | _, _ => None
    end.
Proof.
  induction l1 as [|[a|] l1 IH]; simpl.
  - now destruct (all_some l2).
  - rewrite IH. destruct (all_some l1), (all_some l2); reflexivity.
  - reflexivity.
Qed.

Lemma all_some_Some {A B : Type} (f : A -> option B) (l : list A) bs :
  all_some (map f l) = Some bs ->
  forall a, In a l -> exists b, f a = Some b.
Proof.
  revert bs. induction l as [|x l IH]; intros bs Hs a Hin; [destruct Hin|].
  simpl in Hs. destruct (f x) as [b|] eqn:Hx; [|discriminate].
  destruct (all_some (map f l)) as [bs'|] eqn:Hl; [|discriminate].
  destruct Hin as [<-|Hin]; [eauto|]. now apply (IH bs').
Qed.

Lemma value_of_S limit objs self :
  value_of (S limit) objs self
  = option_map
      (Handler.set_plugins (attributes (object_at objs self)))
      (all_some
         (map (fun p => option_map (pair (fst p)) (value_of limit objs (snd p)))
              (plugins (object_at objs self)))).
Proof. reflexivity. Qed.

(** More room changes nothing once the value is there. *)
Lemma value_of_mono limit objs :
  forall self f,
    value_of limit objs self = Some f ->
    value_of (S limit) objs self = Some f.
Proof.
  induction limit as [|limit IH]; intros self f; [discriminate|].
  rewrite (value_of_S (S limit)), (value_of_S limit). intros Hv.
  destruct (all_some _) as [ps|] eqn:Hps in Hv; [|discriminate].
  rewrite <- Hv. f_equal. rewrite <- Hps.
  apply all_some_map_ext. intros p Hin.
  destruct (all_some_Some _ _ _ Hps p Hin) as (b & Hb).
  destruct (value_of limit objs (snd p)) as [fp|] eqn:Hp; [|discriminate].
  now rewrite (IH _ _ Hp).
Qed.

Lemma value_of_le limit limit' objs self f :
  limit <= limit' ->
  value_of limit objs self = Some f ->
  value_of limit' objs self = Some f.
Proof.
  induction 1; [auto|]. intros Hv. apply value_of_mono. auto.
Qed.

(** The value of a plugin is there when the value of its host is. *)
Lemma value_of_plugin limit objs self f p :
  value_of (S limit) objs self = Some f ->
  In p (plugins (object_at objs self)) ->
  exists fp, value_of limit objs (snd p) = Some fp.
Proof.
  rewrite value_of_S. intros Hv Hin.
  destruct (all_some _) as [ps|] eqn:Hps in Hv; [|discriminate].
  destruct (all_some_Some _ _ _ Hps p Hin) as (b & Hb).
  destruct (value_of limit objs (snd p)) as [fp|]; [eauto|discriminate].
Qed.

Lemma reaches_value limit objs :
  forall self r f,
    reaches objs self r ->
    value_of limit objs self = Some f ->
    exists limit' f', limit' <= limit /\ value_of limit' objs r = Some f'.
Proof.
  intros self r f Hr. revert limit f.
  induction Hr as [r|r p r' Hin Hr IH]; intros limit f Hv.
  - eauto.
  - destruct limit as [|limit]; [discriminate|].
    destruct (value_of_plugin _ _ _ _ _ Hv Hin) as (fp & Hp).
    destruct (IH _ _ Hp) as (limit' & f' & Hle & Hv').
    exists limit', f'. split; [lia|exact Hv'].
Qed.

(** Where the properties can be read, no object is installed in itself,
    at any depth. *)
Lemma value_of_acyclic limit :
  forall objs self f p,
    value_of limit objs self = Some f ->
    In p (plugins (object_at objs self)) ->
    ~ reaches objs (snd p) self.
Proof.
  induction (lt_wf limit) as [limit _ IH]. intros objs self f p Hv Hin Hr.
  destruct limit as [|limit]; [discriminate|].
  destruct (value_of_plugin _ _ _ _ _ Hv Hin) as (fp & Hp).
  destruct (reaches_value _ _ _ _ _ Hr Hp) as (limit' & f' & Hle & Hv').
  apply (IH limit' ltac:(lia) objs self f' p Hv' Hin Hr).
Qed.

Lemma reachable_reaches limit objs :
  forall self r, In r (reachable limit objs self) -> reaches objs self r.
Proof.
  induction limit as [|limit IH]; intros self r; [intros []|].
  cbn [reachable]. intros [<-|Hin]; [constructor|].
  apply in_concat in Hin as (l & Hl & Hr).
  apply in_map_iff in Hl as (p & <- & Hp).
  eapply reaches_plugin; eauto.
Qed.

Lemma reaches_reachable objs :
  forall self r,
    reaches objs self r ->
    forall limit f,
      value_of limit objs self = Some f ->
      In r (reachable limit objs self).
Proof.
  intros self r Hr. induction Hr as [r|r p r' Hin Hr IH]; intros limit f Hv;
    (destruct limit as [|limit]; [discriminate|]); cbn [reachable].
  - now left.
  - right. destruct (value_of_plugin _ _ _ _ _ Hv Hin) as (fp & Hp).
    apply in_concat. eexists. split; [|exact (IH _ _ Hp)].
    apply in_map_iff. eauto.
Qed.

(** The properties do not see a change of an object they do not reach. *)
Lemma value_of_insert limit objs r o :
  forall self,
    ~ reaches objs self r ->
    value_of limit (<[r := o]> objs) self = value_of limit objs self.
Proof.
  induction limit as [|limit IH]; intros self Hr; [reflexivity|].
  rewrite !value_of_S.
  assert (Hne : r <> self) by (intros ->; apply Hr; constructor).
  rewrite (object_at_insert_ne _ _ _ _ Hne). f_equal.
  apply all_some_map_ext. intros p Hin. rewrite IH; [reflexivity|].
  intros Hp. apply Hr. eapply reaches_plugin; eauto.
Qed.


(** Whether an object reaches another depends on the [plugins] of the
    objects alone. *)
Lemma reaches_same_plugins objs objs' :
  (forall r, plugins (object_at objs' r) = plugins (object_at objs r)) ->
  forall a b, reaches objs a b -> reaches objs' a b.
Proof.
  intros Hp a b Hr. induction Hr as [r|r p r' Hin Hr IH]; [constructor|].
  apply (reaches_plugin objs' r p r'); [now rewrite Hp|exact IH].
Qed.

Lemma plugins_insert_attributes objs r a x :
  plugins (object_at
             (<[r := mkObject a (plugins (object_at objs r))]> objs) x)
  = plugins (object_at objs x).
Proof.
  destruct (decide (r = x)) as [->|Hne].
  - unfold object_at at 1. destruct (decide (x < length objs)) as [Hx|Hx].
    + now rewrite list_lookup_insert_eq.
    + rewrite list_insert_ge by lia. reflexivity.
  - now rewrite object_at_insert_ne.
Qed.

Lemma reaches_insert_attributes objs r a x y :
  reaches (<[r := mkObject a (plugins (object_at objs r))]> objs) x y
  <-> reaches objs x y.
Proof.
  split; apply reaches_same_plugins; intros z;
    now rewrite plugins_insert_attributes.
Qed.

(** The value of an object that has been replaced, when the plugins of the
    new object do not reach it. *)
Lemma value_of_insert_self limit objs r o :
  r < length objs ->
  (forall p, In p (plugins o) -> ~ reaches objs (snd p) r) ->
  value_of (S limit) (<[r := o]> objs) r
  = option_map
      (Handler.set_plugins (attributes o))
      (all_some
         (map (fun p => option_map (pair (fst p)) (value_of limit objs (snd p)))
              (plugins o))).
Proof.
  intros Hr Hp. rewrite value_of_S, object_at_insert_eq by assumption.
  f_equal. apply all_some_map_ext. intros p Hin.
  now rewrite value_of_insert by auto.
Qed.

(** An object whose attributes alone change keeps the values of its
    plugins. *)
Lemma value_of_insert_attributes limit objs r a f :
  r < length objs ->
  value_of limit objs r = Some f ->
  value_of limit (<[r := mkObject a (plugins (object_at objs r))]> objs) r
  = Some (Handler.set_plugins a (Handler.plugins f)).
Proof.
  intros Hr Hv. destruct limit as [|limit]; [discriminate|].
  rewrite value_of_insert_self; [|assumption|].
  - rewrite value_of_S in Hv. cbn [plugins attributes].
    destruct (all_some _) as [ps|]; [|discriminate].
    injection Hv as <-. reflexivity.
  - cbn [plugins]. intros p Hin. eapply value_of_acyclic; eauto.
Qed.

Lemma info_in_store objs r (i : Handler.PluginInfo) :
  Handler.info (attributes (object_at objs r)) = Some i -> r < length objs.
Proof.
  intros Hi. destruct (decide (r < length objs)) as [|Hge]; [assumption|].
  unfold object_at in Hi. rewrite lookup_ge_None_2 in Hi by lia.
  discriminate.
Qed.

(** *** Installing *)

(** What [install_plugin] does when the identifier is free and the
    plugins of the host nest within the limit. *)
Lemma install_plugin_block_fresh limit self plugin i w host :
  Handler.info (attributes (object_at (objects w) plugin)) = Some i ->
  PyDict.contains (plugins (object_at (objects w) self))
                  (Handler.plugin_id i) = false ->
  value_of limit (objects w) self = Some host ->
  install_plugin_block limit self plugin w
  = (Ok plugin,
     mkWorld
       (set_plugin self (Handler.plugin_id i) plugin
          (set_prefix_keywords (inr (Handler.prefix_keywords host)) plugin
                               (objects w)))
       (calls w ++ [Handler.CallInstall (Handler.plugin_id i)])).
Proof.
  intros Hi Hc Hv. unfold install_plugin_block, prefix_keywords, list_property.
  now rewrite Hi, Hc, Hv.
Qed.

(** On an identifier that is taken the block raises before it has changed
    anything. *)
Lemma install_plugin_block_taken limit self plugin i w :
  Handler.info (attributes (object_at (objects w) plugin)) = Some i ->
  PyDict.contains (plugins (object_at (objects w) self))
                  (Handler.plugin_id i) = true ->
  install_plugin_block limit self plugin w = (Raise AssertionError, w).
Proof.
  intros Hi Hc. unfold install_plugin_block. now rewrite Hi, Hc.
Qed.

(** The store after a successful install, for a plugin the host does not
    reach: the plugin has its keywords extended, the host has one more
    entry. *)
Lemma installed_store objs self plugin plugin_id keywords :
  self < length objs ->
  self <> plugin ->
  PyDict.get (plugins (object_at objs self)) plugin_id = None ->
  set_plugin self plugin_id plugin
    (set_prefix_keywords keywords plugin objs)
  = <[self := mkObject (attributes (object_at objs self))
                       (plugins (object_at objs self) ++ [(plugin_id, plugin)])]>
      (<[plugin := mkObject
                     (Handler.set_prefix_keywords
                        keywords (attributes (object_at objs plugin)))
                     (plugins (object_at objs plugin))]> objs).
Proof.
  intros Hs Hne Hg. unfold set_plugin, set_prefix_keywords.
  rewrite object_at_insert_ne by congruence.
  now rewrite PyDictFacts.set_absent.
Qed.


Lemma set_plugins_set_prefix_keywords (a : Handler.Factory GroupConfig)
    keywords ps :
  Handler.set_plugins (Handler.set_prefix_keywords keywords a) ps
  = Handler.set_prefix_keywords keywords (Handler.set_plugins a ps).
Proof. reflexivity. Qed.

Lemma all_some_keys {A : Type} (g : string * nat -> option A) l ps :
  all_some (map (fun p => option_map (pair (fst p)) (g p)) l) = Some ps ->
  map fst ps = map fst l.
Proof.
  revert ps. induction l as [|p l IH]; intros ps; simpl.
  - now intros [= <-].
  - destruct (g p) as [a|]; [|discriminate]. simpl.
    destruct (all_some _) as [ps'|]; [|discriminate].
    intros [= <-]. simpl. now rewrite (IH ps').
Qed.

(** The value of an object has the identifiers of its [plugins]. *)
Lemma value_of_keys limit objs self f :
  value_of limit objs self = Some f ->
  PyDict.keys (Handler.plugins f) = PyDict.keys (plugins (object_at objs self))
  /\ Handler.info f = Handler.info (attributes (object_at objs self))
  /\ Handler._prefix_keywords f
     = Handler._prefix_keywords (attributes (object_at objs self)).
Proof.
  destruct limit as [|limit]; [discriminate|]. rewrite value_of_S.
  destruct (all_some _) as [ps|] eqn:Hps; [|discriminate].
  intros [= <-]. split; [|split; reflexivity].
  exact (all_some_keys _ _ _ Hps).
Qed.

Lemma get_keys_None {A B : Type} (d : list (string * A))
    (d' : list (string * B)) k :
  PyDict.keys d = PyDict.keys d' ->
  PyDict.get d' k = None -> PyDict.get d k = None.
Proof.
  intros Hk Hg. apply PyDictFacts.get_not_in_keys. rewrite Hk.
  now apply PyDictFacts.get_not_in_keys_inv.
Qed.

(** The value of the host once a plugin that it did not reach, and that
    does not reach it, is installed: the value of the plugin, with the
    keywords it was handed, comes last. *)
Lemma value_after_install m objs self plugin plugin_id keywords host ptree :
  self < length objs ->
  plugin < length objs ->
  PyDict.get (plugins (object_at objs self)) plugin_id = None ->
  value_of (S m) objs self = Some host ->
  value_of m objs plugin = Some ptree ->
  ~ reaches objs self plugin ->
  ~ reaches objs plugin self ->
  value_of m (set_prefix_keywords keywords plugin objs) plugin
  = Some (Handler.set_prefix_keywords keywords ptree)
  /\ value_of m (set_plugin self plugin_id plugin
                   (set_prefix_keywords keywords plugin objs)) plugin
     = Some (Handler.set_prefix_keywords keywords ptree)
  /\ value_of (S m)
       (set_plugin self plugin_id plugin
          (set_prefix_keywords keywords plugin objs)) self
     = Some (Handler.set_plugins host
               (Handler.plugins host
                ++ [(plugin_id, Handler.set_prefix_keywords keywords ptree)])).
Proof.
  intros Hs Hpl Hg Hh Hp Hnp Hns.
  assert (Hne : self <> plugin) by (intros ->; apply Hnp; constructor).
  assert (Hp1 :
    value_of m (set_prefix_keywords keywords plugin objs) plugin
    = Some (Handler.set_prefix_keywords keywords ptree)).
  { unfold set_prefix_keywords.
    rewrite (value_of_insert_attributes m objs plugin _ ptree Hpl Hp).
    rewrite set_plugins_set_prefix_keywords. do 2 f_equal.
    destruct m as [|m]; [discriminate|]. rewrite value_of_S in Hp.
    destruct (all_some _) as [ps|]; [|discriminate].
    now injection Hp as <-. }
  split; [exact Hp1|].
  rewrite installed_store by assumption.
  set (objs1 := <[plugin := _]> objs).
  assert (Hns1 : ~ reaches objs1 plugin self).
  { subst objs1. now rewrite reaches_insert_attributes. }
  split.
  { rewrite value_of_insert by exact Hns1. exact Hp1. }
  rewrite value_of_insert_self.
  - cbn [attributes plugins]. rewrite map_app, all_some_app.
    cbn [map all_some fst snd]. unfold set_prefix_keywords in Hp1.
    fold objs1 in Hp1. rewrite Hp1. cbn [option_map].
    rewrite value_of_S in Hh.
    destruct (all_some _) as [ps|] eqn:Hps in Hh; [|discriminate].
    injection Hh as <-.
    replace (all_some _) with (Some ps); [reflexivity|].
    rewrite <- Hps. apply all_some_map_ext. intros p Hin.
    subst objs1. rewrite value_of_insert; [reflexivity|].
    intros Hr. apply Hnp. eapply reaches_plugin; eauto.
  - subst objs1. now rewrite length_insert.
  - cbn [plugins]. intros p Hin. subst objs1.
    rewrite reaches_insert_attributes.
    apply in_app_or in Hin as [Hin|[<-|[]]]; [|exact Hns].
    eapply value_of_acyclic; eauto.
Qed.

Lemma not_reachable_not_reaches limit objs self r f :
  value_of limit objs self = Some f ->
  ~ In r (reachable limit objs self) ->
  ~ reaches objs self r.
Proof. intros Hv Hn Hr. apply Hn. eapply reaches_reachable; eauto. Qed.


Lemma insert_object_at objs r :
  r < length objs -> <[r := object_at objs r]> objs = objs.
Proof.
  intros Hr. apply list_insert_id. unfold object_at.
  destruct (lookup_lt_is_Some_2 objs r Hr) as [o Ho]. now rewrite Ho.
Qed.

Lemma object_eta o : mkObject (attributes o) (plugins o) = o.
Proof. now destruct o. Qed.

(** Deleting the entry that an install has just made gives back the
    [plugins] of the host. *)
Lemma del_installed objs self plugin_id plugin :
  self < length objs ->
  PyDict.get (plugins (object_at objs self)) plugin_id = None ->
  del_plugin self plugin_id (set_plugin self plugin_id plugin objs) = objs.
Proof.
  intros Hs Hg. unfold del_plugin, set_plugin.
  rewrite object_at_insert_eq by assumption. cbn [attributes plugins].
  rewrite PyDictFacts.del_set_absent by assumption.
  rewrite list_insert_insert_eq, object_eta. now apply insert_object_at.
Qed.

(** What [uninstall_plugin] does on an installed plugin. *)
Lemma uninstall_plugin_of_installed self plugin_id plugin i w :
  plugin_id <> "__factory__" ->
  PyDict.get (plugins (object_at (objects w) self)) plugin_id = Some plugin ->
  Handler.info (attributes (object_at (objects w) plugin)) = Some i ->
  uninstall_plugin self plugin_id w
  = (Ok tt,
     mkWorld (del_plugin self plugin_id (objects w))
             (calls w ++ [Handler.CallUninstall (Handler.plugin_id i)])).
Proof.
  intros Hne Hg Hi. unfold uninstall_plugin.
  apply String.eqb_neq in Hne. rewrite Hne. cbn [negb andb].
  unfold PyDict.contains. now rewrite Hg, Hi.
Qed.

(** [uninstall_plugin] raises on the reserved identifier and on one that
    is not installed, and changes nothing. *)
Lemma uninstall_plugin_rejects self plugin_id w :
  plugin_id = "__factory__"
  \/ PyDict.contains (plugins (object_at (objects w) self)) plugin_id = false ->
  uninstall_plugin self plugin_id w = (Raise AssertionError, w).
Proof.
  intros [->|Hc]; unfold uninstall_plugin; [reflexivity|].
  rewrite Hc. now rewrite andb_false_r.
Qed.

(** [install_plugin] on an identifier that is taken: the block raises
    before it has called [install()] or changed anything, and the call
    answers [None] or raises as [log.sync_catch] decides. *)
Lemma install_plugin_taken limit self plugin i w :
  Handler.info (attributes (object_at (objects w) plugin)) = Some i ->
  PyDict.contains (plugins (object_at (objects w) self))
                  (Handler.plugin_id i) = true ->
  install_plugin sync_catch_suppresses limit self plugin w
  = (if sync_catch_suppresses AssertionError
     then Ok None else Raise AssertionError, w).
Proof.
  intros Hi Hc. unfold install_plugin.
  rewrite (install_plugin_block_taken limit self plugin i w Hi Hc).
  now destruct (sync_catch_suppresses AssertionError).
Qed.

Lemma install_plugin_free_identifier limit self plugin i w host :
  Handler.info (attributes (object_at (objects w) plugin)) = Some i ->
  PyDict.contains (plugins (object_at (objects w) self))
                  (Handler.plugin_id i) = false ->
  value_of limit (objects w) self = Some host ->
  install_plugin sync_catch_suppresses limit self plugin w
  = (Ok (Some plugin),
     mkWorld
       (set_plugin self (Handler.plugin_id i) plugin
          (set_prefix_keywords (inr (Handler.prefix_keywords host)) plugin
                               (objects w)))
       (calls w ++ [Handler.CallInstall (Handler.plugin_id i)])).
Proof.
  intros Hi Hc Hv. unfold install_plugin.
  now rewrite (install_plugin_block_fresh limit self plugin i w host Hi Hc Hv).
Qed.

(** C5 (as amended).  For a plugin whose identifier is free and is not the
    reserved ["__factory__"], and whose object the host does not hold
    already (it is not the host, not the combined factory and not installed
    inside a plugin of the host), [install_plugin] followed by
    [uninstall_plugin] of that identifier both succeed and give back the
    host as it was: every merged view has its content from before the
    install.  The plugin keeps the keywords it was handed. *)
Theorem install_then_uninstall_restores_views :
  forall limit self plugin i w host,
    self < length (objects w) ->
    Handler.info (attributes (object_at (objects w) plugin)) = Some i ->
    PyDict.contains (plugins (object_at (objects w) self))
                    (Handler.plugin_id i) = false ->
    Handler.plugin_id i <> "__factory__" ->
    value_of limit (objects w) self = Some host ->
    ~ In plugin (reachable limit (objects w) self) ->
    exists w1 w2,
      install_plugin sync_catch_suppresses limit self plugin w
      = (Ok (Some plugin), w1)
      /\ uninstall_plugin self (Handler.plugin_id i) w1 = (Ok tt, w2)
      /\ calls w2
         = calls w ++ [Handler.CallInstall (Handler.plugin_id i);
                       Handler.CallUninstall (Handler.plugin_id i)]
      /\ object_at (objects w2) self = object_at (objects w) self
      /\ forall limit' h,
          all_views GroupConfig_iadd limit' (objects w2) self h
          = all_views GroupConfig_iadd limit' (objects w) self h.
Proof.
  intros limit self plugin i w host Hs Hi Hc Hne Hv Hnr.
  pose proof (not_reachable_not_reaches _ _ _ _ _ Hv Hnr) as Hnp.
  assert (Hsp : self <> plugin) by (intros ->; apply Hnp; constructor).
  pose proof (proj1 (PyDictFacts.contains_false_iff _ _) Hc) as Hg.
  set (objs1 := set_prefix_keywords (inr (Handler.prefix_keywords host))
                                    plugin (objects w)).
  assert (Hat : object_at objs1 self = object_at (objects w) self).
  { subst objs1. unfold set_prefix_keywords.
    now rewrite object_at_insert_ne by congruence. }
  assert (Hlen : self < length objs1).
  { subst objs1. unfold set_prefix_keywords. now rewrite length_insert. }
  eexists _, _.
  split; [exact (install_plugin_free_identifier limit self plugin i w host Hi Hc Hv)|].
  fold objs1. split.
  { apply (uninstall_plugin_of_installed self _ plugin i); [exact Hne| |].
    - cbn [objects]. unfold set_plugin.
      rewrite object_at_insert_eq by exact Hlen. cbn [plugins].
      apply PyDictFacts.get_set_eq.
    - cbn [objects]. unfold set_plugin.
      rewrite object_at_insert_ne by exact Hsp.
      subst objs1. unfold set_prefix_keywords.
      rewrite object_at_insert_eq by (eapply info_in_store; eauto).
      exact Hi. }
  cbn [objects calls]. rewrite del_installed; [|exact Hlen|now rewrite Hat].
  split; [now rewrite <- app_assoc|]. split; [exact Hat|].
  intros limit' h. unfold all_views. subst objs1. unfold set_prefix_keywords.
  now rewrite value_of_insert by exact Hnp.
Qed.

(** A successful [install_plugin], of a plugin object that the host does
    not hold already and that does not hold the host, hands the host's
    merged prefix keywords to the plugin, which appends them to its own.
    The host's merged view then holds its earlier view, the plugin's own
    keywords, the earlier view once more and the keywords of the plugin's
    plugins; as a set it is the earlier view together with the plugin's
    view. *)
Theorem install_plugin_hands_down_prefix_keywords :
  forall limit self plugin i w host_keywords plugin_keywords,
    self < length (objects w) ->
    Handler.info (attributes (object_at (objects w) plugin)) = Some i ->
    PyDict.contains (plugins (object_at (objects w) self))
                    (Handler.plugin_id i) = false ->
    prefix_keywords limit (objects w) self = Ok host_keywords ->
    prefix_keywords limit (objects w) plugin = Ok plugin_keywords ->
    ~ In plugin (reachable limit (objects w) self) ->
    ~ In self (reachable limit (objects w) plugin) ->
    exists w' inherited,
      install_plugin sync_catch_suppresses limit self plugin w
      = (Ok (Some plugin), w')
      /\ plugin_keywords
         = Handler._prefix_keywords (attributes (object_at (objects w) plugin))
           ++ inherited
      /\ Handler._prefix_keywords (attributes (object_at (objects w') plugin))
         = Handler._prefix_keywords (attributes (object_at (objects w) plugin))
           ++ host_keywords
      /\ prefix_keywords (S limit) (objects w') self
         = Ok (host_keywords
               ++ Handler._prefix_keywords
                    (attributes (object_at (objects w) plugin))
               ++ host_keywords ++ inherited)
      /\ forall k,
          In k (host_keywords
                ++ Handler._prefix_keywords
                     (attributes (object_at (objects w) plugin))
                ++ host_keywords ++ inherited)
          <-> In k host_keywords \/ In k plugin_keywords.
Proof.
  intros limit self plugin i w host_keywords plugin_keywords
         Hs Hi Hc Hhk Hpk Hnr Hnr'.
  unfold prefix_keywords, list_property in Hhk, Hpk.
  destruct (value_of limit (objects w) self) as [host|] eqn:Hv;
    [|discriminate].
  destruct (value_of limit (objects w) plugin) as [ptree|] eqn:Hp;
    [|discriminate].
  injection Hhk as <-. injection Hpk as <-.
  pose proof (not_reachable_not_reaches _ _ _ _ _ Hv Hnr) as Hnp.
  pose proof (not_reachable_not_reaches _ _ _ _ _ Hp Hnr') as Hns.
  pose proof (proj1 (PyDictFacts.contains_false_iff _ _) Hc) as Hg.
  pose proof (info_in_store _ _ _ Hi) as Hpl.
  destruct (value_after_install limit (objects w) self plugin
              (Handler.plugin_id i) (inr (Handler.prefix_keywords host))
              host ptree Hs Hpl Hg (value_of_mono _ _ _ _ Hv) Hp Hnp Hns)
    as (_ & _ & Hself).
  destruct (value_of_keys _ _ _ _ Hp) as (_ & _ & Hown).
  exists (mkWorld
            (set_plugin self (Handler.plugin_id i) plugin
               (set_prefix_keywords (inr (Handler.prefix_keywords host))
                                    plugin (objects w)))
            (calls w ++ [Handler.CallInstall (Handler.plugin_id i)])),
         (Handler.plugin_views Handler.prefix_keywords
                               (Handler.plugins ptree)).
  split; [exact (install_plugin_free_identifier limit self plugin i w host Hi Hc Hv)|].
  assert (Hview : Handler.prefix_keywords ptree
                  = Handler._prefix_keywords ptree
                    ++ Handler.plugin_views Handler.prefix_keywords
                                            (Handler.plugins ptree)).
  { unfold Handler.plugin_views, Handler.prefix_keywords.
    apply HandlerSpec.get_with_plugins_list_unfold. }
  split; [now rewrite Hview, Hown|]. split.
  { cbn [objects]. unfold set_plugin.
    rewrite object_at_insert_ne
      by (intros ->; apply Hnp; constructor).
    unfold set_prefix_keywords. rewrite object_at_insert_eq by exact Hpl.
    reflexivity. }
  split.
  { unfold prefix_keywords, list_property. cbn [objects].
    rewrite Hself. f_equal.
    remember (Handler.prefix_keywords host) as kw eqn:Hkw.
    unfold Handler.prefix_keywords.
    rewrite HandlerSpec.get_with_plugins_list_unfold.
    rewrite HandlerSpec.plugins_set_plugins, map_app, concat_app.
    cbn [map concat snd]. rewrite app_nil_r.
    rewrite (HandlerSpec.get_with_plugins_list_unfold
               _ (Handler.set_prefix_keywords (inr kw) ptree)).
    cbn [Handler._prefix_keywords Handler.set_prefix_keywords
         Handler.set_prefix_keywords_field Handler.set_plugins
         Handler.plugins Handler.as_list].
    rewrite Hkw. unfold Handler.prefix_keywords.
    rewrite (HandlerSpec.get_with_plugins_list_unfold _ host).
    rewrite <- Hown. unfold Handler.plugin_views.
    rewrite <- !app_assoc. reflexivity. }
  intros k. rewrite Hview, Hown, !in_app_iff. tauto.
Qed.


(** Replacing an object does not open a way to an object from where the
    replaced one was not reached. *)
Lemma reaches_insert_unreached objs r o a b :
  reaches (<[r := o]> objs) a b ->
  ~ reaches objs a r ->
  reaches objs a b.
Proof.
  intros Hr. induction Hr as [a|a p b Hin Hr IH]; intros Hn; [constructor|].
  assert (Hne : r <> a) by (intros ->; apply Hn; constructor).
  rewrite object_at_insert_ne in Hin by exact Hne.
  apply (reaches_plugin objs a p b Hin). apply IH.
  intros Hp. apply Hn. eapply reaches_plugin; eauto.
Qed.

(** An object without plugins reaches itself alone. *)
Lemma reaches_leaf objs r b :
  plugins (object_at objs r) = [] -> reaches objs r b -> b = r.
Proof.
  intros Hp Hr. destruct Hr as [r|r p b Hin Hr]; [reflexivity|].
  rewrite Hp in Hin. destruct Hin.
Qed.

Lemma value_of_leaf limit objs r :
  plugins (object_at objs r) = [] ->
  value_of (S limit) objs r
  = Some (Handler.set_plugins (attributes (object_at objs r)) []).
Proof. intros Hp. rewrite value_of_S, Hp. reflexivity. Qed.

(** What the host reaches once a plugin is installed: what it reached
    before, and what the plugin reaches. *)
Lemma reaches_after_install objs self plugin plugin_id keywords host limit b :
  self < length objs ->
  PyDict.get (plugins (object_at objs self)) plugin_id = None ->
  value_of limit objs self = Some host ->
  ~ reaches objs self plugin ->
  ~ reaches objs plugin self ->
  reaches (set_plugin self plugin_id plugin
             (set_prefix_keywords keywords plugin objs)) self b ->
  reaches objs self b \/ reaches objs plugin b.
Proof.
  intros Hs Hg Hv Hnp Hns.
  assert (Hne : self <> plugin) by (intros ->; apply Hnp; constructor).
  rewrite installed_store by assumption.
  set (objs1 := <[plugin := _]> objs).
  assert (Hlen : self < length objs1).
  { subst objs1. now rewrite length_insert. }
  intros Hr. inversion Hr as [|r p r' Hin Hr']; subst; [left; constructor|].
  rewrite object_at_insert_eq in Hin by exact Hlen. cbn [plugins] in Hin.
  apply in_app_or in Hin as [Hin|[<-|[]]].
  - left. apply (reaches_plugin objs self p b Hin).
    apply reaches_insert_unreached in Hr'.
    + subst objs1. now apply reaches_insert_attributes in Hr'.
    + subst objs1. rewrite reaches_insert_attributes.
      eapply value_of_acyclic; eauto.
  - right. cbn [snd] in Hr'. apply reaches_insert_unreached in Hr'.
    + subst objs1. now apply reaches_insert_attributes in Hr'.
    + subst objs1. now rewrite reaches_insert_attributes.
Qed.

Lemma install_plugin_inv limit self plugin w r w' :
  install_plugin sync_catch_suppresses limit self plugin w
  = (Ok (Some r), w') ->
  exists i host,
    Handler.info (attributes (object_at (objects w) plugin)) = Some i
    /\ PyDict.contains (plugins (object_at (objects w) self))
                       (Handler.plugin_id i) = false
    /\ value_of limit (objects w) self = Some host.
Proof.
  unfold install_plugin, install_plugin_block, prefix_keywords,
    list_property.
  destruct (Handler.info _) as [i|] eqn:Hi;
    [|destruct (sync_catch_suppresses _); discriminate].
  destruct (PyDict.contains _ _) eqn:Hc;
    [destruct (sync_catch_suppresses _); discriminate|].
  destruct (value_of limit (objects w) self) as [host|] eqn:Hv;
    [|destruct (sync_catch_suppresses _); discriminate].
  intros _. exists i, host. auto.
Qed.

(** The host's keywords after a plugin without keywords and plugins of its
    own is installed: the earlier view, twice. *)
Lemma prefix_keywords_with_leaf (host : Handler.Factory GroupConfig)
    plugin_id (a : Handler.Factory GroupConfig) :
  Handler._prefix_keywords a = [] ->
  Handler.prefix_keywords
    (Handler.set_plugins host
       (Handler.plugins host
        ++ [(plugin_id,
             Handler.set_prefix_keywords
               (inr (Handler.prefix_keywords host))
               (Handler.set_plugins a []))]))
  = Handler.prefix_keywords host ++ Handler.prefix_keywords host.
Proof.
  intros Ha. remember (Handler.prefix_keywords host) as kw eqn:Hkw.
  unfold Handler.prefix_keywords.
  rewrite HandlerSpec.get_with_plugins_list_unfold.
  rewrite HandlerSpec.plugins_set_plugins, map_app, concat_app.
  cbn [map concat snd]. rewrite app_nil_r.
  rewrite (HandlerSpec.get_with_plugins_list_unfold
             _ (Handler.set_prefix_keywords (inr kw) (Handler.set_plugins a []))).
  cbn [Handler._prefix_keywords Handler.set_prefix_keywords
       Handler.set_prefix_keywords_field Handler.set_plugins
       Handler.plugins Handler.as_list map concat].
  rewrite Ha, app_nil_r. cbn [app]. rewrite Hkw.
  unfold Handler.prefix_keywords.
  rewrite (HandlerSpec.get_with_plugins_list_unfold _ host).
  now rewrite <- !app_assoc.
Qed.

Lemma install_all_doubles limit self :
  forall (ps : list nat) w w' host,
    self < length (objects w) ->
    value_of (S (S limit)) (objects w) self = Some host ->
    List.NoDup ps ->
    (forall p, In p ps ->
       ~ reaches (objects w) self p
       /\ Handler._prefix_keywords (attributes (object_at (objects w) p)) = []
       /\ plugins (object_at (objects w) p) = []) ->
    install_all sync_catch_suppresses (S (S limit)) self ps w = Some w' ->
    exists host',
      value_of (S (S limit)) (objects w') self = Some host'
      /\ forall k,
          count_occ string_dec (Handler.prefix_keywords host') k
          = 2 ^ length ps
            * count_occ string_dec (Handler.prefix_keywords host) k.
Proof.
  induction ps as [|p ps IH]; intros w w' host Hs Hv Hnd Hps.
  - intros [= <-]. exists host. split; [exact Hv|]. intros k. simpl. lia.
  - cbn [install_all].
    destruct (install_plugin _ _ _ p w) as [[[r|]|e] w1] eqn:Hinst;
      try discriminate.
    intros Hall.
    destruct (install_plugin_inv _ _ _ _ _ _ Hinst) as (i & host0 & Hi & Hc & Hv0).
    rewrite (install_plugin_free_identifier _ _ _ _ _ _ Hi Hc Hv0) in Hinst.
    injection Hinst as _ <-.
    destruct (Hps p (or_introl eq_refl)) as (Hnp & Hkw & Hpl).
    assert (Hne : p <> self) by (intros ->; apply Hnp; constructor).
    assert (Hns : ~ reaches (objects w) p self).
    { intros Hr. apply Hne. symmetry. exact (reaches_leaf _ _ _ Hpl Hr). }
    pose proof (proj1 (PyDictFacts.contains_false_iff _ _) Hc) as Hg.
    pose proof (info_in_store _ _ _ Hi) as Hlt.
    assert (Hh0 : host0 = host) by congruence. subst host0.
    destruct (value_after_install (S limit) (objects w) self p
                (Handler.plugin_id i) (inr (Handler.prefix_keywords host))
                host _ Hs Hlt Hg Hv (value_of_leaf limit _ _ Hpl) Hnp Hns)
      as (_ & _ & Hself).
    inversion Hnd as [|x xs Hnotin Hnd']; subst.
    set (objs1 := set_plugin self (Handler.plugin_id i) p
                    (set_prefix_keywords
                       (inr (Handler.prefix_keywords host)) p (objects w)))
      in *.
    assert (Hs1 : self < length objs1).
    { subst objs1. unfold set_plugin, set_prefix_keywords.
      now rewrite !length_insert. }
    destruct (IH (mkWorld objs1
                    (calls w ++ [Handler.CallInstall (Handler.plugin_id i)]))
                 w' _ Hs1 Hself Hnd')
      as (host' & Hv' & Hcount); [|exact Hall|].
    + intros q Hq. cbn [objects].
      destruct (Hps q (or_intror Hq)) as (Hnq & Hkq & Hplq).
      assert (Hqs : q <> self) by (intros ->; apply Hnq; constructor).
      assert (Hqp : q <> p) by (intros ->; contradiction).
      assert (Hat : object_at objs1 q = object_at (objects w) q).
      { subst objs1. unfold set_plugin, set_prefix_keywords.
        now rewrite !object_at_insert_ne by congruence. }
      rewrite Hat. split; [|split; assumption].
      intros Hr. subst objs1.
      apply (reaches_after_install _ _ _ _ _ host (S (S limit))) in Hr;
        try assumption.
      destruct Hr as [Hr|Hr]; [contradiction|].
      apply Hqp. exact (reaches_leaf _ _ _ Hpl Hr).
    + exists host'. split; [exact Hv'|]. intros k. rewrite Hcount.
      rewrite prefix_keywords_with_leaf by exact Hkw.
      rewrite count_occ_app. cbn [length]. rewrite Nat.pow_succ_r'. lia.
Qed.

(** Every further install doubles the host's merged prefix keywords: once
    plugins that bring no keywords and no plugins of their own, and are
    objects apart from each other and from what the host holds, are
    installed, each keyword occurs in the host's merged view two to the
    power of the number of plugins times as often as before. *)
Theorem prefix_keywords_double_with_each_install :
  forall (ps : list nat) limit self w w' host_keywords,
    2 <= limit ->
    self < length (objects w) ->
    prefix_keywords limit (objects w) self = Ok host_keywords ->
    List.NoDup ps ->
    Forall (fun p =>
              ~ In p (reachable limit (objects w) self)
              /\ Handler._prefix_keywords (attributes (object_at (objects w) p))
                 = []
              /\ plugins (object_at (objects w) p) = []) ps ->
    install_all sync_catch_suppresses limit self ps w = Some w' ->
    exists keywords,
      prefix_keywords limit (objects w') self = Ok keywords
      /\ forall k,
          count_occ string_dec keywords k
          = 2 ^ length ps * count_occ string_dec host_keywords k.
Proof.
  intros ps limit self w w' host_keywords Hl Hs Hk Hnd Hps Hall.
  destruct limit as [|[|limit]]; try lia.
  unfold prefix_keywords, list_property in Hk.
  destruct (value_of (S (S limit)) (objects w) self) as [host|] eqn:Hv;
    [|discriminate].
  injection Hk as <-.
  destruct (install_all_doubles limit self ps w w' host Hs Hv Hnd) as
    (host' & Hv' & Hcount); [|exact Hall|].
  - intros p Hp. rewrite List.Forall_forall in Hps.
    destruct (Hps p Hp) as (Hn & Hkw & Hpl). split; [|split; assumption].
    eapply not_reachable_not_reaches; eauto.
  - exists (Handler.prefix_keywords host'). unfold prefix_keywords, list_property.
    rewrite Hv'. split; [reflexivity|exact Hcount].
Qed.

(** For a plugin object that the host does not hold and that does not hold
    the host, [install_plugin] does on the objects what the block does on
    their values. *)
Lemma install_plugin_agrees_with_values limit self plugin i w host ptree :
  self < length (objects w) ->
  Handler.info (attributes (object_at (objects w) plugin)) = Some i ->
  PyDict.contains (plugins (object_at (objects w) self))
                  (Handler.plugin_id i) = false ->
  value_of limit (objects w) self = Some host ->
  value_of limit (objects w) plugin = Some ptree ->
  ~ In plugin (reachable limit (objects w) self) ->
  ~ In self (reachable limit (objects w) plugin) ->
  exists w' instance (w'' : Handler.World GroupConfig),
    install_plugin sync_catch_suppresses limit self plugin w
    = (Ok (Some plugin), w')
    /\ Handler.install_plugin ptree (Handler.mkWorld host (calls w))
       = (Ok instance, w'')
    /\ value_of (S limit) (objects w') self = Some (Handler.bot w'')
    /\ value_of limit (objects w') plugin = Some instance
    /\ calls w' = Handler.calls w''.
Proof.
  intros Hs Hi Hc Hv Hp Hnr Hnr'.
  pose proof (not_reachable_not_reaches _ _ _ _ _ Hv Hnr) as Hnp.
  pose proof (not_reachable_not_reaches _ _ _ _ _ Hp Hnr') as Hns.
  pose proof (proj1 (PyDictFacts.contains_false_iff _ _) Hc) as Hg.
  pose proof (info_in_store _ _ _ Hi) as Hpl.
  destruct (value_after_install limit (objects w) self plugin
              (Handler.plugin_id i) (inr (Handler.prefix_keywords host))
              host ptree Hs Hpl Hg (value_of_mono _ _ _ _ Hv) Hp Hnp Hns)
    as (_ & Hplugin & Hself).
  destruct (value_of_keys _ _ _ _ Hp) as (_ & Hinfo & _).
  destruct (value_of_keys _ _ _ _ Hv) as (Hkeys & _ & _).
  assert (Hgv : PyDict.get (Handler.plugins host) (Handler.plugin_id i) = None).
  { exact (get_keys_None _ _ _ Hkeys Hg). }
  eexists _, _, _.
  split; [exact (install_plugin_free_identifier limit self plugin i w host Hi Hc Hv)|].
  split.
  { apply (HandlerSpec.install_plugin_fresh ptree i);
      [now rewrite Hinfo|now apply PyDictFacts.contains_false_iff]. }
  cbn [objects calls Handler.bot Handler.calls].
  split; [exact Hself|]. split; [exact Hplugin|reflexivity].
Qed.

End Registry.

(** C5, witness. *)
Lemma install_then_uninstall_restores_views_witness :
  exists w1 w2,
    install_plugin Scenario.swallow_all 2 0 1 Scenario.objects_a
    = (Ok (Some 1), w1)
    /\ uninstall_plugin 0 "p1" w1 = (Ok tt, w2)
    /\ calls w2 = [Handler.CallInstall "p1"; Handler.CallUninstall "p1"]
    /\ forall h,
        all_views Scenario.no_iadd 2 (objects w2) 0 h
        = all_views Scenario.no_iadd 2 (objects Scenario.objects_a) 0 h.
Proof.
  destruct (install_then_uninstall_restores_views
              Scenario.no_iadd Scenario.swallow_all 2 0 1
              (Scenario.info_of "p1") Scenario.objects_a
              (Handler.set_prefix_keywords (inl "amiya")
                                           (fst Scenario.host_e)))
    as (w1 & w2 & Hin & Hun & Hcalls & _ & Hviews).
  - simpl. lia.
  - reflexivity.
  - reflexivity.
  - discriminate.
  - reflexivity.
  - simpl. lia.
  - exists w1, w2. split; [exact Hin|]. split; [exact Hun|].
    split; [exact Hcalls|]. intros h. apply Hviews.
Defined.

(** C5, counterexample.  A plugin whose identifier is ["__factory__"] and
    is free is installed, [uninstall_plugin] of that identifier raises,
    and the host's before-reply view keeps the plugin's hook.  And a plugin
    [p] that is already the combined factory of the host is installed and
    uninstalled, both with success: the keyword that the host's view held
    once before the install it holds twice afterwards, since the object
    that the install extended is still the combined factory. *)
Lemma reserved_or_shared_plugin_is_not_undone :
  (PyDict.contains
     (plugins (object_at (objects Scenario.objects_reserved) 0)) "__factory__"
   = false
   /\ before_reply_handlers 2 (objects Scenario.objects_reserved) 0 = Ok []
   /\ exists w1,
       install_plugin Scenario.swallow_all 2 0 1 Scenario.objects_reserved
       = (Ok (Some 1), w1)
       /\ uninstall_plugin 0 "__factory__" w1 = (Raise AssertionError, w1)
       /\ before_reply_handlers 2 (objects w1) 0 = Ok ["f"])
  /\ (PyDict.contains
        (plugins (object_at (objects Scenario.objects_p_combined) 0)) "p"
      = false
      /\ prefix_keywords 2 (objects Scenario.objects_p_combined) 0
         = Ok ["amiya"]
      /\ exists w1 w2,
          install_plugin Scenario.swallow_all 2 0 1
                         Scenario.objects_p_combined
          = (Ok (Some 1), w1)
          /\ prefix_keywords 2 (objects w1) 0 = Ok ["amiya"; "amiya"; "amiya"]
          /\ uninstall_plugin 0 "p" w1 = (Ok tt, w2)
          /\ prefix_keywords 2 (objects w2) 0 = Ok ["amiya"; "amiya"]).
Proof.
  split.
  - split; [reflexivity|]. split; [reflexivity|].
    eexists. split; [reflexivity|]. split; reflexivity.
  - split; [reflexivity|]. split; [reflexivity|].
    eexists _, _. split; [reflexivity|]. split; [reflexivity|].
    split; reflexivity.
Qed.

(** C8, at a host and a plugin that register for the same event.  The
    plugin is installed: it is handed the host's keyword, [install()] is
    called, and the views hold its middleware and its handler.  A second
    install of it changes nothing and calls nothing: the call answers
    [None] when [log.sync_catch] swallows the [AssertionError], and raises
    it otherwise.  [uninstall_plugin] raises on the reserved identifier and
    on one that is not installed, and changes nothing.  [event_handlers] is
    read, which extends the host's own list under ["e"] (C4).  The plugin
    is uninstalled: [uninstall()] is called, [plugins] is empty and the
    middleware view is the host's own again.  But the event view still
    holds the plugin's handler [a] under ["e"], where the host registered
    [h] alone. *)
Theorem uninstalled_plugin_stays_in_event_handlers :
  Handler.contents
    Scenario.heap_ab
    (Handler._event_handlers
       (attributes (object_at (objects Scenario.objects_a) 0)))
  = [("e", ["h"])]
  /\ prefix_keywords 2 (objects Scenario.objects_a) 0 = Ok ["amiya"]
  /\ exists w1 d1 h1 w2 d2 h2,
      install_plugin Scenario.swallow_all 2 0 1 Scenario.objects_a
      = (Ok (Some 1), w1)
      /\ calls w1 = [Handler.CallInstall "p1"]
      /\ Handler._prefix_keywords (attributes (object_at (objects w1) 1))
         = ["amiya"]
      /\ install_plugin Scenario.swallow_all 2 0 1 w1 = (Ok None, w1)
      /\ install_plugin Scenario.swallow_none 2 0 1 w1
         = (Raise AssertionError, w1)
      /\ uninstall_plugin 0 "__factory__" w1 = (Raise AssertionError, w1)
      /\ uninstall_plugin 0 "p2" w1 = (Raise AssertionError, w1)
      /\ message_handler_middleware 2 (objects w1) 0 = Ok ["mh"; "ma"]
      /\ event_handlers 2 (objects w1) 0 Scenario.heap_ab = Some (Ok d1, h1)
      /\ Handler.contents h1 d1 = [("e", ["h"; "a"]); ("g", ["a"])]
      /\ uninstall_plugin 0 "p1" w1 = (Ok tt, w2)
      /\ calls w2 = [Handler.CallInstall "p1"; Handler.CallUninstall "p1"]
      /\ plugins (object_at (objects w2) 0) = []
      /\ message_handler_middleware 2 (objects w2) 0 = Ok ["mh"]
      /\ event_handlers 2 (objects w2) 0 h1 = Some (Ok d2, h2)
      /\ Handler.contents h2 d2 = [("e", ["h"; "a"])].
Proof.
  split; [reflexivity|]. split; [reflexivity|].
  eexists _, _, _, _, _, _.
  split; [reflexivity|]. split; [reflexivity|]. split; [reflexivity|].
  split; [reflexivity|]. split; [reflexivity|]. split; [reflexivity|].
  split; [reflexivity|]. split; [reflexivity|]. split; [reflexivity|].
  split; [reflexivity|]. split; [reflexivity|]. split; [reflexivity|].
  split; [reflexivity|]. split; [reflexivity|]. split; reflexivity.
Qed.

(** [install_plugin_hands_down_prefix_keywords], for a host with the
    keyword [amiya] and a plugin with the keyword [hi]. *)
Lemma install_plugin_hands_down_prefix_keywords_witness :
  exists w',
    install_plugin Scenario.swallow_all 2 0 1 Scenario.objects_kw
    = (Ok (Some 1), w')
    /\ Handler._prefix_keywords (attributes (object_at (objects w') 1))
       = ["hi"; "amiya"]
    /\ prefix_keywords 3 (objects w') 0 = Ok ["amiya"; "hi"; "amiya"].
Proof.
  destruct (install_plugin_hands_down_prefix_keywords
              Scenario.swallow_all 2 0 1 (Scenario.info_of "p3")
              Scenario.objects_kw ["amiya"] ["hi"])
    as (w' & inherited & Hin & Hpk & Hown & Hview & _).
  - simpl. lia.
  - reflexivity.
  - reflexivity.
  - reflexivity.
  - reflexivity.
  - simpl. lia.
  - simpl. lia.
  - exists w'. split; [exact Hin|]. split; [exact Hown|].
    rewrite Hview. simpl in Hpk. injection Hpk as <-. reflexivity.
Defined.

(** [prefix_keywords_double_with_each_install], for three plugins installed
    in a host with the keyword [amiya]. *)
Lemma prefix_keywords_double_with_each_install_witness :
  exists w' keywords,
    install_all Scenario.swallow_all 2 0 [1; 2; 3] Scenario.objects_q
    = Some w'
    /\ prefix_keywords 2 (objects w') 0 = Ok keywords
    /\ keywords = repeat "amiya"%string 8
    /\ count_occ string_dec keywords "amiya" = 8.
Proof.
  destruct (install_all Scenario.swallow_all 2 0 [1; 2; 3] Scenario.objects_q)
    as [w'|] eqn:Hall; [|discriminate].
  destruct (prefix_keywords_double_with_each_install
              Scenario.swallow_all [1; 2; 3] 2 0 Scenario.objects_q w'
              ["amiya"%string])
    as (keywords & Hk & Hcount).
  - lia.
  - simpl. lia.
  - reflexivity.
  - repeat constructor; simpl; lia.
  - repeat constructor; simpl; lia.
  - exact Hall.
  - exists w', keywords. split; [reflexivity|]. split; [exact Hk|].
    split; [|exact (Hcount "amiya"%string)].
    injection Hall as <-. injection Hk as <-. reflexivity.
Defined.

End ObjectsSpec.

(** ** The KOOK adapter *)

Module KookSpec.
Import Kook.

(** *** The control plane *)

Section ControlPlane.
Variable json_loads : string -> loads_result.
Variable http_get http_post : string -> pyval -> option string.

(** The constructor called with the keys of a response: it accepts a
    dictionary that has a code and a message and no key besides these two
    and ["data"], and raises [TypeError] on any other. *)
Lemma ResponseException_init_kwargs (data : list (string * pyval)) :
  PyDict.contains data "code" = true ->
  PyDict.contains data "message" = true ->
  (forall k, In k (PyDict.keys data) -> In k ResponseException_parameters) ->
  ResponseException_init [] data = ResponseException [] data.
Proof.
  intros Hc Hm Hk. unfold ResponseException_init. cbn [length firstn existsb].
  rewrite Hc, Hm. cbn [orb andb Nat.leb negb].
  replace (forallb _ (PyDict.keys data)) with true; [reflexivity|].
  symmetry. apply forallb_forall. intros k Hin. rewrite andb_true_r.
  apply existsb_exists. exists k. split; [now apply Hk|apply String.eqb_refl].
Qed.

Lemma ResponseException_init_unbound (data : list (string * pyval)) :
  PyDict.contains data "message" = false
  \/ (exists k, In k (PyDict.keys data) /\ ~ In k ResponseException_parameters) ->
  ResponseException_init [] data = TypeError.
Proof.
  intros Hbad. unfold ResponseException_init. cbn [length firstn existsb].
  destruct Hbad as [Hm|(k & Hin & Hk)].
  - rewrite Hm. cbn [orb]. now rewrite andb_false_r.
  - replace (forallb _ (PyDict.keys data)) with false; [reflexivity|].
    symmetry. apply not_true_is_false. intros Hall.
    rewrite forallb_forall in Hall. specialize (Hall k Hin).
    rewrite andb_true_r in Hall. apply existsb_exists in Hall as (x & Hx & Heq).
    apply String.eqb_eq in Heq. now subst x.
Qed.


(** An object with a ["code"] other than [0] that has no message, or has a
    key besides ["code"], ["message"] and ["data"], does not fit the
    constructor: the call of line 201 raises [TypeError]. *)
Lemma check_response_unbound text data code :
  json_loads text = Decoded (PyDict data) ->
  PyDict.get data "code" = Some code ->
  ne_zero code = true ->
  PyDict.get data "message" = None
  \/ (exists k, In k (PyDict.keys data) /\ ~ In k ["code"; "message"; "data"]) ->
  __check_response json_loads (Some text) = Raise TypeError.
Proof.
  intros Hl Hg Hz Hbad. unfold __check_response. rewrite Hl. simpl.
  unfold PyDict.contains at 1. rewrite Hg, Hz.
  rewrite ResponseException_init_unbound; [reflexivity|].
  destruct Hbad as [Hm|Hk]; [left|now right].
  unfold PyDict.contains. now rewrite Hm.
Qed.

(** A response that parses to a number, a truth value or [null] makes
    ['code' in data] raise. *)
Lemma check_response_scalar text data :
  json_loads text = Decoded data ->
  match data with
  | PyNone | PyBool _ | PyInt _ | PyFloat _ => True
  | _ => False
  end ->
  __check_response json_loads (Some text) = Raise TypeError.
Proof.
  intros Hl Hd. unfold __check_response. rewrite Hl.
  destruct data; simpl; tauto.
Qed.

End ControlPlane.


(** *** The receive loop *)

Lemma set_last_sn_same st : set_last_sn st (last_sn st) = st.
Proof. destruct st; reflexivity. Qed.

Lemma record_sn_eq p st : record_sn p st = (Ok tt, recorded st p, []).
Proof.
  unfold record_sn, recorded. destruct (sn p); simpl; [reflexivity|].
  unfold ret. now rewrite set_last_sn_same.
Qed.

(** Runs the monadic code of a block. *)
Ltac run := unfold bind, when, ret, raise, modify, emit, lift, get; simpl.

Lemma process_frame_event p st :
  s p = 0 ->
  process_frame p st
  = (Ok tt, recorded st p, [CreateTask (HandlerTask "event" (d p))]).
Proof.
  intros Hs. unfold process_frame, bind. rewrite record_sn_eq, Hs. reflexivity.
Qed.

Lemma process_frame_pong p st :
  s p = 3 -> process_frame p st = (Ok tt, set_pong (recorded st p) 1, []).
Proof.
  intros Hs. unfold process_frame, bind. rewrite record_sn_eq, Hs. reflexivity.
Qed.

Lemma process_frame_resume_ack p st :
  s p = 6 -> process_frame p st = (Ok tt, recorded st p, [LogInfo ResumeDone]).
Proof.
  intros Hs. unfold process_frame, bind. rewrite record_sn_eq, Hs. reflexivity.
Qed.

Lemma process_frame_reconnect p st :
  s p = 5 ->
  process_frame p st
  = (Ok tt,
     set_connection (set_last_sn (set_ws_url (recorded st p) (PyStr "")) 0) None,
     match connection st with Some _ => [WsClose] | None => [] end).
Proof.
  intros Hs. unfold process_frame, bind. rewrite record_sn_eq, Hs. simpl.
  unfold on_reconnect, close_connection. run.
  destruct (connection st); reflexivity.
Qed.

Lemma process_frame_other p st :
  s p <> 0 -> s p <> 1 -> s p <> 3 -> s p <> 5 -> s p <> 6 ->
  process_frame p st = (Ok tt, recorded st p, []).
Proof.
  intros H0 H1 H3 H5 H6. unfold process_frame, bind. rewrite record_sn_eq.
  apply Z.eqb_neq in H0, H1, H3, H5, H6. rewrite H0, H1, H3, H5, H6.
  reflexivity.
Qed.

Lemma process_frame_handshake p st :
  s p = 1 ->
  process_frame p st = on_handshake_result p (recorded st p).
Proof.
  intros Hs. unfold process_frame, bind. rewrite record_sn_eq, Hs. simpl.
  destruct (on_handshake_result p (recorded st p)) as [[[[]|e] st1] e1];
    simpl; rewrite ?app_nil_r; reflexivity.
Qed.

Lemma on_handshake_result_reject p st code :
  getitem (d p) "code" = Ok code -> ne_zero code = true ->
  on_handshake_result p st
  = (Raise TimeoutError, set_last_sn (set_ws_url st (PyStr "")) 0, []).
Proof.
  intros Hc Hz. unfold on_handshake_result. run. rewrite Hc. simpl. rewrite Hz. reflexivity.
Qed.

Lemma on_handshake_result_fresh p st code session_id :
  getitem (d p) "code" = Ok code -> ne_zero code = false ->
  last_sn st = 0 ->
  getitem (d p) "session_id" = Ok session_id ->
  on_handshake_result p st
  = (Ok tt, set_session st session_id, [CreateTask HeartbeatInterval]).
Proof.
  intros Hc Hz Hsn Hs. unfold on_handshake_result. run. rewrite Hc. simpl. rewrite Hz. simpl.
  rewrite Hsn. simpl. rewrite Hs. reflexivity.
Qed.

Lemma on_handshake_result_resume p st code session_id ws :
  getitem (d p) "code" = Ok code -> ne_zero code = false ->
  last_sn st <> 0 ->
  connection st = Some ws ->
  getitem (d p) "session_id" = Ok session_id ->
  on_handshake_result p st
  = (Ok tt, set_session st session_id,
     [LogInfo Resuming;
      WsSend (mkWSPayload 4 PyNone (Some (last_sn st)) PyNone);
      CreateTask HeartbeatInterval]).
Proof.
  intros Hc Hz Hsn Hconn Hs. unfold on_handshake_result. run. rewrite Hc. simpl. rewrite Hz. simpl.
  apply Z.eqb_neq in Hsn. rewrite Hsn. simpl. unfold send. run. rewrite Hconn. simpl. 
  rewrite Hs. reflexivity.
Qed.

Lemma on_handshake_result_ok p st st1 e :
  on_handshake_result p st = (Ok tt, st1, e) ->
  last_sn st1 = last_sn st /\ connection st1 = connection st
  /\ keep_run st1 = keep_run st /\ ws_url st1 = ws_url st /\ pong st1 = pong st.
Proof.
  unfold on_handshake_result. run.
  destruct (getitem (d p) "code") as [code|]; simpl; [|discriminate].
  destruct (ne_zero code); simpl; [discriminate|].
  destruct (last_sn st =? 0); simpl.
  - destruct (getitem (d p) "session_id"); simpl; [|discriminate].
    intros [= <- <-]. repeat split; reflexivity.
  - unfold send. run. destruct (connection st) eqn:Ec; simpl; [|discriminate].
    destruct (getitem (d p) "session_id"); simpl; [|discriminate].
    intros [= <- <-]. repeat split; simpl; congruence.
Qed.

Lemma still_alive_inv st :
  __still_alive st = true -> keep_run st = true /\ exists ws, connection st = Some ws.
Proof.
  unfold __still_alive. intros HH. apply andb_prop in HH as [Hk Hc].
  split; [assumption|]. apply bool_decide_eq_true in Hc. destruct Hc as [ws Hws]. eauto.
Qed.

(** A frame after which the loop goes on has left its [sn], if any, in
    [last_sn]. *)
Lemma process_frame_running p st st1 e :
  process_frame p st = (Ok tt, st1, e) ->
  __still_alive st1 = true ->
  last_sn st1 = default (last_sn st) (sn p).
Proof.
  intros Hp Halive.
  destruct (Z.eq_dec (s p) 0) as [H0|H0].
  { rewrite process_frame_event in Hp by assumption. now inversion Hp. }
  destruct (Z.eq_dec (s p) 1) as [H1|H1].
  { rewrite process_frame_handshake in Hp by assumption.
    apply on_handshake_result_ok in Hp as (Hsn & _). now rewrite Hsn. }
  destruct (Z.eq_dec (s p) 3) as [H3|H3].
  { rewrite process_frame_pong in Hp by assumption. now inversion Hp. }
  destruct (Z.eq_dec (s p) 5) as [H5|H5].
  { rewrite process_frame_reconnect in Hp by assumption. inversion Hp; subst.
    discriminate (proj2 (andb_prop _ _ Halive)). }
  destruct (Z.eq_dec (s p) 6) as [H6|H6].
  { rewrite process_frame_resume_ack in Hp by assumption. now inversion Hp. }
  rewrite process_frame_other in Hp by assumption. now inversion Hp.
Qed.

Lemma recv_loop_running_alive fs st st1 e :
  recv_loop fs st = (Ok AwaitingRecv, st1, e) -> __still_alive st1 = true.
Proof.
  revert st e. induction fs as [|p fs IH]; intros st e; simpl.
  - destruct (__still_alive st) eqn:E; [|discriminate]. now intros [= <- <-].
  - destruct (__still_alive st); [|discriminate]. unfold bind.
    destruct (process_frame p st) as [[[[]|ex] st0] e0]; [|discriminate].
    destruct (recv_loop fs st0) as [[r st2] e2] eqn:E.
    intros [= -> -> <-]. eauto.
Qed.

Lemma recv_loop_cons_running p fs st st2 e :
  recv_loop (p :: fs) st = (Ok AwaitingRecv, st2, e) ->
  exists st1 e1 e2,
    process_frame p st = (Ok tt, st1, e1)
    /\ recv_loop fs st1 = (Ok AwaitingRecv, st2, e2)
    /\ e = e1 ++ e2 /\ __still_alive st = true.
Proof.
  simpl. destruct (__still_alive st); [|discriminate]. unfold bind.
  destruct (process_frame p st) as [[[[]|ex] st0] e0]; [|discriminate].
  destruct (recv_loop fs st0) as [[r st3] e3] eqn:E.
  intros [= -> -> <-]. eauto 10.
Qed.

Lemma recv_loop_running_entry fs st st1 e :
  recv_loop fs st = (Ok AwaitingRecv, st1, e) -> __still_alive st = true.
Proof.
  destruct fs; simpl; destruct (__still_alive st); congruence.
Qed.

Lemma recv_loop_last_sn fs st st1 e :
  recv_loop fs st = (Ok AwaitingRecv, st1, e) ->
  last_sn st1 = last_sn_of fs (last_sn st).
Proof.
  revert st e. induction fs as [|p fs IH]; intros st e.
  - simpl. destruct (__still_alive st); [|discriminate]. now intros [= <- <-].
  - intros HH. apply recv_loop_cons_running in HH as (st0 & e1 & e2 & Hp & Hl & -> & _).
    simpl. rewrite (IH _ _ Hl). f_equal.
    eapply process_frame_running; eauto using recv_loop_running_entry.
Qed.

Lemma recv_loop_app fs1 fs2 st st1 e1 :
  recv_loop fs1 st = (Ok AwaitingRecv, st1, e1) ->
  recv_loop (fs1 ++ fs2) st
  = match recv_loop fs2 st1 with (r, st2, e2) => (r, st2, e1 ++ e2) end.
Proof.
  revert st e1. induction fs1 as [|p fs IH]; intros st e1.
  - simpl. destruct (__still_alive st) eqn:E; [|discriminate]. intros [= <- <-].
    simpl. destruct (recv_loop fs2 st) as [[r st2] e2]. reflexivity.
  - intros HH. apply recv_loop_cons_running in HH as (st0 & e0 & e2 & Hp & Hl & -> & Halive).
    simpl. rewrite Halive. unfold bind. rewrite Hp. rewrite (IH _ _ Hl).
    destruct (recv_loop fs2 st1) as [[r st2] e3]. now rewrite app_assoc.
Qed.

Lemma recv_loop_prefix fs1 fs2 st st2 e :
  recv_loop (fs1 ++ fs2) st = (Ok AwaitingRecv, st2, e) ->
  exists st1 e1 e2,
    recv_loop fs1 st = (Ok AwaitingRecv, st1, e1)
    /\ recv_loop fs2 st1 = (Ok AwaitingRecv, st2, e2)
    /\ e = e1 ++ e2.
Proof.
  revert st e. induction fs1 as [|p fs IH]; intros st e HH.
  - simpl in HH. exists st, [], e. split; [|split; [assumption|reflexivity]].
    simpl. now rewrite (recv_loop_running_entry _ _ _ _ HH).
  - simpl app in HH. apply recv_loop_cons_running in HH as (st0 & e0 & e2 & Hp & Hl & -> & Halive).
    apply IH in Hl as (st1 & e1 & e3 & H1 & H2 & ->).
    exists st1, (e0 ++ e1), e3. split; [|split; [assumption|now rewrite app_assoc]].
    simpl. rewrite Halive. unfold bind. rewrite Hp, H1. reflexivity.
Qed.

Lemma sn_nondecreasing_last z fs : sn_nondecreasing z fs -> z <= last_sn_of fs z.
Proof.
  revert z. induction fs as [|p fs IH]; intros z; simpl; [lia|].
  destruct (sn p) as [n|]; simpl.
  - intros [Hle Hnd]. specialize (IH _ Hnd). lia.
  - apply IH.
Qed.

Lemma sn_nondecreasing_app z fs1 fs2 :
  sn_nondecreasing z (fs1 ++ fs2) ->
  sn_nondecreasing z fs1 /\ sn_nondecreasing (last_sn_of fs1 z) fs2.
Proof.
  revert z. induction fs1 as [|p fs IH]; intros z; simpl; [tauto|].
  destruct (sn p) as [n|]; simpl.
  - intros [Hle Hnd]. destruct (IH _ Hnd). tauto.
  - apply IH.
Qed.

Lemma last_sn_of_app fs1 fs2 z :
  last_sn_of (fs1 ++ fs2) z = last_sn_of fs2 (last_sn_of fs1 z).
Proof. revert z. induction fs1; intros z; simpl; auto. Qed.

(** C1 (as amended).  While the receive loop keeps receiving (no frame has
    ended it), [last_sn] is the [sn] of the last processed frame that has
    one, and the value from before the loop when none has; if the [sn]s
    delivered do not decrease, starting from that value, [last_sn] does not
    decrease from one point of the loop to a later one. *)
Theorem last_sn_follows_the_frames :
  forall fs1 fs2 st st2 e,
    recv_loop (fs1 ++ fs2) st = (Ok AwaitingRecv, st2, e) ->
    exists st1 e1,
      recv_loop fs1 st = (Ok AwaitingRecv, st1, e1)
      /\ last_sn st1 = last_sn_of fs1 (last_sn st)
      /\ last_sn st2 = last_sn_of (fs1 ++ fs2) (last_sn st)
      /\ (sn_nondecreasing (last_sn st) (fs1 ++ fs2) ->
          last_sn st <= last_sn st1 <= last_sn st2).
Proof.
  intros fs1 fs2 st st2 e Hrun.
  pose proof (recv_loop_last_sn _ _ _ _ Hrun) as H2.
  apply recv_loop_prefix in Hrun as (st1 & e1 & e2 & Hr1 & Hr2 & ->).
  pose proof (recv_loop_last_sn _ _ _ _ Hr1) as H1.
  exists st1, e1. repeat split; try assumption.
  - rewrite H1. apply sn_nondecreasing_last.
    now apply sn_nondecreasing_app in H.
  - rewrite H2, H1, last_sn_of_app. apply sn_nondecreasing_last.
    now apply sn_nondecreasing_app in H.
Qed.




(** *** Attempts *)

Section Connect.
Variable ws_exit_suppresses : exn -> bool.

Lemma connect_attempt_eq gateway frames st st0 e0 :
  request_gateway gateway st = (Ok tt, st0, e0) ->
  __connect ws_exit_suppresses gateway frames st
  = match
      recv_loop frames (set_connection st0 (Some (Websocket (ws_url st0))))
    with
    | (Ok AwaitingRecv, st1, e) =>
        (Ok AwaitingRecv, st1, e0 ++ WsOpen (ws_url st0) :: e)
    | (Ok LoopExit, st1, e) =>
        (Ok LoopExit, set_connection st1 None,
         (e0 ++ WsOpen (ws_url st0) :: e)
         ++ match connection st1 with Some _ => [WsClose] | None => [] end)
    | (Raise ex, st1, e) =>
        (if ws_exit_suppresses ex then Ok LoopExit else Raise ex,
         set_connection st1 None,
         (e0 ++ WsOpen (ws_url st0) :: e)
         ++ match connection st1 with Some _ => [WsClose] | None => [] end)
    end.
Proof.
  intros Hg. unfold __connect, bind at 1. rewrite Hg.
  unfold with_websocket, bind, get, emit, modify. simpl.
  destruct (recv_loop frames _) as [[[[]|ex] st1] e]; simpl.
  - reflexivity.
  - unfold close_connection, bind, get, when, emit, modify, ret.
    destruct (connection st1); simpl; rewrite ?app_nil_r; reflexivity.
  - unfold close_connection, bind, get, when, emit, modify, ret.
    destruct (ws_exit_suppresses ex), (connection st1); simpl;
      rewrite ?app_nil_r; reflexivity.
Qed.

Lemma connect_attempt_running gateway frames st st1 e1 :
  __connect ws_exit_suppresses gateway frames st
  = (Ok AwaitingRecv, st1, e1) ->
  exists st0 e0 e,
    request_gateway gateway st = (Ok tt, st0, e0)
    /\ recv_loop frames (set_connection st0 (Some (Websocket (ws_url st0))))
       = (Ok AwaitingRecv, st1, e)
    /\ e1 = e0 ++ WsOpen (ws_url st0) :: e.
Proof.
  destruct (request_gateway gateway st) as [[[[]|ex] st0] e0] eqn:Hg.
  - rewrite (connect_attempt_eq _ _ _ _ _ Hg).
    destruct (recv_loop frames _) as [[[[]|ex] st2] e] eqn:Hl.
    + intros [= <- <-]. exists st0, e0, e. auto.
    + discriminate.
    + destruct (ws_exit_suppresses ex); discriminate.
  - unfold __connect, bind at 1. rewrite Hg.
    destruct (close_connection st0) as [[r st2] e2]. discriminate.
Qed.

Lemma request_gateway_fresh resp data url st :
  ws_url st = PyStr "" ->
  truthy resp = true ->
  getitem resp "data" = Ok data ->
  getitem data "url" = Ok url ->
  request_gateway (Ok (Some resp)) st
  = (Ok tt, set_ws_url st url,
     [LogInfo RequestingGateway; HttpGet "/gateway/index"; LogInfo Connecting]).
Proof.
  intros Hu Ht Hd Hurl. unfold request_gateway, bind, get, when, emit, lift, modify.
  rewrite Hu. simpl. rewrite Ht. unfold bind, lift, modify. rewrite Hd, Hurl. reflexivity.
Qed.

(** A handshake reject ends the attempt that receives it. *)
Lemma reject_ends_attempt gateway pre reject post code st st1 e1 :
  s reject = 1 ->
  getitem (d reject) "code" = Ok code ->
  ne_zero code = true ->
  __connect ws_exit_suppresses gateway pre st
  = (Ok AwaitingRecv, st1, e1) ->
  exists st2,
    __connect ws_exit_suppresses gateway (pre ++ reject :: post) st
    = (if ws_exit_suppresses TimeoutError
       then Ok LoopExit else Raise TimeoutError,
       st2, e1 ++ [WsClose])
    /\ ws_url st2 = PyStr ""
    /\ last_sn st2 = 0
    /\ connection st2 = None
    /\ keep_run st2 = true.
Proof.
  intros Hs Hcode Hnz Hrun.
  apply connect_attempt_running in Hrun as (st0 & e0 & e & Hg & Hl & ->).
  pose proof (recv_loop_running_alive _ _ _ _ Hl) as Halive.
  destruct (still_alive_inv _ Halive) as (Hkeep & ws & Hconn).
  exists (set_connection
            (set_last_sn (set_ws_url (recorded st1 reject) (PyStr "")) 0)
            None).
  assert (Hrej : recv_loop (reject :: post) st1
                 = (Raise TimeoutError,
                    set_last_sn (set_ws_url (recorded st1 reject) (PyStr "")) 0,
                    [])).
  { simpl. rewrite Halive. unfold bind.
    rewrite process_frame_handshake by assumption.
    now rewrite (on_handshake_result_reject _ _ _ Hcode Hnz). }
  split.
  { rewrite (connect_attempt_eq _ _ _ _ _ Hg).
    rewrite (recv_loop_app _ (reject :: post) _ _ _ Hl), Hrej.
    simpl. rewrite Hconn. rewrite app_nil_r.
    rewrite <- app_assoc. reflexivity. }
  repeat split. exact Hkeep.
Qed.

(** An attempt that starts without a cached address and with [last_sn] at
    [0] asks for the gateway, and a successful handshake result without
    [sn] starts the heartbeat and sends nothing. *)
Lemma fresh_attempt resp data url hello code session_id st :
  ws_url st = PyStr "" ->
  last_sn st = 0 ->
  keep_run st = true ->
  truthy resp = true ->
  getitem resp "data" = Ok data ->
  getitem data "url" = Ok url ->
  s hello = 1 ->
  sn hello = None ->
  getitem (d hello) "code" = Ok code ->
  ne_zero code = false ->
  getitem (d hello) "session_id" = Ok session_id ->
  exists st',
    __connect ws_exit_suppresses (Ok (Some resp)) [hello] st
    = (Ok AwaitingRecv, st',
       [LogInfo RequestingGateway; HttpGet "/gateway/index";
        LogInfo Connecting; WsOpen url; CreateTask HeartbeatInterval])
    /\ ws_url st' = url
    /\ last_sn st' = 0.
Proof.
  intros Hu Hsn0 Hkeep Ht Hd Hurl Hs Hsn Hc Hz Hsid.
  rewrite (connect_attempt_eq _ [hello] st _ _
             (request_gateway_fresh resp data url st Hu Ht Hd Hurl)).
  assert (Hloop :
    recv_loop [hello]
      (set_connection (set_ws_url st url)
         (Some (Websocket (ws_url (set_ws_url st url)))))
    = (Ok AwaitingRecv,
       set_session
         (set_connection (set_ws_url st url) (Some (Websocket url)))
         session_id,
       [CreateTask HeartbeatInterval])).
  { simpl. unfold __still_alive at 1. simpl. rewrite Hkeep. simpl. unfold bind.
    rewrite process_frame_handshake by assumption.
    unfold recorded. rewrite Hsn. simpl.
    erewrite on_handshake_result_fresh;
      [|eassumption|assumption|exact Hsn0|eassumption].
    unfold __still_alive. simpl. rewrite Hkeep. reflexivity. }
  rewrite Hloop. eexists. split; [reflexivity|]. split; [reflexivity|].
  exact Hsn0.
Qed.

(** C2.  A handshake result whose code is not [0], received by an attempt
    that is receiving, empties [ws_url], zeroes [last_sn] and ends the
    attempt with [TimeoutError] (unless the context manager swallows it),
    the connection closed.  The attempt that follows requests the gateway
    again, and a successful handshake result that carries no [sn] starts the
    heartbeat without a resume frame. *)
Theorem handshake_reject_clears_session :
  forall gateway pre reject post code st st1 e1,
    s reject = 1 ->
    getitem (d reject) "code" = Ok code ->
    ne_zero code = true ->
    __connect ws_exit_suppresses gateway pre st
    = (Ok AwaitingRecv, st1, e1) ->
    exists st2,
      __connect ws_exit_suppresses gateway (pre ++ reject :: post) st
      = (if ws_exit_suppresses TimeoutError
         then Ok LoopExit else Raise TimeoutError,
         st2, e1 ++ [WsClose])
      /\ ws_url st2 = PyStr ""
      /\ last_sn st2 = 0
      /\ connection st2 = None
      /\ forall resp data url hello code' session_id,
          truthy resp = true ->
          getitem resp "data" = Ok data ->
          getitem data "url" = Ok url ->
          s hello = 1 ->
          sn hello = None ->
          getitem (d hello) "code" = Ok code' ->
          ne_zero code' = false ->
          getitem (d hello) "session_id" = Ok session_id ->
          exists st3,
            __connect ws_exit_suppresses (Ok (Some resp)) [hello] st2
            = (Ok AwaitingRecv, st3,
               [LogInfo RequestingGateway; HttpGet "/gateway/index";
                LogInfo Connecting; WsOpen url;
                CreateTask HeartbeatInterval])
            /\ ws_url st3 = url
            /\ last_sn st3 = 0.
Proof.
  intros gateway pre reject post code st st1 e1 Hs Hcode Hnz Hrun.
  destruct (reject_ends_attempt gateway pre reject post code st st1 e1
              Hs Hcode Hnz Hrun)
    as (st2 & Hatt & Hu & Hsn & Hconn & Hkeep).
  exists st2. split; [exact Hatt|]. split; [exact Hu|].
  split; [exact Hsn|]. split; [exact Hconn|].
  intros resp data url hello code' session_id Ht Hd Hurl Hs' Hsn' Hc' Hz' Hsid.
  eapply fresh_attempt; eassumption.
Qed.

End Connect.

(** *** The watchdog *)

Lemma close_connection_eq st :
  close_connection st
  = (Ok tt, set_connection st None,
     match connection st with Some _ => [WsClose] | None => [] end).
Proof.
  unfold close_connection, bind, get, when, emit, modify, ret.
  destruct (connection st); reflexivity.
Qed.

Lemma wait_heartbeat_from_dead fuel others sec st :
  ((pong st =? 0) && __still_alive st) = false ->
  wait_heartbeat_from (S fuel) others sec st = Some (set_pong st 0, []).
Proof. intros HH. simpl. now rewrite HH. Qed.

(** The loop ends within the deadline, whatever the other tasks do. *)
Lemma wait_heartbeat_from_ends others :
  forall (n fuel : nat) (sec : Z) (st : KOOKBotInstance),
    30 - sec <= Z.of_nat n -> (1 <= n)%nat -> (n < fuel)%nat ->
    exists st' eff,
      wait_heartbeat_from fuel others sec st = Some (st', eff)
      /\ pong st' = 0
      /\ (eff = [] \/ eff = [WsClose]).
Proof.
  induction n as [|n IH]; intros fuel sec st Hsec Hn Hfuel; [lia|].
  destruct fuel as [|fuel]; [lia|]. simpl.
  destruct ((pong st =? 0) && __still_alive st) eqn:Hcond.
  - destruct (30 <=? sec + 1) eqn:H30.
    + rewrite close_connection_eq.
      destruct fuel as [|fuel]; [lia|].
      rewrite wait_heartbeat_from_dead.
      * eexists _, _. split; [reflexivity|]. split; [reflexivity|].
        rewrite app_nil_r. destruct (connection (others sec st)); auto.
      * unfold __still_alive. simpl. now rewrite !andb_false_r.
    + apply Z.leb_gt in H30. apply IH; lia.
  - eexists _, _. split; [reflexivity|]. split; [reflexivity|]. now left.
Qed.


Lemma quiet_cond k others j st :
  quiet_until k others -> j < k ->
  ((pong (others j st) =? 0) && __still_alive (others j st))
  = ((pong st =? 0) && __still_alive st).
Proof.
  intros Hq Hj. destruct (Hq j st Hj) as (Hp & Hc & Hk).
  unfold __still_alive. now rewrite Hp, Hc, Hk.
Qed.

(** Without acknowledgement the connection is closed when the thirtieth
    second has passed, once. *)
Lemma wait_heartbeat_from_timeout others :
  quiet_until 30 others ->
  forall (n fuel : nat) (sec : Z) (st : KOOKBotInstance),
    30 - sec = Z.of_nat n -> (1 <= n)%nat -> (n < fuel)%nat ->
    pong st = 0 -> __still_alive st = true ->
    exists st',
      wait_heartbeat_from fuel others sec st = Some (st', [WsClose])
      /\ connection st' = None /\ pong st' = 0.
Proof.
  intros Hq. induction n as [|n IH]; intros fuel sec st Hsec Hn Hfuel Hp Ha;
    [lia|].
  destruct fuel as [|fuel]; [lia|]. simpl.
  rewrite Hp, Ha. simpl.
  assert (Hcond : ((pong (others sec st) =? 0) && __still_alive (others sec st))
                  = true).
  { rewrite (quiet_cond 30) by (assumption || lia). now rewrite Hp, Ha. }
  apply andb_prop in Hcond as [Hp' Ha']. apply Z.eqb_eq in Hp'.
  destruct (30 <=? sec + 1) eqn:H30.
  - rewrite close_connection_eq.
    destruct fuel as [|fuel]; [lia|].
    rewrite wait_heartbeat_from_dead.
    + destruct (still_alive_inv _ Ha') as (_ & ws & Hws). rewrite Hws.
      eexists. split; [reflexivity|]. split; reflexivity.
    + unfold __still_alive. simpl. now rewrite !andb_false_r.
  - apply Z.leb_gt in H30. apply IH; try assumption; lia.
Qed.

(** An acknowledgement during the [k]-th sleep ends the loop at its next
    test, without a close. *)
Lemma wait_heartbeat_from_acknowledged others k :
  quiet_until k others ->
  (forall st, pong (others k st) = 1) ->
  k < 29 ->
  forall (n fuel : nat) (sec : Z) (st : KOOKBotInstance),
    k - sec = Z.of_nat n -> (S n < fuel)%nat ->
    pong st = 0 -> __still_alive st = true ->
    exists st',
      wait_heartbeat_from fuel others sec st = Some (st', [])
      /\ pong st' = 0.
Proof.
  intros Hq Hack Hk. induction n as [|n IH];
    intros fuel sec st Hsec Hfuel Hp Ha;
    (destruct fuel as [|fuel]; [lia|]); simpl; rewrite Hp, Ha; simpl.
  - assert (sec = k) by lia. subst sec.
    assert (H30 : (30 <=? k + 1) = false) by (apply Z.leb_gt; lia).
    rewrite H30. destruct fuel as [|fuel]; [lia|].
    rewrite wait_heartbeat_from_dead.
    + eexists. split; reflexivity.
    + now rewrite Hack.
  - assert (H30 : (30 <=? sec + 1) = false) by (apply Z.leb_gt; lia).
    rewrite H30.
    assert (Hcond : ((pong (others sec st) =? 0)
                     && __still_alive (others sec st)) = true).
    { rewrite (quiet_cond k) by (assumption || lia). now rewrite Hp, Ha. }
    apply andb_prop in Hcond as [Hp' Ha']. apply Z.eqb_eq in Hp'.
    apply IH; try assumption; lia.
Qed.

(** C6.  [wait_heartbeat] ends within thirty-one loop tests with the flag
    at [0], having closed the connection at most once.  When the flag is
    not set and the connection stays up for thirty seconds, it closes the
    connection exactly once.  When the receive loop handles a frame of kind
    [3] during one of the first twenty-nine seconds, it closes nothing and
    resets the flag. *)
Theorem watchdog_closes_once_and_clears_flag :
  forall (others : interleaving) (st : KOOKBotInstance) (fuel : nat),
    (31 <= fuel)%nat ->
    (exists st' eff,
       wait_heartbeat fuel others st = Some (st', eff)
       /\ pong st' = 0
       /\ (eff = [] \/ eff = [WsClose]))
    /\ (quiet_until 30 others ->
        pong st = 0 ->
        __still_alive st = true ->
        exists st',
          wait_heartbeat fuel others st = Some (st', [WsClose])
          /\ connection st' = None
          /\ pong st' = 0)
    /\ (forall k ack,
          0 <= k < 29 ->
          s ack = 3 ->
          quiet_until k others ->
          (forall st0, others k st0 = snd (fst (process_frame ack st0))) ->
          pong st = 0 ->
          __still_alive st = true ->
          exists st',
            wait_heartbeat fuel others st = Some (st', [])
            /\ pong st' = 0).
Proof.
  intros others st fuel Hfuel. unfold wait_heartbeat. split; [|split].
  - apply (wait_heartbeat_from_ends others 30); lia.
  - intros Hq Hp Ha.
    apply (wait_heartbeat_from_timeout others Hq 30); (assumption || lia).
  - intros k ack Hk Hs Hq Hack Hp Ha.
    apply (wait_heartbeat_from_acknowledged others k Hq) with (n := Z.to_nat k);
      try assumption; try lia.
    intros st0. rewrite Hack, process_frame_pong by assumption. reflexivity.
Qed.

(** *** The heartbeat *)

(** One period of [heartbeat_interval]: the seconds up to the thirtieth,
    the heartbeat, and the loop from there on. *)
Lemma heartbeat_interval_from_period others (m : nat) :
  forall (n : nat) (k sec : Z) (st : KOOKBotInstance),
    __still_alive st = true ->
    sec + Z.of_nat n = 30 ->
    (1 <= n)%nat ->
    undisturbed_until (k + Z.of_nat n) others ->
    __still_alive (after_sleeps others k n st) = true
    /\ heartbeat_interval_from (n + m) others k sec st
       = match
           heartbeat_interval_from m others (k + Z.of_nat n) 0
                                   (after_sleeps others k n st)
         with
         | (r, st', e) =>
             (r, st',
              WsSend (mkWSPayload
                        2 PyNone (Some (last_sn (after_sleeps others k n st)))
                        PyNone)
              :: CreateTask WaitHeartbeat :: e)
         end.
Proof.
  induction n as [|n IH]; intros k sec st Ha Hsec Hn Hq; [lia|].
  cbn [heartbeat_interval_from Nat.add after_sleeps]. rewrite Ha.
  assert (Ha1 : __still_alive (others k st) = true).
  { apply Hq; [lia|exact Ha]. }
  destruct (30 <=? sec + 1) eqn:H30.
  - apply Z.leb_le in H30. assert (n = 0%nat) by lia. subst n.
    cbn [after_sleeps Nat.add].
    destruct (still_alive_inv _ Ha1) as (_ & ws & Hws).
    split; [exact Ha1|].
    cbv [bind send get emit]. rewrite Hws.
    replace (k + Z.of_nat 1) with (k + 1) by lia.
    destruct (heartbeat_interval_from m others (k + 1) 0 (others k st))
      as [[r st''] e].
    reflexivity.
  - apply Z.leb_gt in H30.
    destruct (IH (k + 1) (sec + 1) (others k st)) as (Ha' & Hrun);
      try assumption; try lia.
    { intros j st0 Hj. apply Hq. lia. }
    split; [exact Ha'|]. rewrite Hrun.
    replace (k + 1 + Z.of_nat n) with (k + Z.of_nat (S n)) by lia.
    reflexivity.
Qed.

Lemma after_sleeps_add others (n m : nat) :
  forall k st,
    after_sleeps others k (n + m) st
    = after_sleeps others (k + Z.of_nat n) m (after_sleeps others k n st).
Proof.
  induction n as [|n IH]; intros k st.
  - cbn [Nat.add after_sleeps]. now replace (k + Z.of_nat 0) with k by lia.
  - cbn [Nat.add after_sleeps]. rewrite IH.
    now replace (k + 1 + Z.of_nat n) with (k + Z.of_nat (S n)) by lia.
Qed.

(** While the other tasks neither close the connection nor stop the
    adapter, the thirtieth second of [heartbeat_interval] sends a frame of
    kind [2] whose [sn] is [last_sn] as the other tasks have left it by
    then, and starts [wait_heartbeat]; nothing is sent before, and the
    instance is as the other tasks have left it. *)
Theorem heartbeat_sent_after_thirty_seconds :
  forall others (n : nat) (k sec : Z) (st : KOOKBotInstance),
    __still_alive st = true ->
    sec + Z.of_nat n = 30 ->
    (1 <= n)%nat ->
    undisturbed_until (k + Z.of_nat n) others ->
    heartbeat_interval_from n others k sec st
    = (Ok tt, after_sleeps others k n st,
       [WsSend (mkWSPayload
                  2 PyNone (Some (last_sn (after_sleeps others k n st)))
                  PyNone);
        CreateTask WaitHeartbeat])
    /\ __still_alive (after_sleeps others k n st) = true.
Proof.
  intros others n k sec st Ha Hsec Hn Hq.
  destruct (heartbeat_interval_from_period others 0 n k sec st Ha Hsec Hn Hq)
    as (Ha' & Hrun).
  rewrite Nat.add_0_r in Hrun. split; [exact Hrun|exact Ha'].
Qed.

(** *** Reconnecting *)

(** A request to reconnect empties the cached address, zeroes the
    sequence number, closes the connection and thereby ends the loop,
    whatever frames would follow. *)
Theorem reconnect_required_clears_and_closes :
  forall payload rest st ws,
    s payload = 5 ->
    keep_run st = true ->
    connection st = Some ws ->
    exists st',
      recv_loop (payload :: rest) st = (Ok LoopExit, st', [WsClose])
      /\ ws_url st' = PyStr ""
      /\ last_sn st' = 0
      /\ connection st' = None.
Proof.
  intros payload rest st ws Hs Hk Hc. eexists. split.
  - cbn [recv_loop]. unfold __still_alive at 1. rewrite Hk, Hc. simpl.
    unfold bind. rewrite process_frame_reconnect by assumption. rewrite Hc.
    destruct rest; simpl; unfold __still_alive; simpl;
      rewrite andb_false_r; reflexivity.
  - repeat split.
Qed.

Section Supervisor.
Variable ws_exit_suppresses : exn -> bool.

(** What the loop of [connect] does with an attempt that a handshake
    reject ends: it raises [TimeoutError] itself when the context manager
    lets the error through, and otherwise sleeps ten seconds and goes on
    with the next attempt, from the cleared state. *)
Theorem connect_loop_after_reject :
  forall gateway pre reject post code rest st st1 e1,
    keep_run st = true ->
    s reject = 1 ->
    getitem (d reject) "code" = Ok code ->
    ne_zero code = true ->
    __connect ws_exit_suppresses gateway pre st
    = (Ok AwaitingRecv, st1, e1) ->
    exists st2,
      ws_url st2 = PyStr "" /\ last_sn st2 = 0 /\ connection st2 = None
      /\ connect_loop ws_exit_suppresses
           ((gateway, pre ++ reject :: post) :: rest) st
         = if ws_exit_suppresses TimeoutError then
             match connect_loop ws_exit_suppresses rest st2 with
             | (r, st3, e3) => (r, st3, (e1 ++ [WsClose]) ++ Sleep 10 :: e3)
             end
           else (Raise TimeoutError, st2, e1 ++ [WsClose]).
Proof.
  intros gateway pre reject post code rest st st1 e1 Hk Hs Hc Hz Hrun.
  destruct (reject_ends_attempt ws_exit_suppresses
              gateway pre reject post code st st1 e1 Hs Hc Hz Hrun)
    as (st2 & Hatt & Hu & Hsn & Hconn & _).
  exists st2. repeat split; try assumption.
  cbn [connect_loop]. rewrite Hk. unfold bind at 1. rewrite Hatt.
  destruct (ws_exit_suppresses TimeoutError); [|reflexivity].
  unfold bind, emit.
  destruct (connect_loop ws_exit_suppresses rest st2) as [[r st3] e3].
  reflexivity.
Qed.

End Supervisor.

(** *** Instances *)

(** C1, witness. *)
Lemma last_sn_follows_the_frames_witness :
  exists st1 e1,
    recv_loop [Scenario.hello_frame; Scenario.event_frame 5]
              Scenario.connected
    = (Ok AwaitingRecv, st1, e1)
    /\ last_sn st1 = 5
    /\ 0 <= last_sn st1 <= 9.
Proof.
  destruct (last_sn_follows_the_frames
              [Scenario.hello_frame; Scenario.event_frame 5]
              [Scenario.event_frame 5; Scenario.event_frame 9]
              Scenario.connected _ _ eq_refl)
    as (st1 & e1 & H1 & H2 & H3 & H4).
  exists st1, e1. split; [exact H1|]. split; [exact H2|].
  rewrite H3 in H4. apply H4. simpl. lia.
Defined.

(** C1, counterexample.  The loop stores the [sn] it is given: after [5]
    comes [3] and [last_sn] goes down.  And a request to reconnect zeroes
    [last_sn], which then is not the [7] of the last frame that had an
    [sn]. *)
Lemma last_sn_decreases_and_is_reset :
  (exists st1 e1 st2 e2,
     recv_loop [Scenario.event_frame 5] Scenario.connected
     = (Ok AwaitingRecv, st1, e1)
     /\ recv_loop [Scenario.event_frame 5; Scenario.event_frame 3]
                  Scenario.connected
        = (Ok AwaitingRecv, st2, e2)
     /\ last_sn st1 = 5
     /\ last_sn st2 = 3)
  /\ (exists st e,
        recv_loop [Scenario.event_frame 7; Scenario.reconnect_frame]
                  Scenario.connected
        = (Ok LoopExit, st, e)
        /\ last_sn st = 0
        /\ last_sn_of [Scenario.event_frame 7; Scenario.reconnect_frame]
                      (last_sn Scenario.connected) = 7).
Proof.
  split.
  - eexists _, _, _, _. repeat split; reflexivity.
  - eexists _, _. repeat split; reflexivity.
Qed.

(** C2, witness. *)
Lemma handshake_reject_clears_session_witness :
  exists st2,
    __connect Scenario.swallow_all (Ok (Some Scenario.gateway_answer))
      ([Scenario.hello_frame; Scenario.event_frame 5]
       ++ Scenario.reject_frame :: [Scenario.event_frame 6])
      (KOOK_init "bot")
    = (Ok LoopExit, st2,
       [LogInfo RequestingGateway; HttpGet "/gateway/index";
        LogInfo Connecting; WsOpen (PyStr "wss://gateway");
        CreateTask HeartbeatInterval;
        CreateTask (HandlerTask "event" (PyDict [("type", PyInt 1)]))]
       ++ [WsClose])
    /\ ws_url st2 = PyStr ""
    /\ last_sn st2 = 0
    /\ exists st3,
        __connect Scenario.swallow_all
          (Ok (Some Scenario.gateway_answer)) [Scenario.hello_frame] st2
        = (Ok AwaitingRecv, st3,
           [LogInfo RequestingGateway; HttpGet "/gateway/index";
            LogInfo Connecting; WsOpen (PyStr "wss://gateway");
            CreateTask HeartbeatInterval])
        /\ last_sn st3 = 0.
Proof.
  destruct (handshake_reject_clears_session Scenario.swallow_all
              (Ok (Some Scenario.gateway_answer))
              [Scenario.hello_frame; Scenario.event_frame 5]
              Scenario.reject_frame [Scenario.event_frame 6]
              (PyInt 40103) (KOOK_init "bot") _ _
              eq_refl eq_refl eq_refl eq_refl)
    as (st2 & Hrun & Hurl & Hsn & _ & Hnext).
  exists st2. split; [exact Hrun|]. split; [exact Hurl|].
  split; [exact Hsn|].
  destruct (Hnext Scenario.gateway_answer _ _ Scenario.hello_frame _ _
              eq_refl eq_refl eq_refl eq_refl eq_refl eq_refl eq_refl eq_refl)
    as (st3 & H3 & _ & Hsn3).
  exists st3. split; [exact H3|exact Hsn3].
Defined.


Lemma quiet_until_nobody k : quiet_until k Scenario.nobody.
Proof. intros j st Hj. repeat split. Qed.

Lemma quiet_until_pong_during k : quiet_until k (Scenario.pong_during k).
Proof.
  intros j st Hj. unfold Scenario.pong_during.
  destruct (Z.eqb_spec j k); [lia|]. repeat split.
Qed.

(** C6, witness. *)
Lemma watchdog_closes_once_and_clears_flag_witness :
  (exists st',
     wait_heartbeat 31 Scenario.nobody Scenario.connected
     = Some (st', [WsClose])
     /\ connection st' = None
     /\ pong st' = 0)
  /\ (exists st',
        wait_heartbeat 31 (Scenario.pong_during 4) Scenario.connected
        = Some (st', [])
        /\ pong st' = 0).
Proof.
  split.
  - destruct (watchdog_closes_once_and_clears_flag
                Scenario.nobody Scenario.connected 31 (le_n 31))
      as (_ & Htimeout & _).
    apply Htimeout; [apply quiet_until_nobody|reflexivity|reflexivity].
  - destruct (watchdog_closes_once_and_clears_flag
                (Scenario.pong_during 4) Scenario.connected 31 (le_n 31))
      as (_ & _ & Hack).
    apply (Hack 4 Scenario.pong_frame);
      [lia|reflexivity|apply quiet_until_pong_during| |reflexivity|reflexivity].
    intros st0. reflexivity.
Defined.

(** [reconnect_required_clears_and_closes], at the frames of the
    scenario. *)
Lemma reconnect_required_clears_and_closes_witness :
  exists st',
    recv_loop [Scenario.reconnect_frame; Scenario.event_frame 8]
              (set_last_sn Scenario.connected 7)
    = (Ok LoopExit, st', [WsClose])
    /\ ws_url st' = PyStr ""
    /\ last_sn st' = 0
    /\ connection st' = None.
Proof.
  apply (reconnect_required_clears_and_closes Scenario.reconnect_frame
           [Scenario.event_frame 8] (set_last_sn Scenario.connected 7)
           (Websocket (PyStr "wss://gateway"))); reflexivity.
Defined.

(** [connect_loop_after_reject], with a context manager that lets the
    error through. *)
Lemma connect_loop_after_reject_witness :
  exists st2,
    ws_url st2 = PyStr "" /\ last_sn st2 = 0 /\ connection st2 = None
    /\ connect_loop Scenario.swallow_none
         [(Ok (Some Scenario.gateway_answer),
           [Scenario.hello_frame] ++ Scenario.reject_frame :: []);
          (Ok (Some Scenario.gateway_answer), [Scenario.hello_frame])]
         (KOOK_init "bot")
       = (Raise TimeoutError, st2,
          [LogInfo RequestingGateway; HttpGet "/gateway/index";
           LogInfo Connecting; WsOpen (PyStr "wss://gateway");
           CreateTask HeartbeatInterval] ++ [WsClose]).
Proof.
  exact (connect_loop_after_reject Scenario.swallow_none
           (Ok (Some Scenario.gateway_answer)) [Scenario.hello_frame]
           Scenario.reject_frame [] (PyInt 40103)
           [(Ok (Some Scenario.gateway_answer), [Scenario.hello_frame])]
           (KOOK_init "bot") _ _ eq_refl eq_refl eq_refl eq_refl eq_refl).
Defined.

Lemma undisturbed_until_acknowledging k :
  undisturbed_until k Scenario.acknowledging.
Proof.
  intros j st _ Ha. unfold Scenario.acknowledging.
  destruct (j =? 40).
  { now rewrite process_frame_event by reflexivity. }
  destruct ((0 <? j) && (j mod 30 =? 0)).
  { now rewrite process_frame_pong by reflexivity. }
  destruct ((30 <? j) && (j mod 30 =? 1)); [|exact Ha].
  unfold wait_heartbeat. cbn [wait_heartbeat_from]. rewrite Ha.
  destruct (pong st =? 0); cbn [andb]; [|exact Ha].
  unfold Scenario.nobody.
  destruct (30 <=? 0 + 1); [|exact Ha].
  now destruct (close_connection st) as [[r st2] e].
Qed.

(** [heartbeat_sent_after_thirty_seconds], from the thirty-first second on,
    beside a receive loop that handles an acknowledgement and the event
    numbered [9], and a watchdog that clears the flag: the second heartbeat
    carries [9]. *)
Lemma heartbeat_sent_after_thirty_seconds_witness :
  heartbeat_interval_from 30 Scenario.acknowledging 30 0
                          (set_last_sn Scenario.connected 7)
  = (Ok tt, set_last_sn Scenario.connected 9,
     [WsSend (mkWSPayload 2 PyNone (Some 9) PyNone); CreateTask WaitHeartbeat])
  /\ pong (after_sleeps Scenario.acknowledging 30 1
                        (set_last_sn Scenario.connected 7)) = 1.
Proof.
  split; [|reflexivity].
  apply (heartbeat_sent_after_thirty_seconds
           Scenario.acknowledging 30 30 0 (set_last_sn Scenario.connected 7)).
  - reflexivity.
  - reflexivity.
  - lia.
  - apply undisturbed_until_acknowledging.
Defined.

(** *** Ending the adapter *)

Lemma recv_loop_dead frames st :
  __still_alive st = false -> recv_loop frames st = (Ok LoopExit, st, []).
Proof. intros Ha. destruct frames; simpl; now rewrite Ha. Qed.

Lemma connect_loop_stopped ws_exit_suppresses attempts st :
  keep_run st = false ->
  connect_loop ws_exit_suppresses attempts st = (Ok LoopExit, st, []).
Proof. intros Hk. destruct attempts; simpl; now rewrite Hk. Qed.

Lemma heartbeat_interval_from_dead n others k sec st :
  __still_alive st = false ->
  heartbeat_interval_from n others k sec st = (Ok tt, st, []).
Proof. intros Ha. destruct n; simpl; [reflexivity|]. now rewrite Ha. Qed.

Lemma close_eq st :
  close st
  = (Ok tt, set_connection (set_keep_run st false) None,
     LogInfo Closing
     :: match connection st with Some _ => [WsClose] | None => [] end).
Proof.
  unfold close, bind at 1 2, emit, modify. simpl.
  rewrite close_connection_eq. reflexivity.
Qed.

(** [close] logs, clears [keep_run] and closes the connection if there is
    one, and leaves the cached address and [last_sn] alone.  From then on
    the receive loop, the loop of [connect] and the heartbeat loop end at
    their next test without doing anything, the watchdog only resets the
    flag, and a second [close] only logs. *)
Theorem close_stops_the_adapter :
  forall st,
    exists st',
      close st
      = (Ok tt, st',
         LogInfo Closing
         :: match connection st with Some _ => [WsClose] | None => [] end)
      /\ keep_run st' = false
      /\ connection st' = None
      /\ ws_url st' = ws_url st
      /\ last_sn st' = last_sn st
      /\ (forall frames, recv_loop frames st' = (Ok LoopExit, st', []))
      /\ (forall ws_exit_suppresses attempts,
            connect_loop ws_exit_suppresses attempts st'
            = (Ok LoopExit, st', []))
      /\ (forall n others k sec,
            heartbeat_interval_from n others k sec st' = (Ok tt, st', []))
      /\ (forall fuel others,
            wait_heartbeat (S fuel) others st' = Some (set_pong st' 0, []))
      /\ close st' = (Ok tt, st', [LogInfo Closing]).
Proof.
  intros st. exists (set_connection (set_keep_run st false) None).
  split; [apply close_eq|]. repeat split.
  - intros frames. now apply recv_loop_dead.
  - intros sup attempts. now apply connect_loop_stopped.
  - intros n others k sec. now apply heartbeat_interval_from_dead.
  - intros fuel others. unfold wait_heartbeat.
    apply wait_heartbeat_from_dead. apply andb_false_r.
Qed.

(** *** Frames that go on *)

Lemma frame_effects_process p st :
  s p <> 1 -> s p <> 5 ->
  process_frame p st
  = (Ok tt, (if s p =? 3 then set_pong (recorded st p) 1 else recorded st p),
     frame_effects p).
Proof.
  intros H1 H5. unfold frame_effects.
  destruct (Z.eqb_spec (s p) 0) as [H0|H0].
  { rewrite process_frame_event by assumption. now rewrite H0. }
  destruct (Z.eqb_spec (s p) 6) as [H6|H6].
  { rewrite process_frame_resume_ack by assumption. now rewrite H6. }
  destruct (Z.eqb_spec (s p) 3) as [H3|H3].
  { now rewrite process_frame_pong by assumption. }
  now apply process_frame_other.
Qed.

(** On frames that are neither handshake results nor requests to
    reconnect, the receive loop goes on to the end: it starts one handler
    task per event, in the order of the frames and with the data of each,
    logs each acknowledgement of a resume, sends nothing and closes
    nothing; it leaves the address, the connection, the session and the
    appid as they were, [last_sn] follows the frames, and the flag is set
    if a heartbeat acknowledgement was among them. *)
Theorem frames_are_dispatched_in_order :
  forall frames st,
    __still_alive st = true ->
    Forall (fun p => s p <> 1 /\ s p <> 5) frames ->
    exists st',
      recv_loop frames st
      = (Ok AwaitingRecv, st', concat (map frame_effects frames))
      /\ ws_url st' = ws_url st
      /\ connection st' = connection st
      /\ keep_run st' = keep_run st
      /\ session st' = session st
      /\ appid st' = appid st
      /\ last_sn st' = last_sn_of frames (last_sn st)
      /\ pong st'
         = if existsb (fun p => s p =? 3) frames then 1 else pong st.
Proof.
  intros frames. induction frames as [|p frames IH]; intros st Ha Hall.
  - exists st. simpl. rewrite Ha. repeat split.
  - inversion Hall as [|x xs [H1 H5] Hrest]; subst.
    set (st1 := if s p =? 3 then set_pong (recorded st p) 1
                else recorded st p).
    assert (Hfields : ws_url st1 = ws_url st /\ connection st1 = connection st
                      /\ keep_run st1 = keep_run st /\ session st1 = session st
                      /\ appid st1 = appid st
                      /\ last_sn st1 = default (last_sn st) (sn p)
                      /\ pong st1 = if s p =? 3 then 1 else pong st).
    { subst st1. destruct (s p =? 3); repeat split. }
    destruct Hfields as (Hu & Hc & Hk & Hse & Hap & Hsn & Hp).
    assert (Ha1 : __still_alive st1 = true).
    { unfold __still_alive in *. now rewrite Hc, Hk. }
    destruct (IH st1 Ha1 Hrest)
      as (st' & Hrun & Hu' & Hc' & Hk' & Hse' & Hap' & Hsn' & Hp').
    exists st'. split.
    { cbn [recv_loop]. rewrite Ha. unfold bind.
      rewrite frame_effects_process by assumption. fold st1. rewrite Hrun.
      reflexivity. }
    repeat split; try congruence.
    + rewrite Hsn'. simpl. now rewrite Hsn.
    + rewrite Hp'. simpl. rewrite Hp.
      destruct (s p =? 3); simpl; [|reflexivity].
      now destruct (existsb _ frames).
Qed.

(** *** Attempts and the gateway *)

Section Gateway.
Variable ws_exit_suppresses : exn -> bool.

Lemma connect_attempt_refused gateway frames st e st0 e0 :
  request_gateway gateway st = (Raise e, st0, e0) ->
  __connect ws_exit_suppresses gateway frames st
  = (Raise e, set_connection st0 None,
     e0 ++ match connection st0 with Some _ => [WsClose] | None => [] end).
Proof.
  intros Hg. unfold __connect, bind at 1. rewrite Hg.
  now rewrite close_connection_eq.
Qed.

Lemma request_gateway_unanswered gateway st :
  truthy (ws_url st) = false ->
  match gateway with
  | Ok (Some resp) => truthy resp = false
  | _ => True
  end ->
  request_gateway gateway st
  = (Raise (match gateway with Raise e => e | _ => TimeoutError end), st,
     [LogInfo RequestingGateway; HttpGet "/gateway/index"]).
Proof.
  intros Hu Hg. unfold request_gateway, bind, get, when, emit, lift, raise.
  rewrite Hu. simpl.
  destruct gateway as [[resp|]|e]; simpl; try reflexivity.
  rewrite Hg. reflexivity.
Qed.

(** Without a cached address an attempt asks for the gateway.  When the
    request raises, or answers nothing or an empty value, the error (a
    [TimeoutError] in the last two cases) leaves [__connect] and the loop
    of [connect]: no connection is opened, there is no sleep and no further
    attempt, whatever the context manager of the connection would
    swallow. *)
Theorem gateway_failure_escapes_connect :
  forall gateway frames rest st,
    keep_run st = true ->
    truthy (ws_url st) = false ->
    match gateway with
    | Ok (Some resp) => truthy resp = false
    | _ => True
    end ->
    connect_loop ws_exit_suppresses ((gateway, frames) :: rest) st
    = (Raise (match gateway with Raise e => e | _ => TimeoutError end),
       set_connection st None,
       [LogInfo RequestingGateway; HttpGet "/gateway/index"]
       ++ match connection st with Some _ => [WsClose] | None => [] end).
Proof.
  intros gateway frames rest st Hk Hu Hg.
  cbn [connect_loop]. rewrite Hk. unfold bind at 1.
  rewrite (connect_attempt_refused _ _ _ _ _ _
             (request_gateway_unanswered gateway st Hu Hg)).
  reflexivity.
Qed.

Lemma request_gateway_cached gateway st :
  truthy (ws_url st) = true ->
  request_gateway gateway st = (Ok tt, st, [LogInfo Connecting]).
Proof.
  intros Hu. unfold request_gateway, bind, get, when, emit, ret.
  rewrite Hu. reflexivity.
Qed.

(** An attempt that finds a cached address does not ask for the gateway,
    whatever it would answer: it opens the connection at that address, and
    on the handshake result it resumes with a frame of kind [4] whose [sn]
    is the [last_sn] it kept. *)
Theorem cached_address_is_reused :
  forall gateway hello code session_id st,
    truthy (ws_url st) = true ->
    keep_run st = true ->
    last_sn st <> 0 ->
    s hello = 1 ->
    sn hello = None ->
    getitem (d hello) "code" = Ok code ->
    ne_zero code = false ->
    getitem (d hello) "session_id" = Ok session_id ->
    exists st',
      __connect ws_exit_suppresses gateway [hello] st
      = (Ok AwaitingRecv, st',
         [LogInfo Connecting; WsOpen (ws_url st); LogInfo Resuming;
          WsSend (mkWSPayload 4 PyNone (Some (last_sn st)) PyNone);
          CreateTask HeartbeatInterval])
      /\ ws_url st' = ws_url st
      /\ last_sn st' = last_sn st
      /\ session st' = session_id
      /\ connection st' = Some (Websocket (ws_url st)).
Proof.
  intros gateway hello code session_id st Hu Hk Hsn Hs Hnone Hc Hz Hsid.
  rewrite (connect_attempt_eq _ _ [hello] st _ _
             (request_gateway_cached gateway st Hu)).
  set (st0 := set_connection st (Some (Websocket (ws_url st)))).
  assert (Hrec : recorded st0 hello = st0).
  { unfold recorded. rewrite Hnone. exact (set_last_sn_same st0). }
  assert (Hloop :
    recv_loop [hello] st0
    = (Ok AwaitingRecv, set_session st0 session_id,
       [LogInfo Resuming;
        WsSend (mkWSPayload 4 PyNone (Some (last_sn st)) PyNone);
        CreateTask HeartbeatInterval])).
  { simpl. unfold __still_alive at 1. simpl. rewrite Hk. simpl. unfold bind.
    rewrite process_frame_handshake by assumption. rewrite Hrec.
    rewrite (on_handshake_result_resume hello st0 code session_id
               (Websocket (ws_url st))); try assumption; try reflexivity.
    unfold __still_alive. simpl. rewrite Hk. reflexivity. }
  rewrite Hloop. eexists. split; [reflexivity|]. repeat split.
Qed.

(** [connect] first asks who the bot is.  The identifier of an answer
    becomes the appid before the first attempt, and nothing else of the
    instance changes; no answer, or an empty one, leaves the appid; a
    request that raises, and an answer without ["data"], end [connect] with
    the error before any attempt. *)
Theorem connect_learns_appid :
  forall attempts st,
    (forall me data id,
       truthy me = true ->
       getitem me "data" = Ok data ->
       getitem data "id" = Ok id ->
       connect ws_exit_suppresses (Ok (Some me)) attempts st
       = match
           connect_loop ws_exit_suppresses attempts
             (mkKOOK id (keep_run st) (ws_url st) (connection st) (pong st)
                     (last_sn st) (session st))
         with
         | (r, st', e) => (r, st', HttpGet "/user/me" :: e)
         end)
    /\ (forall me,
          me = None \/ (exists v, me = Some v /\ truthy v = false) ->
          connect ws_exit_suppresses (Ok me) attempts st
          = match connect_loop ws_exit_suppresses attempts st with
            | (r, st', e) => (r, st', HttpGet "/user/me" :: e)
            end)
    /\ (forall e,
          connect ws_exit_suppresses (Raise e) attempts st
          = (Raise e, st, [HttpGet "/user/me"]))
    /\ (forall me e,
          truthy me = true ->
          getitem me "data" = Raise e ->
          connect ws_exit_suppresses (Ok (Some me)) attempts st
          = (Raise e, st, [HttpGet "/user/me"])).
Proof.
  intros attempts st. repeat split.
  - intros me data id Ht Hd Hid.
    unfold connect, bind, emit, lift, when, modify. simpl.
    rewrite Ht, Hd, Hid. simpl. unfold set_appid.
    destruct (connect_loop _ attempts _) as [[r st'] e]. reflexivity.
  - intros me [->|(v & -> & Hv)];
      unfold connect, bind, emit, lift, when, ret; simpl; rewrite ?Hv;
      destruct (connect_loop _ attempts st) as [[r st'] e]; reflexivity.
  - intros me e Ht Hd.
    unfold connect, bind, emit, lift, when. simpl. rewrite Ht, Hd. reflexivity.
Qed.

End Gateway.

(** *** Sending messages *)

Lemma get_fold_set_absent (item init : list (string * pyval)) k :
  ~ In k (PyDict.keys item) ->
  PyDict.get
    (fold_left (fun acc kv => PyDict.set acc (fst kv) (snd kv)) item init) k
  = PyDict.get init k.
Proof.
  revert init. induction item as [|[k0 v0] item IH]; intros init Hni;
    [reflexivity|].
  simpl in Hni. cbn [fold_left fst snd]. rewrite IH by tauto.
  apply PyDictFacts.get_set_ne. intros ->. tauto.
Qed.

(** What a dictionary literal that unpacks [item] holds. *)
Lemma get_fold_set (item init : list (string * pyval)) k :
  List.NoDup (PyDict.keys item) ->
  PyDict.get
    (fold_left (fun acc kv => PyDict.set acc (fst kv) (snd kv)) item init) k
  = match PyDict.get item k with
    | Some v => Some v
    | None => PyDict.get init k
    end.
Proof.
  revert init. induction item as [|[k0 v0] item IH]; intros init Hnd;
    [reflexivity|].
  simpl in Hnd. inversion Hnd as [|x xs Hni Hnd']; subst.
  cbn [fold_left fst snd PyDict.get].
  destruct (decide (k = k0)) as [->|Hne].
  - rewrite get_fold_set_absent by assumption. apply PyDictFacts.get_set_eq.
  - rewrite IH by assumption.
    rewrite PyDictFacts.get_set_ne by congruence. reflexivity.
Qed.

Section Messaging.
Variable json_loads : string -> loads_result.
Variable http_post : string -> pyval -> option string.
Variable build_message_send : Chain -> result pyval.
Variable Message_init : Message.
Variable Chain_init : Message -> Chain.

Lemma check_response_refused text data code message :
  json_loads text = Decoded (PyDict data) ->
  PyDict.get data "code" = Some code ->
  ne_zero code = true ->
  PyDict.get data "message" = Some message ->
  (forall k, In k (PyDict.keys data) -> In k ["code"; "message"; "data"]) ->
  __check_response json_loads (Some text) = Raise (ResponseException [] data).
Proof.
  intros Hl Hg Hz Hm Hk. unfold __check_response. rewrite Hl. simpl.
  unfold PyDict.contains at 1. rewrite Hg, Hz.
  rewrite ResponseException_init_kwargs;
    [reflexivity|unfold PyDict.contains; now rewrite ?Hg, ?Hm..|exact Hk].
Qed.

Lemma send_chain_message_eq chain item :
  build_message_send chain = Ok (PyDict item) ->
  send_chain_message json_loads http_post build_message_send chain
  = let url := if truthy (is_direct (data chain))
               then "/direct-message/create" else "/message/create" in
    let target := if truthy (is_direct (data chain))
                  then user_id (data chain) else channel_id (data chain) in
    let payload :=
      if truthy (reference chain)
      then PyDict.set (dict_with_target target item) "quote"
                      (message_id (data chain))
      else dict_with_target target item in
    (match post_request json_loads http_post url (PyDict payload) with
     | Ok resp => Ok [mkKOOKMessageCallback resp]
     | Raise e => Raise e
     end,
     [Post (base_url ++ url) (PyDict payload)]).
Proof.
  intros Hb. unfold send_chain_message, post. rewrite Hb. cbv zeta.
  destruct (post_request _ _ _ _); reflexivity.
Qed.

(** [send_chain_message] makes one request: to the direct-message address
    if the message is direct and to the channel address otherwise.  The
    payload holds what the builder returned; its ["target_id"] is the
    builder's if it gave one, and else the user of a direct message or
    the channel; its ["quote"] is the identifier of the message when the
    chain refers to it, whatever the builder gave.  The call returns one
    callback with the answer, or raises what the check of the answer
    raises. *)
Theorem send_chain_message_payload :
  forall chain item,
    build_message_send chain = Ok (PyDict item) ->
    List.NoDup (PyDict.keys item) ->
    exists url payload,
      send_chain_message json_loads http_post build_message_send chain
      = (match post_request json_loads http_post url (PyDict payload) with
         | Ok resp => Ok [mkKOOKMessageCallback resp]
         | Raise e => Raise e
         end,
         [Post (base_url ++ url) (PyDict payload)])
      /\ url = (if truthy (is_direct (data chain))
                then "/direct-message/create" else "/message/create")
      /\ PyDict.get payload "target_id"
         = Some (default (if truthy (is_direct (data chain))
                          then user_id (data chain)
                          else channel_id (data chain))
                         (PyDict.get item "target_id"))
      /\ PyDict.get payload "quote"
         = (if truthy (reference chain) then Some (message_id (data chain))
            else PyDict.get item "quote")
      /\ forall k,
          k <> "target_id" -> k <> "quote" ->
          PyDict.get payload k = PyDict.get item k.
Proof.
  intros chain item Hb Hnd.
  rewrite (send_chain_message_eq chain item Hb). cbv zeta.
  eexists _, _. split; [reflexivity|]. split; [reflexivity|].
  set (target := if truthy (is_direct (data chain))
                 then user_id (data chain) else channel_id (data chain)).
  assert (Hget : forall k,
            PyDict.get (dict_with_target target item) k
            = match PyDict.get item k with
              | Some v => Some v
              | None => if decide (k = "target_id") then Some target else None
              end).
  { intros k. unfold dict_with_target. rewrite get_fold_set by assumption.
    reflexivity. }
  destruct (truthy (reference chain)).
  - split; [|split].
    + rewrite PyDictFacts.get_set_ne by discriminate. rewrite Hget.
      now destruct (PyDict.get item "target_id").
    + apply PyDictFacts.get_set_eq.
    + intros k Ht Hq. rewrite PyDictFacts.get_set_ne by congruence.
      rewrite Hget. rewrite decide_False by assumption.
      now destruct (PyDict.get item k).
  - split; [|split].
    + rewrite Hget. now destruct (PyDict.get item "target_id").
    + rewrite Hget. now destruct (PyDict.get item "quote").
    + intros k Ht Hq. rewrite Hget. rewrite decide_False by assumption.
      now destruct (PyDict.get item k).
Qed.

(** [send_message] needs a target: with neither a channel nor a user it
    raises [TypeError] before anything is built or sent.  With a channel
    the message goes to the channel address with the channel as target,
    whether a user is given or not; with a user alone it is a direct
    message to that user.  (The message [Message(self)] makes is not
    direct, [Chain(data)] keeps its data, and the builder returns a
    dictionary without ["target_id"].) *)
Theorem send_message_routes_by_target :
  forall chain user_id channel_id direct_src_guild_id,
    (forall m, data (Chain_init m) = m) ->
    truthy (is_direct Message_init) = false ->
    (forall c, exists item,
        build_message_send c = Ok (PyDict item)
        /\ PyDict.get item "target_id" = None) ->
    (truthy channel_id = false -> truthy user_id = false ->
     send_message json_loads http_post build_message_send Message_init
                  Chain_init chain user_id channel_id direct_src_guild_id
     = (Raise TypeError, []))
    /\ (truthy channel_id = true ->
        exists r payload,
          send_message json_loads http_post build_message_send Message_init
                       Chain_init chain user_id channel_id direct_src_guild_id
          = (r, [Post (base_url ++ "/message/create") (PyDict payload)])
          /\ PyDict.get payload "target_id" = Some channel_id)
    /\ (truthy channel_id = false -> truthy user_id = true ->
        exists r payload,
          send_message json_loads http_post build_message_send Message_init
                       Chain_init chain user_id channel_id direct_src_guild_id
          = (r, [Post (base_url ++ "/direct-message/create") (PyDict payload)])
          /\ PyDict.get payload "target_id" = Some user_id).
Proof.
  intros chain uid cid guild Hdata Hfresh Hbuild.
  assert (Htarget : forall target item,
            PyDict.get item "target_id" = None ->
            forall payload,
              payload = dict_with_target target item
              \/ (exists q, payload
                            = PyDict.set (dict_with_target target item)
                                         "quote" q) ->
              PyDict.get payload "target_id" = Some target).
  { intros target item Hnone payload [->|[q ->]];
      rewrite ?PyDictFacts.get_set_ne by discriminate;
      unfold dict_with_target;
      rewrite get_fold_set_absent
        by now apply PyDictFacts.get_not_in_keys_inv.
    all: reflexivity. }
  split; [|split].
  - intros Hc Hu. unfold send_message. now rewrite Hc, Hu.
  - intros Hc. unfold send_message. rewrite Hc. cbn [negb andb].
    set (message := set_builder _ _).
    destruct (Hbuild message) as (item & Hb & Hnone).
    rewrite (send_chain_message_eq message item Hb). cbv zeta.
    assert (Hd : data message
                 = set_channel_id (set_user_id Message_init uid) cid).
    { subst message. simpl. apply Hdata. }
    rewrite Hd. cbn [is_direct set_channel_id set_user_id channel_id].
    rewrite Hfresh. eexists _, _. split; [reflexivity|].
    apply (Htarget cid item Hnone).
    destruct (truthy (reference message)); eauto.
  - intros Hc Hu. unfold send_message. rewrite Hc, Hu. cbn [negb andb].
    set (message := set_builder _ _).
    destruct (Hbuild message) as (item & Hb & Hnone).
    rewrite (send_chain_message_eq message item Hb). cbv zeta.
    assert (Hd : data message
                 = set_is_direct
                     (set_channel_id (set_user_id Message_init uid) cid)
                     (PyBool true)).
    { subst message. simpl. apply Hdata. }
    rewrite Hd.
    cbn [is_direct set_is_direct set_channel_id set_user_id user_id truthy].
    eexists _, _. split; [reflexivity|].
    apply (Htarget uid item Hnone).
    destruct (truthy (reference message)); eauto.
Qed.

(** When the server refuses a request, answering an object with a code
    other than [0] and a message (and at most the key ["data"] besides),
    [recall_message] and [send_chain_message] raise the
    [ResponseException] built from that object, which carries that code and
    that message, after the one request they make; [send_chain_message]
    returns no callback then.  [recall_message] asks to delete the message,
    whatever [target_id] is. *)
Theorem refused_request_raises :
  forall text data code message,
    (forall url payload, http_post url payload = Some text) ->
    json_loads text = Decoded (PyDict data) ->
    PyDict.get data "code" = Some code ->
    ne_zero code = true ->
    PyDict.get data "message" = Some message ->
    (forall k, In k (PyDict.keys data) -> In k ["code"; "message"; "data"]) ->
    exn_code (ResponseException [] data) = Some code
    /\ exn_message (ResponseException [] data) = Some message
    /\ (forall message_id target_id,
       recall_message json_loads http_post message_id target_id
       = (Raise (ResponseException [] data),
          [Post (base_url ++ "/message/delete")
                (PyDict [("msg_id", message_id)])]))
    /\ (forall chain item,
          build_message_send chain = Ok (PyDict item) ->
          exists req,
            send_chain_message json_loads http_post build_message_send chain
            = (Raise (ResponseException [] data), [req])).
Proof.
  intros text data code message Hpost Hl Hg Hz Hm Hk.
  pose proof (check_response_refused text data code message Hl Hg Hz Hm Hk)
    as Hcheck.
  split; [exact Hg|]. split; [exact Hm|]. split.
  - intros mid tid. unfold recall_message, post, post_request.
    now rewrite Hpost, Hcheck.
  - intros chain item Hb. rewrite (send_chain_message_eq chain item Hb).
    cbv zeta. unfold post_request. rewrite Hpost, Hcheck. eauto.
Qed.

End Messaging.

(** *** The heartbeat, period after period *)

(** While the other tasks neither close the connection nor stop the
    adapter, [heartbeat_interval] sends one heartbeat at the end of every
    thirty seconds and nothing in between: after [m] periods it has sent
    [m] frames of kind [2], each followed by the start of a watchdog, and
    the [sn] of each is [last_sn] as it is when that period ends. *)
Theorem heartbeat_repeats_every_thirty_seconds :
  forall others (m : nat) (k : Z) (st : KOOKBotInstance),
    __still_alive st = true ->
    undisturbed_until (k + 30 * Z.of_nat m) others ->
    heartbeat_interval_from (30 * m) others k 0 st
    = (Ok tt, after_sleeps others k (30 * m) st,
       concat
         (map (fun i =>
                 [WsSend (mkWSPayload
                            2 PyNone
                            (Some (last_sn (after_sleeps others k (30 * S i) st)))
                            PyNone);
                  CreateTask WaitHeartbeat])
              (seq 0 m)))
    /\ __still_alive (after_sleeps others k (30 * m) st) = true.
Proof.
  intros others. induction m as [|m IH]; intros k st Ha Hq.
  - split; [reflexivity|exact Ha].
  - replace (30 * S m)%nat with (30 + 30 * m)%nat by lia.
    destruct (heartbeat_interval_from_period others (30 * m) 30 k 0 st)
      as (Ha1 & Hrun); try assumption; try lia.
    { intros j st0 Hj. apply Hq. lia. }
    destruct (IH (k + Z.of_nat 30) (after_sleeps others k 30 st) Ha1)
      as (Hrest & Ha').
    { intros j st0 Hj. apply Hq. lia. }
    rewrite Hrun, Hrest, !after_sleeps_add. split; [|exact Ha'].
    f_equal. cbn [seq map concat]. rewrite <- seq_shift, map_map.
    change (S 0) with 1%nat.
    replace (30 * 1)%nat with 30%nat by lia.
    cbn [app]. do 2 f_equal. f_equal. apply map_ext. intros i.
    replace (30 * S (S i))%nat with (30 + 30 * S i)%nat by lia.
    now rewrite after_sleeps_add.
Qed.

(** *** Further instances *)

(** [heartbeat_repeats_every_thirty_seconds], for ninety seconds beside a
    receive loop that handles the acknowledgements and an event numbered
    [9], and watchdogs that clear the flag. *)
Lemma heartbeat_repeats_every_thirty_seconds_witness :
  heartbeat_interval_from 90 Scenario.acknowledging 0 0
                          (set_last_sn Scenario.connected 7)
  = (Ok tt, set_last_sn Scenario.connected 9,
     [WsSend (mkWSPayload 2 PyNone (Some 7) PyNone); CreateTask WaitHeartbeat;
      WsSend (mkWSPayload 2 PyNone (Some 9) PyNone); CreateTask WaitHeartbeat;
      WsSend (mkWSPayload 2 PyNone (Some 9) PyNone); CreateTask WaitHeartbeat])
  /\ pong (after_sleeps Scenario.acknowledging 0 31
                        (set_last_sn Scenario.connected 7)) = 1
  /\ pong (after_sleeps Scenario.acknowledging 0 32
                        (set_last_sn Scenario.connected 7)) = 0.
Proof.
  split; [|split; reflexivity].
  exact (proj1 (heartbeat_repeats_every_thirty_seconds
                  Scenario.acknowledging 3 0
                  (set_last_sn Scenario.connected 7) eq_refl
                  (undisturbed_until_acknowledging _))).
Defined.

(** [frames_are_dispatched_in_order], at frames of the scenario. *)
Lemma frames_are_dispatched_in_order_witness :
  exists st',
    recv_loop [Scenario.event_frame 5; Scenario.pong_frame;
               Scenario.resume_ack_frame; Scenario.event_frame 6]
              Scenario.connected
    = (Ok AwaitingRecv, st',
       [CreateTask (HandlerTask "event" (PyDict [("type", PyInt 1)]));
        LogInfo ResumeDone;
        CreateTask (HandlerTask "event" (PyDict [("type", PyInt 1)]))])
    /\ last_sn st' = 6
    /\ pong st' = 1.
Proof.
  destruct (frames_are_dispatched_in_order
              [Scenario.event_frame 5; Scenario.pong_frame;
               Scenario.resume_ack_frame; Scenario.event_frame 6]
              Scenario.connected eq_refl)
    as (st' & Hrun & _ & _ & _ & _ & _ & Hsn & Hp).
  { repeat constructor; discriminate. }
  exists st'. split; [exact Hrun|]. split; [exact Hsn|exact Hp].
Defined.

(** [gateway_failure_escapes_connect], for a gateway that does not answer
    and a context manager that swallows everything. *)
Lemma gateway_failure_escapes_connect_witness :
  connect_loop Scenario.swallow_all
    [(Ok None, [Scenario.hello_frame]);
     (Ok (Some Scenario.gateway_answer), [Scenario.hello_frame])]
    (KOOK_init "bot")
  = (Raise TimeoutError, KOOK_init "bot",
     [LogInfo RequestingGateway; HttpGet "/gateway/index"]).
Proof.
  exact (gateway_failure_escapes_connect Scenario.swallow_all
           (Ok None) [Scenario.hello_frame]
           [(Ok (Some Scenario.gateway_answer), [Scenario.hello_frame])]
           (KOOK_init "bot") eq_refl eq_refl I).
Defined.

(** [cached_address_is_reused], for an instance that lost its connection
    after the event numbered 5 and a gateway that would raise. *)
Lemma cached_address_is_reused_witness :
  exists st',
    __connect Scenario.swallow_none (Raise TypeError) [Scenario.hello_frame]
      (set_last_sn (set_ws_url (KOOK_init "bot") (PyStr "wss://gateway")) 5)
    = (Ok AwaitingRecv, st',
       [LogInfo Connecting; WsOpen (PyStr "wss://gateway"); LogInfo Resuming;
        WsSend (mkWSPayload 4 PyNone (Some 5) PyNone);
        CreateTask HeartbeatInterval])
    /\ session st' = PyStr "abc".
Proof.
  destruct (cached_address_is_reused Scenario.swallow_none (Raise TypeError)
              Scenario.hello_frame (PyInt 0) (PyStr "abc")
              (set_last_sn (set_ws_url (KOOK_init "bot")
                                       (PyStr "wss://gateway")) 5)
              eq_refl eq_refl)
    as (st' & Hrun & _ & _ & Hs & _); try reflexivity; [discriminate|].
  exists st'. split; [exact Hrun|exact Hs].
Defined.

(** [connect_learns_appid], for an answer that names the bot [42]. *)
Lemma connect_learns_appid_witness :
  connect Scenario.swallow_none
    (Ok (Some (PyDict [("code", PyInt 0);
                       ("data", PyDict [("id", PyStr "42")])])))
    [] (KOOK_init "bot")
  = (Ok AwaitingRecv,
     mkKOOK (PyStr "42") true (PyStr "") None 0 0 PyNone,
     [HttpGet "/user/me"])
  /\ appid (KOOK_init "bot") = PyStr "bot".
Proof.
  split; [|reflexivity].
  exact (proj1 (connect_learns_appid Scenario.swallow_none []
                  (KOOK_init "bot"))
               (PyDict [("code", PyInt 0);
                        ("data", PyDict [("id", PyStr "42")])])
               (PyDict [("id", PyStr "42")]) (PyStr "42")
               eq_refl eq_refl eq_refl).
Defined.

(** [send_chain_message_payload], for an answer in a channel that quotes
    the message it answers. *)
Lemma send_chain_message_payload_witness :
  exists url payload,
    send_chain_message Scenario.toy_loads Scenario.silent_post
                       Scenario.text_builder Scenario.quoting_chain
    = (Ok [mkKOOKMessageCallback None],
       [Post (base_url ++ url) (PyDict payload)])
    /\ url = "/message/create"%string
    /\ PyDict.get payload "target_id" = Some (PyStr "c1")
    /\ PyDict.get payload "quote" = Some (PyStr "m1")
    /\ PyDict.get payload "content" = Some (PyStr "hi").
Proof.
  destruct (send_chain_message_payload Scenario.toy_loads
              Scenario.silent_post Scenario.text_builder
              Scenario.quoting_chain _ eq_refl)
    as (url & payload & Hrun & Hurl & Ht & Hq & Hk).
  { repeat constructor; simpl; intuition discriminate. }
  exists url, payload. rewrite Hurl in *.
  split; [exact Hrun|]. split; [reflexivity|].
  split; [exact Ht|]. split; [exact Hq|].
  rewrite Hk by discriminate. reflexivity.
Defined.

(** [send_message_routes_by_target], without a target and with a user
    alone. *)
Lemma send_message_routes_by_target_witness :
  send_message Scenario.toy_loads Scenario.silent_post Scenario.text_builder
               Scenario.fresh_message Scenario.new_chain
               Scenario.quoting_chain (PyStr "") (PyStr "") (PyStr "")
  = (Raise TypeError, [])
  /\ (exists r payload,
        send_message Scenario.toy_loads Scenario.silent_post
                     Scenario.text_builder Scenario.fresh_message
                     Scenario.new_chain Scenario.quoting_chain
                     (PyStr "u7") (PyStr "") (PyStr "")
        = (r, [Post (base_url ++ "/direct-message/create") (PyDict payload)])
        /\ PyDict.get payload "target_id" = Some (PyStr "u7")).
Proof.
  split.
  - apply (send_message_routes_by_target Scenario.toy_loads
             Scenario.silent_post Scenario.text_builder
             Scenario.fresh_message Scenario.new_chain Scenario.quoting_chain
             (PyStr "") (PyStr "") (PyStr "")); try reflexivity.
    intros c. eexists. split; reflexivity.
  - apply (send_message_routes_by_target Scenario.toy_loads
             Scenario.silent_post Scenario.text_builder
             Scenario.fresh_message Scenario.new_chain Scenario.quoting_chain
             (PyStr "u7") (PyStr "") (PyStr "")); try reflexivity.
    intros c. eexists. split; reflexivity.
Defined.

(** [refused_request_raises], for a recall the server refuses. *)
Lemma refused_request_raises_witness :
  recall_message Scenario.toy_loads Scenario.refusing_post (PyStr "m1") PyNone
  = (Raise (ResponseException
              [] [("code", PyInt 40000); ("message", PyStr "no")]),
     [Post (base_url ++ "/message/delete") (PyDict [("msg_id", PyStr "m1")])]).
Proof.
  apply (refused_request_raises Scenario.toy_loads Scenario.refusing_post
           Scenario.text_builder "{code: 40000, message: no}" _ (PyInt 40000)
           (PyStr "no"));
    try reflexivity.
  simpl. tauto.
Defined.

End KookSpec.

(** ** The mirai-api-http adapter *)

Module MiraiSpec.
Import Mirai.

Section Adapter.
Variable json_loads : string -> Kook.loads_result.
Variable bytes_str : string -> string.
Variable log_catch_suppresses : error -> bool.
Variable ws_exit_suppresses : error -> bool.

#[local] Abbreviation handle_message' :=
  (handle_message json_loads log_catch_suppresses).
#[local] Abbreviation recv_loop' :=
  (recv_loop json_loads bytes_str log_catch_suppresses).
#[local] Abbreviation connect' :=
  (connect json_loads bytes_str log_catch_suppresses ws_exit_suppresses).

(** [handle_message] on a message whose ["data"] is an object.  With a
    text under ["session"] it stores the session, logs the handshake and
    returns [False] without calling the handler; without ["session"] it
    starts one handler task with the event [''] and the data and changes
    nothing.  A session that is no text is stored before the log line
    raises [TypeError].  A text that is not JSON, and a message without
    ["data"], change nothing and start nothing; the error stays inside
    [handle_message] if [log.catch] swallows it. *)
Theorem handle_message_contract :
  forall message st,
    (forall payload data text,
       json_loads message = Kook.Decoded payload ->
       Kook.getitem payload "data" = Ok (PyDict data) ->
       PyDict.get data "session" = Some (PyStr text) ->
       handle_message json_loads log_catch_suppresses message st
       = (Returned (PyBool false), set_session st (PyStr text),
          [LogInfo (HandshakeSuccessful text)]))
    /\ (forall payload data,
          json_loads message = Kook.Decoded payload ->
          Kook.getitem payload "data" = Ok (PyDict data) ->
          PyDict.get data "session" = None ->
          handle_message json_loads log_catch_suppresses message st
          = (Returned PyNone, st, [CreateTask (HandlerTask "" (PyDict data))]))
    /\ (forall payload data session,
          json_loads message = Kook.Decoded payload ->
          Kook.getitem payload "data" = Ok (PyDict data) ->
          PyDict.get data "session" = Some session ->
          (forall text, session <> PyStr text) ->
          handle_message json_loads log_catch_suppresses message st
          = (if log_catch_suppresses (PyError TypeError)
             then Returned PyNone else Raised (PyError TypeError),
             set_session st session, []))
    /\ (forall repr,
          json_loads message = Kook.JSONDecodeError repr ->
          handle_message json_loads log_catch_suppresses message st
          = (if log_catch_suppresses (JSONDecodeError repr)
             then Returned PyNone else Raised (JSONDecodeError repr),
             st, []))
    /\ (forall payload e,
          json_loads message = Kook.Decoded payload ->
          Kook.getitem payload "data" = Raise e ->
          handle_message json_loads log_catch_suppresses message st
          = (if log_catch_suppresses (PyError e)
             then Returned PyNone else Raised (PyError e),
             st, [])).
Proof.
  intros message st. unfold handle_message, handle_message_block.
  split; [|split; [|split; [|split]]].
  - intros payload data text -> -> Hs. simpl. unfold PyDict.contains.
    now rewrite Hs.
  - intros payload data -> -> Hs. simpl. unfold PyDict.contains.
    now rewrite Hs.
  - intros payload data session -> -> Hs Hne. simpl. unfold PyDict.contains.
    rewrite Hs.
    destruct session; try (destruct (log_catch_suppresses _); reflexivity).
    now destruct (Hne s).
  - intros repr ->. now destruct (log_catch_suppresses _).
  - intros payload e -> ->. now destruct (log_catch_suppresses _).
Qed.

(** What [handle_message] leaves alone. *)
Lemma handle_message_frame message st r st' eff :
  handle_message' message st = (r, st', eff) ->
  alive st' = alive st
  /\ connection st' = connection st
  /\ url st' = url st
  /\ appid st' = appid st
  /\ (eff = []
      \/ (exists text, eff = [LogInfo (HandshakeSuccessful text)]
                       /\ session st' = PyStr text)
      \/ (exists data, eff = [CreateTask (HandlerTask "" data)]
                       /\ st' = st)).
Proof.
  unfold handle_message, handle_message_block.
  destruct (json_loads message) as [payload|repr].
  2:{ destruct (log_catch_suppresses _); intros [= <- <- <-]; auto 10. }
  destruct (Kook.getitem payload "data") as [data|e].
  2:{ destruct (log_catch_suppresses _); intros [= <- <- <-]; auto 10. }
  destruct (Kook.py_in "session" data) as [[]|e].
  3:{ destruct (log_catch_suppresses _); intros [= <- <- <-]; auto 10. }
  2:{ intros [= <- <- <-]. repeat split. right. right. eauto. }
  destruct (Kook.getitem data "session") as [session|e].
  2:{ destruct (log_catch_suppresses _); intros [= <- <- <-]; auto 10. }
  destruct session;
    try (destruct (log_catch_suppresses _); intros [= <- <- <-];
         repeat split; auto).
  intros [= <- <- <-]. repeat split. right. left. eauto.
Qed.

(** Whatever the message is, [handle_message] changes neither [alive] nor
    the connection, the address or the appid, and it does one of three
    things: nothing to the outside; or it logs a handshake, the session
    then being the text logged; or it starts one handler task with the
    event [''], and then it has changed nothing at all. *)
Theorem handle_message_touches_the_session_only :
  forall message st,
    match handle_message json_loads log_catch_suppresses message st with
    | (r, st', eff) =>
        alive st' = alive st
        /\ connection st' = connection st
        /\ url st' = url st
        /\ appid st' = appid st
        /\ (eff = []
            \/ (exists text, eff = [LogInfo (HandshakeSuccessful text)]
                             /\ session st' = PyStr text)
            \/ (exists data, eff = [CreateTask (HandlerTask "" data)]
                             /\ st' = st))
    end.
Proof.
  intros message st.
  destruct (handle_message' message st) as [[r st'] eff] eqn:Hrun.
  exact (handle_message_frame message st r st' eff Hrun).
Qed.

(** *** The loop of [connect] *)

Lemma mirai_recv_loop_app pre rest st st1 e1 :
  recv_loop' pre st = (Returned AwaitingRecv, st1, e1) ->
  recv_loop' (pre ++ rest) st
  = match recv_loop' rest st1 with (r, st2, e2) => (r, st2, e1 ++ e2) end.
Proof.
  revert st e1. induction pre as [|ev pre IH]; intros st e1.
  - cbn [recv_loop app]. destruct (alive st) eqn:Ha; [|discriminate].
    intros [= <- <-]. now destruct (recv_loop' rest st) as [[r st2] e2].
  - cbn [recv_loop app]. destruct (alive st) eqn:Ha; [|discriminate].
    destruct ev as [message|e]; [|discriminate].
    destruct (is_empty_bytes message); [discriminate|].
    destruct (handle_message' (str bytes_str message) st)
      as [[[v|e] st0] e0]; [|discriminate].
    destruct (recv_loop' pre st0) as [[r st2] e2] eqn:Hpre.
    intros [= -> -> <-]. rewrite (IH _ _ Hpre).
    destruct (recv_loop' rest st1) as [[r' st3] e3].
    now rewrite app_assoc.
Qed.

Lemma mirai_recv_loop_receiving pre st st1 e1 :
  recv_loop' pre st = (Returned AwaitingRecv, st1, e1) ->
  alive st1 = true /\ connection st1 = connection st /\ url st1 = url st.
Proof.
  revert st e1. induction pre as [|ev pre IH]; intros st e1;
    cbn [recv_loop]; destruct (alive st) eqn:Ha; try discriminate.
  - intros [= <- <-]. auto.
  - destruct ev as [message|e]; [|discriminate].
    destruct (is_empty_bytes message); [discriminate|].
    destruct (handle_message' (str bytes_str message) st)
      as [[[v|e] st0] e0] eqn:Hh; [|discriminate].
    destruct (recv_loop' pre st0) as [[r st2] e2] eqn:Hpre.
    intros [= -> -> <-].
    destruct (handle_message_frame _ _ _ _ _ Hh) as (_ & Hc & Hu & _).
    destruct (IH _ _ Hpre) as (Ha' & Hc' & Hu'). repeat split; congruence.
Qed.

Lemma handle_message_no_reconnect message st r st' eff :
  handle_message' message st = (r, st', eff) ->
  ~ In (CreateTask Reconnect) eff.
Proof.
  intros Hh.
  destruct (handle_message_frame _ _ _ _ _ Hh)
    as (_ & _ & _ & _ & [->|[(t & -> & _)|(dt & -> & _)]]);
    simpl; intuition discriminate.
Qed.

Lemma mirai_recv_loop_no_reconnect events :
  forall st r st' eff,
    recv_loop' events st = (r, st', eff) -> ~ In (CreateTask Reconnect) eff.
Proof.
  induction events as [|ev events IH]; intros st r st' eff;
    cbn [recv_loop]; destruct (alive st);
    try (intros [= <- <- <-]; simpl; tauto).
  destruct ev as [message|ex]; [|intros [= <- <- <-]; simpl; tauto].
  destruct (is_empty_bytes message).
  { intros [= <- <- <-]. simpl. intuition discriminate. }
  destruct (handle_message' (str bytes_str message) st)
    as [[[v|ex] st1] e1] eqn:Hh.
  - destruct (recv_loop' events st1) as [[r' st2] e2] eqn:Hrest.
    intros [= <- <- <-]. rewrite in_app_iff. intros [Hin|Hin].
    + eapply handle_message_no_reconnect; eassumption.
    + eapply IH; eassumption.
  - intros [= <- <- <-]. eapply handle_message_no_reconnect; eassumption.
Qed.

Lemma mirai_connect_receiving pre st st1 e1 :
  connect' (Returned tt) pre st = (Returned Receiving, st1, e1) ->
  exists e,
    recv_loop' pre (set_connection st (Some (Websocket (url st))))
    = (Returned AwaitingRecv, st1, e)
    /\ e1 = LogInfo Connecting :: WsOpen (url st) :: LogInfo ConnectSuccessful
            :: e.
Proof.
  unfold connect, with_websocket.
  destruct (recv_loop' pre _) as [[[[]|e] st0] e0].
  - intros [= <- <-]. eauto.
  - discriminate.
  - discriminate.
  - destruct (ws_exit_suppresses e); [discriminate|].
    destruct e; discriminate.
Qed.

(** [connect] once the connection is open, by the way its loop ends. *)
Lemma mirai_connect_eq events st :
  connect' (Returned tt) events st
  = match recv_loop' events (set_connection st (Some (Websocket (url st)))) with
    | (Returned AwaitingRecv, st1, e1) =>
        (Returned Receiving, st1,
         LogInfo Connecting :: WsOpen (url st) :: LogInfo ConnectSuccessful
         :: e1)
    | (Returned ReturnFalse, st1, e1) =>
        (Returned ReturnedFalse, st1,
         LogInfo Connecting :: WsOpen (url st) :: LogInfo ConnectSuccessful
         :: e1)
    | (Returned LoopExit, st1, e1) =>
        (Returned ReturnedNone, st1,
         LogInfo Connecting :: WsOpen (url st) :: LogInfo ConnectSuccessful
         :: e1 ++ [WsClose; LogInfo Closed; Sleep 10; CreateTask Reconnect])
    | (Raised e, st1, e1) =>
        if ws_exit_suppresses e then
          (Returned ReturnedNone, st1,
           LogInfo Connecting :: WsOpen (url st) :: LogInfo ConnectSuccessful
           :: e1 ++ [Sleep 10; CreateTask Reconnect])
        else
          match e with
          | ConnectionClosedOK =>
              (Returned ReturnedNone, st1,
               LogInfo Connecting :: WsOpen (url st)
               :: LogInfo ConnectSuccessful
               :: e1 ++ [LogError ConnectionClosed; Sleep 10;
                         CreateTask Reconnect])
          | ConnectionRefusedError =>
              (Returned ReturnedNone, st1,
               LogInfo Connecting :: WsOpen (url st)
               :: LogInfo ConnectSuccessful
               :: e1 ++ [LogError CannotConnect; Sleep 10;
                         CreateTask Reconnect])
          | _ =>
              (Raised e, st1,
               LogInfo Connecting :: WsOpen (url st)
               :: LogInfo ConnectSuccessful :: e1)
          end
    end.
Proof.
  unfold connect, with_websocket.
  destruct (recv_loop' events _) as [[[[]|e] st0] e0]; cbn [app].
  - reflexivity.
  - rewrite <- app_assoc. reflexivity.
  - reflexivity.
  - destruct (ws_exit_suppresses e); [reflexivity|].
    destruct e; reflexivity.
Qed.

(** An empty [bytes] message, received while [connect] is receiving, makes
    [connect] close the connection and return [False]: what would follow
    is not read, and no next call of [connect] is scheduled. *)
Theorem empty_bytes_end_connect :
  forall pre post st st1 e1,
    connect json_loads bytes_str log_catch_suppresses ws_exit_suppresses
            (Returned tt) pre st
    = (Returned Receiving, st1, e1) ->
    connect json_loads bytes_str log_catch_suppresses ws_exit_suppresses
            (Returned tt) (pre ++ Recv (Binary "") :: post) st
    = (Returned ReturnedFalse, st1, e1 ++ [WsClose])
    /\ ~ In (CreateTask Reconnect) (e1 ++ [WsClose]).
Proof.
  intros pre post st st1 e1 Hrun.
  apply mirai_connect_receiving in Hrun as (e & Hloop & ->).
  destruct (mirai_recv_loop_receiving _ _ _ _ Hloop) as (Ha & _).
  split.
  - rewrite mirai_connect_eq,
      (mirai_recv_loop_app _ (Recv (Binary "") :: post) _ _ _ Hloop).
    cbn [recv_loop is_empty_bytes String.eqb]. rewrite Ha. reflexivity.
  - rewrite in_app_iff. simpl.
    intros [[|[|[|Hin]]]|[|[]]]; try discriminate.
    eapply mirai_recv_loop_no_reconnect; eassumption.
Qed.

(** When [recv] raises [ConnectionClosedOK] while [connect] is receiving,
    [connect] logs it (unless the context manager of the connection
    swallowed it), sleeps ten seconds and schedules the next call; so it
    does when the connection is refused, and, after closing the connection
    it has just opened, when [alive] is cleared.  A
    [ConnectionClosedError] that the context manager lets through leaves
    [connect], and nothing is scheduled. *)
Theorem closed_connection_is_retried :
  forall pre post st st1 e1,
    connect json_loads bytes_str log_catch_suppresses ws_exit_suppresses
            (Returned tt) pre st
    = (Returned Receiving, st1, e1) ->
    connect json_loads bytes_str log_catch_suppresses ws_exit_suppresses
            (Returned tt) (pre ++ RecvRaises ConnectionClosedOK :: post) st
    = (Returned ReturnedNone, st1,
       e1 ++ (if ws_exit_suppresses ConnectionClosedOK then []
              else [LogError ConnectionClosed])
          ++ [Sleep 10; CreateTask Reconnect])
    /\ (ws_exit_suppresses ConnectionClosedError = false ->
        connect json_loads bytes_str log_catch_suppresses ws_exit_suppresses
                (Returned tt)
                (pre ++ RecvRaises ConnectionClosedError :: post) st
        = (Raised ConnectionClosedError, st1, e1))
    /\ (forall events st0,
          connect json_loads bytes_str log_catch_suppresses
                  ws_exit_suppresses (Raised ConnectionRefusedError)
                  events st0
          = (Returned ReturnedNone, st0,
             [LogInfo Connecting; WsOpen (url st0); LogError CannotConnect;
              Sleep 10; CreateTask Reconnect]))
    /\ (forall events st0,
          alive st0 = false ->
          connect json_loads bytes_str log_catch_suppresses
                  ws_exit_suppresses (Returned tt) events st0
          = (Returned ReturnedNone,
             set_connection st0 (Some (Websocket (url st0))),
             [LogInfo Connecting; WsOpen (url st0); LogInfo ConnectSuccessful;
              WsClose; LogInfo Closed; Sleep 10; CreateTask Reconnect])).
Proof.
  intros pre post st st1 e1 Hrun.
  apply mirai_connect_receiving in Hrun as (e & Hloop & ->).
  destruct (mirai_recv_loop_receiving _ _ _ _ Hloop) as (Ha & _).
  split; [|split; [|split]].
  - rewrite mirai_connect_eq,
      (mirai_recv_loop_app _ (RecvRaises _ :: post) _ _ _ Hloop).
    cbn [recv_loop]. rewrite Ha.
    destruct (ws_exit_suppresses ConnectionClosedOK);
      cbn [app]; now rewrite app_nil_r.
  - intros Hs.
    rewrite mirai_connect_eq,
      (mirai_recv_loop_app _ (RecvRaises _ :: post) _ _ _ Hloop).
    cbn [recv_loop]. rewrite Ha, Hs. cbn [app]. now rewrite app_nil_r.
  - reflexivity.
  - intros events st0 Ha0. rewrite mirai_connect_eq.
    destruct events; cbn [recv_loop set_connection alive];
      rewrite Ha0; reflexivity.
Qed.

(** *** Sending *)

Lemma send_each_connected payloads st ws :
  connection st = Some ws ->
  send_each payloads st = (Returned tt, map WsSend payloads).
Proof.
  intros Hc. induction payloads as [|p ps IH]; simpl; [reflexivity|].
  now rewrite Hc, IH.
Qed.

(** With a connection, [send_chain_message] sends the reply, if there is
    one, and then the voices in their order, and clears the reference of
    the chain when there are voices.  Without a connection it raises
    [AttributeError] at the first thing it has to send and sends nothing;
    when that is a voice, the reference is already cleared. *)
Theorem reply_goes_before_the_voices :
  forall reply voice_list reference st,
    (forall ws,
       connection st = Some ws ->
       send_chain_message reply voice_list reference st
       = (Returned tt,
          match voice_list with [] => reference | _ => PyBool false end,
          (if truthy reply then [WsSend reply] else [])
          ++ map WsSend voice_list))
    /\ (connection st = None ->
        send_chain_message reply voice_list reference st
        = if truthy reply then (Raised (PyError AttributeError), reference, [])
          else match voice_list with
               | [] => (Returned tt, reference, [])
               | _ => (Raised (PyError AttributeError), PyBool false, [])
               end).
Proof.
  intros reply voice_list reference st. split.
  - intros ws Hc. unfold send_chain_message.
    rewrite !(send_each_connected _ st ws Hc).
    destruct (truthy reply), voice_list; reflexivity.
  - intros Hc. unfold send_chain_message.
    destruct (truthy reply); simpl; rewrite ?Hc; [reflexivity|].
    destruct voice_list; simpl; rewrite ?Hc; reflexivity.
Qed.

End Adapter.

(** *** Instances *)

(** [handle_message_contract], at the messages of the scenario and a text
    that is not JSON. *)
Lemma handle_message_contract_witness :
  handle_message Scenario.mirai_loads Scenario.catch_all
    "{data: {session: abc}}" Scenario.mirai_bot
  = (Returned (PyBool false), set_session Scenario.mirai_bot (PyStr "abc"),
     [LogInfo (HandshakeSuccessful "abc")])
  /\ handle_message Scenario.mirai_loads Scenario.catch_all
       "{data: {type: FriendMessage}}" Scenario.mirai_bot
     = (Returned PyNone, Scenario.mirai_bot,
        [CreateTask (HandlerTask "" (PyDict [("type", PyStr "FriendMessage")]))])
  /\ handle_message Scenario.mirai_loads Scenario.catch_all "b'01'"
                    Scenario.mirai_bot
     = (Returned PyNone, Scenario.mirai_bot, []).
Proof.
  split; [|split].
  - destruct (handle_message_contract Scenario.mirai_loads Scenario.catch_all
                "{data: {session: abc}}" Scenario.mirai_bot) as (H & _).
    exact (H _ _ "abc"%string eq_refl eq_refl eq_refl).
  - destruct (handle_message_contract Scenario.mirai_loads Scenario.catch_all
                "{data: {type: FriendMessage}}" Scenario.mirai_bot)
      as (_ & H & _).
    exact (H _ _ eq_refl eq_refl eq_refl).
  - destruct (handle_message_contract Scenario.mirai_loads Scenario.catch_all
                "b'01'" Scenario.mirai_bot) as (_ & _ & _ & H & _).
    exact (H _ eq_refl).
Defined.

(** [empty_bytes_end_connect], after a handshake and a message. *)
Lemma empty_bytes_end_connect_witness :
  exists st1,
    connect Scenario.mirai_loads Scenario.python_bytes_str Scenario.catch_all
      Scenario.catch_none (Returned tt)
      ([Recv (Text "{data: {session: abc}}");
        Recv (Text "{data: {type: FriendMessage}}")]
       ++ Recv (Binary "") :: [Recv (Text "{data: {type: FriendMessage}}")])
      Scenario.mirai_bot
    = (Returned ReturnedFalse, st1,
       [LogInfo Connecting;
        WsOpen "ws://localhost:8060/all?verifyKey=key&&qq=10001";
        LogInfo ConnectSuccessful;
        LogInfo (HandshakeSuccessful "abc");
        CreateTask (HandlerTask "" (PyDict [("type", PyStr "FriendMessage")]))]
       ++ [WsClose])
    /\ session st1 = PyStr "abc".
Proof.
  eexists.
  destruct (empty_bytes_end_connect Scenario.mirai_loads
              Scenario.python_bytes_str Scenario.catch_all Scenario.catch_none
              [Recv (Text "{data: {session: abc}}");
               Recv (Text "{data: {type: FriendMessage}}")]
              [Recv (Text "{data: {type: FriendMessage}}")]
              Scenario.mirai_bot _ _ eq_refl) as (Hrun & _).
  split; [exact Hrun|reflexivity].
Defined.

(** [closed_connection_is_retried], after a handshake. *)
Lemma closed_connection_is_retried_witness :
  exists st1,
    connect Scenario.mirai_loads Scenario.python_bytes_str Scenario.catch_all
      Scenario.catch_none (Returned tt)
      ([Recv (Text "{data: {session: abc}}")]
       ++ RecvRaises ConnectionClosedOK :: [])
      Scenario.mirai_bot
    = (Returned ReturnedNone, st1,
       [LogInfo Connecting;
        WsOpen "ws://localhost:8060/all?verifyKey=key&&qq=10001";
        LogInfo ConnectSuccessful;
        LogInfo (HandshakeSuccessful "abc")]
       ++ [LogError ConnectionClosed] ++ [Sleep 10; CreateTask Reconnect]).
Proof.
  eexists.
  destruct (closed_connection_is_retried Scenario.mirai_loads
              Scenario.python_bytes_str Scenario.catch_all Scenario.catch_none
              [Recv (Text "{data: {session: abc}}")] []
              Scenario.mirai_bot _ _ eq_refl) as (Hrun & _).
  exact Hrun.
Defined.

(** [reply_goes_before_the_voices], with and without a connection. *)
Lemma reply_goes_before_the_voices_witness :
  send_chain_message (PyStr "reply") [PyStr "v1"; PyStr "v2"] (PyBool true)
    (set_connection Scenario.mirai_bot (Some (Websocket "ws")))
  = (Returned tt, PyBool false,
     [WsSend (PyStr "reply"); WsSend (PyStr "v1"); WsSend (PyStr "v2")])
  /\ send_chain_message (PyStr "") [PyStr "v1"] (PyBool true)
                        Scenario.mirai_bot
     = (Raised (PyError AttributeError), PyBool false, []).
Proof.
  split.
  - exact (proj1 (reply_goes_before_the_voices
                    (PyStr "reply") [PyStr "v1"; PyStr "v2"] (PyBool true)
                    (set_connection Scenario.mirai_bot
                                    (Some (Websocket "ws"))))
                 (Websocket "ws") eq_refl).
  - exact (proj2 (reply_goes_before_the_voices
                    (PyStr "") [PyStr "v1"] (PyBool true) Scenario.mirai_bot)
                 eq_refl).
Defined.

End MiraiSpec.
